(** * Digital content broker: a shallow embedding of the two service variants

    The repository holds two Express services over the same NewsAPI-backed
    feed catalog:

    - the full broker (the variant that logs "Broker running on port"):
      authentication, the items of a feed with their classification, and the
      newsletter digest; it is embedded below as [Module Broker];
    - the earlier, smaller [server.js]: authentication and the items of a
      feed; it is embedded as [Module Server].

    What is modelled, and how:

    - a JavaScript value that may be absent is a [jsval]; a string is a byte
      string (the UTF-8 encoding of the JavaScript string); a number that the
      handlers use as a count or a time is an integer ([Z]);
    - [toLowerCase] and [trim] are parameters ([StringRuntime]), so that the
      properties hold for the engine's Unicode-aware functions; their ASCII
      restriction runs the examples;
    - SHA-256 and SHA-1 are implemented ([Module Crypto]);
    - the clock, the network and the process environment are a [World]; a
      handler reads it through a state-and-exception monad ([Async]) that
      counts the readings of the clock and records every outbound request;
    - a route is the function Express calls once the authentication
      middleware has called [next()]; the encoding of the query string of the
      outbound request is left out (a [Request] keeps the parameters set).

    The definitions come first, then the properties. *)

From Stdlib Require Import String Ascii List ZArith Lia Bool.
From Stdlib Require Import Permutation Sorted DecimalString.
Import ListNotations.

Open Scope string_scope.
Open Scope Z_scope.
Open Scope list_scope.

(* ------------------------------------------------------------------ *)
(** ** JavaScript values and the string operations the services use *)

(** A value read from JSON, a header or the environment: a property that is
    absent reads as [undefined]; JSON may also carry [null]. *)
Inductive jsval : Type :=
| JUndefined
| JNull
| JString (s : string).

(** [a === b] on these values (also the SameValueZero of [Map] keys). *)
Definition strict_eq (a b : jsval) : bool :=
  match a, b with
  | JUndefined, JUndefined => true
  | JNull, JNull => true
  | JString s, JString t => String.eqb s t
  | _, _ => false
  end.

(** ToBoolean: [undefined], [null] and the empty string are falsy. *)
Definition truthy (v : jsval) : bool :=
  match v with
  | JString s => negb (String.eqb s "")
  | _ => false
  end.

(** [v || d] where [d] is a string. *)
Definition or_string (v : jsval) (d : string) : string :=
  match v with
  | JString s => if String.eqb s "" then d else s
  | _ => d
  end.

(** [`${v}`]: the text a template literal interpolates. *)
Definition interpolate (v : jsval) : string :=
  match v with
  | JUndefined => "undefined"
  | JNull => "null"
  | JString s => s
  end.

(** A destructuring default [{ x = d }]: it applies to [undefined] only. *)
Definition default_to (d : string) (v : jsval) : jsval :=
  match v with
  | JUndefined => JString d
  | _ => v
  end.

(** The line feed and the double quote, which a literal cannot hold. *)
Definition nl : string := String (ascii_of_nat 10) EmptyString.
Definition dq : string := String (ascii_of_nat 34) EmptyString.
Definition quoted (s : string) : string := (dq ++ s ++ dq)%string.

(** [hay.includes(needle)]. *)
Fixpoint includes (hay needle : string) : bool :=
  if String.prefix needle hay then true
  else match hay with
       | EmptyString => false
       | String _ rest => includes rest needle
       end.

(** [arr.includes(x)] on an array of strings. *)
Definition array_includes (arr : list string) (x : string) : bool :=
  existsb (String.eqb x) arr.

(** Every regular expression of the two services is one group of literal
    alternatives, [/(a|b|c)/], without anchors or flags; it is kept as the list
    of its alternatives and [test] searches the text for any of them. *)
Definition regex : Type := list string.

Definition test (re : regex) (text : string) : bool :=
  existsb (includes text) re.

(** [String(n)] for an integer-valued number. *)
Definition String_of_number (n : Z) : string :=
  NilZero.string_of_int (Z.to_int n).

(** [toLowerCase] and [trim] follow Unicode tables of the JavaScript engine;
    the services are embedded over any such pair of functions. *)
Class StringRuntime : Type := {
  toLowerCase : string -> string;
  trim : string -> string
}.

(** The engine's functions restricted to ASCII text, for running the model. *)
Definition ascii_lower (c : ascii) : ascii :=
  let n := nat_of_ascii c in
  if (Nat.leb 65 n && Nat.leb n 90)%bool then ascii_of_nat (n + 32) else c.

Fixpoint ascii_toLowerCase (s : string) : string :=
  match s with
  | EmptyString => EmptyString
  | String c rest => String (ascii_lower c) (ascii_toLowerCase rest)
  end.

Definition ascii_blank (c : ascii) : bool :=
  let n := nat_of_ascii c in
  (Nat.eqb n 32 || (Nat.leb 9 n && Nat.leb n 13))%bool.

Fixpoint trim_start (s : string) : string :=
  match s with
  | String c rest => if ascii_blank c then trim_start rest else s
  | EmptyString => EmptyString
  end.

Fixpoint trim_end (s : string) : string :=
  match s with
  | EmptyString => EmptyString
  | String c rest =>
      match trim_end rest with
      | EmptyString => if ascii_blank c then EmptyString else String c EmptyString
      | kept => String c kept
      end
  end.

Definition ascii_trim (s : string) : string := trim_end (trim_start s).

Definition ascii_runtime : StringRuntime :=
  {| toLowerCase := ascii_toLowerCase; trim := ascii_trim |}.

(** [s.split(",")]. *)
Fixpoint split_commas (s : string) : list string :=
  match s with
  | EmptyString => [EmptyString]
  | String c rest =>
      if Ascii.eqb c ","%char then EmptyString :: split_commas rest
      else match split_commas rest with
           | piece :: pieces => String c piece :: pieces
           | [] => [String c EmptyString]
           end
  end.

(* ------------------------------------------------------------------ *)
(** ** [crypto.createHash(...).update(text).digest("hex")]

    SHA-256 and SHA-1 as FIPS 180-4 defines them, on 32-bit words kept in [Z]
    with the wrap-around written out. *)

Module Crypto.

Definition w32 (x : Z) : Z := x mod 2 ^ 32.
Definition add32 (x y : Z) : Z := w32 (x + y).
Definition rotr (n x : Z) : Z :=
  Z.lor (Z.shiftr x n) (w32 (Z.shiftl x (32 - n))).
Definition rotl (n x : Z) : Z :=
  Z.lor (w32 (Z.shiftl x n)) (Z.shiftr x (32 - n)).
Definition not32 (x : Z) : Z := Z.lxor x (2 ^ 32 - 1).

Definition bytes_of_string (s : string) : list Z :=
  map (fun c => Z.of_N (N_of_ascii c)) (list_ascii_of_string s).

(** [n] on [k] bytes, most significant first. *)
Fixpoint be_bytes (k : nat) (n : Z) : list Z :=
  match k with
  | O => []
  | S k' => be_bytes k' (Z.shiftr n 8) ++ [n mod 256]
  end.

Fixpoint be_words (bs : list Z) : list Z :=
  match bs with
  | b0 :: b1 :: b2 :: b3 :: rest =>
      (((b0 * 256 + b1) * 256 + b2) * 256 + b3) :: be_words rest
  | _ => []
  end.

(** The padding both functions share: the byte 0x80, zeros up to 56 modulo
    64, and the length in bits on eight bytes. *)
Definition pad (msg : list Z) : list Z :=
  let len := Z.of_nat (length msg) in
  msg ++ [128] ++ repeat 0 (Z.to_nat ((55 - len) mod 64)) ++ be_bytes 8 (8 * len).

Fixpoint blocks (fuel : nat) (ws : list Z) : list (list Z) :=
  match fuel, ws with
  | S f, _ :: _ => firstn 16 ws :: blocks f (skipn 16 ws)
  | _, _ => []
  end.

Definition hex_digit (d : Z) : ascii :=
  ascii_of_N (Z.to_N (if d <? 10 then 48 + d else 87 + d)).

Fixpoint hex (bs : list Z) : string :=
  match bs with
  | [] => EmptyString
  | b :: rest =>
      String (hex_digit (b / 16)) (String (hex_digit (b mod 16)) (hex rest))
  end.

(** The constants of SHA-256 are the leading fractional bits of the square
    roots (initial hash) and cube roots (round constants) of the primes. *)
Fixpoint primes_from (fuel : nat) (n : Z) (found : list Z) (k : nat) : list Z :=
  match fuel, k with
  | _, O => rev found
  | O, _ => rev found
  | S f, S k' =>
      if forallb (fun p => negb (n mod p =? 0)) found
      then primes_from f (n + 1) (n :: found) k'
      else primes_from f (n + 1) found k
  end.

Definition primes (k : nat) : list Z := primes_from 400 2 [] k.

Fixpoint cbrt_bits (b : nat) (n r : Z) : Z :=
  let r' := r + 2 ^ Z.of_nat b in
  let r'' := if r' * r' * r' <=? n then r' else r in
  match b with
  | O => r''
  | S b' => cbrt_bits b' n r''
  end.

Definition frac_sqrt (p : Z) : Z := w32 (Z.sqrt (p * 2 ^ 64)).
Definition frac_cbrt (p : Z) : Z := w32 (cbrt_bits 40 (p * 2 ^ 96) 0).

Definition H256 : list Z := Eval vm_compute in map frac_sqrt (primes 8).
Definition K256 : list Z := Eval vm_compute in map frac_cbrt (primes 64).

Definition Ch (x y z : Z) : Z := Z.lxor (Z.land x y) (Z.land (not32 x) z).
Definition Maj (x y z : Z) : Z :=
  Z.lxor (Z.lxor (Z.land x y) (Z.land x z)) (Z.land y z).
Definition bsig0 (x : Z) : Z := Z.lxor (Z.lxor (rotr 2 x) (rotr 13 x)) (rotr 22 x).
Definition bsig1 (x : Z) : Z := Z.lxor (Z.lxor (rotr 6 x) (rotr 11 x)) (rotr 25 x).
Definition ssig0 (x : Z) : Z := Z.lxor (Z.lxor (rotr 7 x) (rotr 18 x)) (Z.shiftr x 3).
Definition ssig1 (x : Z) : Z := Z.lxor (Z.lxor (rotr 17 x) (rotr 19 x)) (Z.shiftr x 10).

(** The message schedule, newest word first: [rw] is W(t-1), W(t-2), ... *)
Fixpoint schedule256 (n : nat) (rw : list Z) : list Z :=
  match n with
  | O => rev rw
  | S n' =>
      let wt := add32 (add32 (ssig1 (nth 1 rw 0)) (nth 6 rw 0))
                      (add32 (ssig0 (nth 14 rw 0)) (nth 15 rw 0)) in
      schedule256 n' (wt :: rw)
  end.

Definition round256 (st : list Z) (kw : Z * Z) : list Z :=
  match st with
  | [a; b; c; d; e; f; g; h] =>
      let t1 := add32 (add32 (add32 h (bsig1 e)) (add32 (Ch e f g) (fst kw))) (snd kw) in
      let t2 := add32 (bsig0 a) (Maj a b c) in
      [add32 t1 t2; a; b; c; add32 d t1; e; f; g]
  | _ => st
  end.

Definition compress256 (hs blk : list Z) : list Z :=
  let ws := schedule256 48 (rev blk) in
  map (fun p => add32 (fst p) (snd p))
      (combine hs (fold_left round256 (combine K256 ws) hs)).

Definition sha256 (msg : list Z) : list Z :=
  let ws := be_words (pad msg) in
  flat_map (be_bytes 4) (fold_left compress256 (blocks (length ws) ws) H256).

Definition H1 : list Z :=
  [0x67452301; 0xEFCDAB89; 0x98BADCFE; 0x10325476; 0xC3D2E1F0].

Fixpoint schedule1 (n : nat) (rw : list Z) : list Z :=
  match n with
  | O => rev rw
  | S n' =>
      let x := Z.lxor (Z.lxor (nth 2 rw 0) (nth 7 rw 0))
                      (Z.lxor (nth 13 rw 0) (nth 15 rw 0)) in
      schedule1 n' (rotl 1 x :: rw)
  end.

Definition f1 (t b c d : Z) : Z :=
  if t <? 20 then Ch b c d
  else if t <? 40 then Z.lxor (Z.lxor b c) d
  else if t <? 60 then Maj b c d
  else Z.lxor (Z.lxor b c) d.

Definition k1 (t : Z) : Z :=
  if t <? 20 then 0x5A827999
  else if t <? 40 then 0x6ED9EBA1
  else if t <? 60 then 0x8F1BBCDC
  else 0xCA62C1D6.

Definition round1 (st : Z * list Z) (wt : Z) : Z * list Z :=
  match st with
  | (t, [a; b; c; d; e]) =>
      let tmp := add32 (add32 (add32 (rotl 5 a) (f1 t b c d)) (add32 e (k1 t))) wt in
      (t + 1, [tmp; a; rotl 30 b; c; d])
  | _ => st
  end.

Definition compress1 (hs blk : list Z) : list Z :=
  let ws := schedule1 64 (rev blk) in
  map (fun p => add32 (fst p) (snd p))
      (combine hs (snd (fold_left round1 ws (0, hs)))).

Definition sha1 (msg : list Z) : list Z :=
  let ws := be_words (pad msg) in
  flat_map (be_bytes 4) (fold_left compress1 (blocks (length ws) ws) H1).

(** [createHash(alg).update(text).digest("hex")]. *)
Definition sha256_hex (text : string) : string := hex (sha256 (bytes_of_string text)).
Definition sha1_hex (text : string) : string := hex (sha1 (bytes_of_string text)).

End Crypto.

(* ------------------------------------------------------------------ *)
(** ** The provider, the clock and the effects of a handler *)

(** An article record of the provider's JSON. *)
Module Article.
Record t : Type := {
  title : jsval;
  description : jsval;
  url : jsval;
  publishedAt : jsval
}.
End Article.

(** A thrown value: [name] and [message] of the error object. *)
Record Exn : Type := { exn_name : string; exn_message : string }.

(** [new Error(msg)]. *)
Definition Error (msg : string) : Exn :=
  {| exn_name := "Error"; exn_message := msg |}.

(** [String(e?.message || e)], the text the handlers report. *)
Definition error_text (e : Exn) : string :=
  if String.eqb (exn_message e) "" then exn_name e else exn_message e.

(** The GET request sent to [https://newsapi.org/v2/everything]: the query
    parameters that were set, and the [X-Api-Key] header. *)
Record Request : Type := {
  rq_q : string;
  rq_sortBy : string;
  rq_pageSize : string;
  rq_domains : option string;
  rq_from : option string;
  rq_api_key : jsval
}.

(** What the provider answered: [resp.ok], [resp.status], the outcome of
    [resp.text()], and the outcome of [resp.json()] read as an object with an
    optional [articles] array (any other shape ends in the exception the
    handler meets when it reads the articles). *)
Record Response : Type := {
  resp_ok : bool;
  resp_status : Z;
  resp_text : Exn + string;
  resp_json : Exn + option (list Article.t)
}.

Inductive FetchReply : Type :=
| Rejected (e : Exn)
| Responded (r : Response).

(** The environment of the process: its two secrets, the readings of the
    clock (milliseconds, by reading number), [Date.prototype.toISOString]
    ([None]: the RangeError of an invalid time), and the provider's reply to
    the n-th outbound request. *)
Record World : Type := {
  NEWSAPI_KEY : jsval;
  BROKER_KEY : jsval;
  clock : nat -> Z;
  toISOString : Z -> option string;
  provider : nat -> Request -> FetchReply
}.

(** What a handler has done so far. *)
Record Effects : Type := {
  clock_reads : nat;
  requests : list Request
}.

Definition no_effects : Effects := {| clock_reads := 0; requests := [] |}.

Inductive Outcome (A : Type) : Type :=
| Returned (a : A)
| Thrown (e : Exn).
Arguments Returned {A} a.
Arguments Thrown {A} e.

(** An [async] computation: it returns or throws, and leaves its effects. *)
Definition Async (A : Type) : Type := Effects -> Outcome A * Effects.

Definition ret {A : Type} (a : A) : Async A := fun fx => (Returned a, fx).

Definition throw {A : Type} (e : Exn) : Async A := fun fx => (Thrown e, fx).

Definition bind {A B : Type} (m : Async A) (k : A -> Async B) : Async B :=
  fun fx =>
    match m fx with
    | (Returned a, fx') => k a fx'
    | (Thrown e, fx') => (Thrown e, fx')
    end.

Notation "x <- m ;; k" := (bind m (fun x => k))
  (at level 61, m at next level, right associativity).

(** [arr.map(f)] where [f] may read the clock. *)
Fixpoint mapM {A B : Type} (f : A -> Async B) (l : list A) : Async (list B) :=
  match l with
  | [] => ret []
  | a :: rest =>
      b <- f a ;;
      bs <- mapM f rest ;;
      ret (b :: bs)
  end.

(** [Date.now()]. *)
Definition Date_now (w : World) : Async Z :=
  fun fx =>
    (Returned (clock w (clock_reads fx)),
     {| clock_reads := S (clock_reads fx); requests := requests fx |}).

(** [new Date(ms).toISOString()]. *)
Definition Date_toISOString (w : World) (ms : Z) : Async string :=
  match toISOString w ms with
  | Some s => ret s
  | None => throw {| exn_name := "RangeError"; exn_message := "Invalid time value" |}
  end.

(** [fetch(url, { headers })]: the request is recorded, then the provider's
    reply decides between a response and a rejection. *)
Definition fetch (w : World) (rq : Request) : Async Response :=
  fun fx =>
    let sent := {| clock_reads := clock_reads fx; requests := requests fx ++ [rq] |} in
    match provider w (length (requests fx)) rq with
    | Rejected e => (Thrown e, sent)
    | Responded r => (Returned r, sent)
    end.

(** [try { ... } catch (e) { res.status(500).json({ message }) }]. *)
Definition try_catch {A : Type} (m : Async A) (handler : Exn -> A) : Async A :=
  fun fx =>
    match m fx with
    | (Returned a, fx') => (Returned a, fx')
    | (Thrown e, fx') => (Returned (handler e), fx')
    end.

(** The outcome of the authentication middleware. *)
Inductive AuthResult : Type :=
| Unauthorized (status : Z) (message : string)
| Next.

(* ------------------------------------------------------------------ *)
(** ** Arrays *)

(** [arr.slice(0, end)] for an integer [end]: a negative [end] counts from
    the end of the array. *)
Definition slice0 {A : Type} (arr : list A) (e : Z) : list A :=
  let len := Z.of_nat (length arr) in
  let final := if e <? 0 then Z.max (len + e) 0 else Z.min e len in
  firstn (Z.to_nat final) arr.

(** [arr.sort(compare)]: ECMAScript requires the sort to be stable, so for a
    consistent comparator the result is the one of this insertion sort,
    whatever algorithm the engine runs. *)
Fixpoint sort_insert {A : Type} (compare : A -> A -> Z) (x : A) (sorted : list A) : list A :=
  match sorted with
  | [] => [x]
  | y :: rest =>
      if compare x y <=? 0 then x :: sorted else y :: sort_insert compare x rest
  end.

Definition Array_sort {A : Type} (compare : A -> A -> Z) (arr : list A) : list A :=
  fold_right (sort_insert compare) [] arr.

(** A [Map] keeps its keys in the order of their first insertion; [set] on a
    key that is present replaces the value where it stands. *)
Fixpoint Map_set {V : Type} (k : jsval) (v : V) (m : list (jsval * V)) : list (jsval * V) :=
  match m with
  | [] => [(k, v)]
  | (k', v') :: rest =>
      if strict_eq k k' then (k, v) :: rest else (k', v') :: Map_set k v rest
  end.

Definition Map_values {V : Type} (m : list (jsval * V)) : list V := map snd m.

Definition Map_keys {V : Type} (m : list (jsval * V)) : list jsval := map fst m.

(* ------------------------------------------------------------------ *)
(** ** The full broker *)

Module Broker.

Module Feed.
Record t : Type := {
  feed_id : string;
  name : string;
  homepage : string;
  content_type : string;
  domains : list string;
  q : string
}.
End Feed.

Definition ppc_land : Feed.t :=
  {| Feed.feed_id := "ppc_land";
     Feed.name := "PPC Land";
     Feed.homepage := "https://ppc.land/";
     Feed.content_type := "advertising";
     Feed.domains := ["ppc.land"];
     Feed.q := String.concat " AND "
       [ ("(TikTok OR YouTube OR Instagram OR " ++ quoted "Meta" ++ " OR creator OR "
           ++ quoted "short form" ++ " OR Shorts OR Reels)")%string;
         ("(ads OR advertising OR monetization OR measurement OR attribution OR "
           ++ quoted "brand safety" ++ " OR targeting OR privacy OR "
           ++ quoted "ad product" ++ ")")%string ] |}.

Definition tubefilter : Feed.t :=
  {| Feed.feed_id := "tubefilter";
     Feed.name := "Tubefilter";
     Feed.homepage := "https://www.tubefilter.com/";
     Feed.content_type := "creator_economy";
     Feed.domains := ["tubefilter.com"];
     Feed.q := String.concat " AND "
       [ ("(YouTube OR TikTok OR Instagram OR creator OR " ++ quoted "creator economy"
           ++ " OR Shorts OR Reels)")%string;
         ("(launch OR series OR format OR monetization OR partnership OR slate OR funding OR "
           ++ quoted "creator fund" ++ " OR studio)")%string ] |}.

Definition publishpress : Feed.t :=
  {| Feed.feed_id := "publishpress";
     Feed.name := "PublishPress";
     Feed.homepage := "https://publishpress.com/";
     Feed.content_type := "industry_news";
     Feed.domains := ["publishpress.com"];
     Feed.q := String.concat " AND "
       [ ("(creator OR newsletter OR " ++ quoted "web-first" ++ " OR " ++ quoted "digital-first"
           ++ " OR Shorts OR Reels OR YouTube OR TikTok)")%string;
         "(publishing OR distribution OR WordPress OR workflow OR editorial OR CMS)" ] |}.

Definition hollywood_reporter : Feed.t :=
  {| Feed.feed_id := "hollywood_reporter";
     Feed.name := "The Hollywood Reporter";
     Feed.homepage := "https://www.hollywoodreporter.com/";
     Feed.content_type := "entertainment_trade";
     Feed.domains := ["hollywoodreporter.com"];
     Feed.q := String.concat " AND "
       [ ("(YouTube OR TikTok OR creator OR " ++ quoted "digital-first" ++ " OR "
           ++ quoted "web series" ++ " OR Shorts OR Reels)")%string;
         "(series OR slate OR launch OR partnership OR studio OR format OR deal)" ] |}.

Definition google_news_youtube_series_us_en : Feed.t :=
  {| Feed.feed_id := "google_news_youtube_series_us_en";
     Feed.name := "YouTube Series (US/EN) — proxy bundle";
     Feed.homepage := "https://news.google.com/";
     Feed.content_type := "industry_news";
     Feed.domains :=
       [ "tubefilter.com"; "hollywoodreporter.com"; "deadline.com"; "variety.com";
         "digiday.com"; "adweek.com"; "theverge.com"; "techcrunch.com";
         "venturebeat.com"; "fastcompany.com" ];
     Feed.q := String.concat " AND "
       [ ("(YouTube OR " ++ quoted "YouTube Shorts" ++ " OR creator OR "
           ++ quoted "digital studio" ++ " OR " ++ quoted "web series" ++ ")")%string;
         ("(series OR episodic OR slate OR pilot OR trailer OR " ++ quoted "new show"
           ++ " OR " ++ quoted "original series" ++ " OR format)")%string;
         "(launch OR debut OR announcement OR deal OR partnership OR greenlit)" ] |}.

Definition tiktok_creativecenter_trends : Feed.t :=
  {| Feed.feed_id := "tiktok_creativecenter_trends";
     Feed.name := "TikTok Trends — proxy bundle";
     Feed.homepage := "https://ads.tiktok.com/business/creativecenter/inspiration/trends";
     Feed.content_type := "trends";
     Feed.domains :=
       [ "socialmediatoday.com"; "later.com"; "sproutsocial.com"; "hootsuite.com";
         "buffer.com"; "searchenginejournal.com"; "adweek.com"; "digiday.com";
         "theverge.com"; "techcrunch.com" ];
     Feed.q := String.concat " AND "
       [ "(TikTok)";
         ("(" ++ quoted "Creative Center" ++ " OR trends OR trending OR "
           ++ quoted "trend report" ++ " OR " ++ quoted "top trends"
           ++ " OR hashtags OR sounds OR viral)")%string;
         ("(creator OR brands OR ads OR campaign OR " ++ quoted "creative strategy"
           ++ " OR UGC)")%string ] |}.

Definition FEEDS : list Feed.t :=
  [ ppc_land;
    tubefilter;
    publishpress;
    hollywood_reporter;
    google_news_youtube_series_us_en;
    tiktok_creativecenter_trends ].

Module Classification.
Record t : Type := {
  digital_first : bool;
  excluded_reasons : list string
}.
End Classification.

Module Item.
Record t : Type := {
  id : string;
  title : string;
  url : jsval;
  source : string;
  published_at : string;
  snippet : string;
  labels : list string;
  classification : Classification.t
}.
End Item.

(** The first argument of [classifyDigitalFirst]. *)
Module Fields.
Record t : Type := {
  title : jsval;
  description : jsval;
  url : jsval
}.
End Fields.

(** The argument of [newsapiEverything]. *)
Module Search.
Record t : Type := {
  q : string;
  domains : list string;
  fromISO : jsval;
  pageSize : Z
}.
End Search.

(** The query of [GET /v1/feeds/:feed_id/items]: the numeric parameters by
    their value, the others as the strings received. *)
Module ItemsQuery.
Record t : Type := {
  limit : option Z;
  since_hours : option Z;
  digital_first_only : option string;
  exclude : option string
}.
End ItemsQuery.

(** The JSON body of [POST /v1/newsletter/digest]; [None] is a property that
    is absent (for [sources] and [exclude]: or that is no array). *)
Module DigestBody.
Record t : Type := {
  sources : option (list string);
  window_hours : option Z;
  max_items_per_section : option Z;
  digital_first_only : option bool;
  exclude : option (list string)
}.
End DigestBody.

Module Entry.
Record t : Type := {
  headline : string;
  blurb : string;
  urls : list jsval
}.
End Entry.

Module DigestSection.
Record t : Type := {
  name : string;
  items : list Entry.t
}.
End DigestSection.

Module Citation.
Record t : Type := {
  url : jsval;
  title : string;
  source : string
}.
End Citation.

Module Digest.
Record t : Type := {
  title : string;
  generated_at : string;
  sections : list DigestSection.t;
  citations : list Citation.t
}.
End Digest.

Inductive Json : Type :=
| Message (message : string)
| ItemList (items : list Item.t)
| DigestJson (digest : Digest.t).

Record HttpResponse : Type := {
  status : Z;
  body : Json
}.

(** The authentication middleware, on the value of [req.header("X-API-Key")]. *)
Definition auth (w : World) (key : jsval) : AuthResult :=
  if (negb (truthy (BROKER_KEY w)) || negb (truthy key)
      || negb (strict_eq key (BROKER_KEY w)))%bool
  then Unauthorized 401 "Missing/invalid API key"
  else Next.

Definition isoNow (w : World) : Async string :=
  ms <- Date_now w ;;
  Date_toISOString w ms.

Definition stableId (url publishedAt : jsval) : string :=
  Crypto.sha256_hex (interpolate url ++ "|" ++ or_string publishedAt "")%string.

Definition linear_pattern : regex :=
  ["broadcast"; "linear tv"; "cable"; "syndication"].

Definition streaming_pattern : regex :=
  ["netflix"; "prime video"; "disney+"; "hulu"; "paramount+"; "apple tv"; "streaming"].

Definition digitalHints : regex :=
  ["youtube"; "tiktok"; "instagram"; "shorts"; "reels"; "creator"; "web series";
   "newsletter"; "substack"; "patreon"; "discord"].

Definition section_names : list string :=
  [ "New digital-first launches";
    "Formats & creator series to watch";
    "Platform moves & monetization";
    "Examples (what to steal—in a legal way)" ].

Definition launch_pattern : regex :=
  ["launch"; "announce"; "debut"; "unveil"; "introduc"].
Definition formats_pattern : regex :=
  ["series"; "format"; "episod"; "season"; "shorts"; "reels"].
Definition platform_pattern : regex :=
  ["monetiz"; "ads"; "revenue"; "policy"; "algorithm"; "update"; "creator fund"].
Definition examples_pattern : regex :=
  ["case study"; "example"; "breakdown"; "how to"; "strategy"; "playbook"].

Section Pipeline.
Context {rt : StringRuntime}.

(** The text the classifier searches. *)
Definition classifier_text (f : Fields.t) : string :=
  toLowerCase
    (interpolate (default_to "" (Fields.title f)) ++ nl
     ++ interpolate (default_to "" (Fields.description f)) ++ nl
     ++ interpolate (default_to "" (Fields.url f)))%string.

Definition classifyDigitalFirst (f : Fields.t) (exclude : option (list string))
  : Classification.t :=
  let exclude := match exclude with Some tags => tags | None => ["linear"; "streaming"] end in
  let text := classifier_text f in
  let excluded_reasons := [] in
  let excluded_reasons :=
    if (array_includes exclude "linear" && test linear_pattern text)%bool
    then excluded_reasons ++ ["linear"] else excluded_reasons in
  let excluded_reasons :=
    if (array_includes exclude "streaming" && test streaming_pattern text)%bool
    then excluded_reasons ++ ["streaming"] else excluded_reasons in
  let digital_first :=
    ((length excluded_reasons =? 0)%nat && test digitalHints text)%bool in
  {| Classification.digital_first := digital_first;
     Classification.excluded_reasons := excluded_reasons |}.

Definition newsapiEverything (w : World) (args : Search.t) : Async (option (list Article.t)) :=
  if negb (truthy (NEWSAPI_KEY w))
  then throw (Error "Server misconfigured: NEWSAPI_KEY missing")
  else
    resp <- fetch w {| rq_q := Search.q args;
                       rq_sortBy := "publishedAt";
                       rq_pageSize := String_of_number (Search.pageSize args);
                       rq_domains :=
                         match Search.domains args with
                         | [] => None
                         | ds => Some (String.concat "," ds)
                         end;
                       rq_from :=
                         if truthy (Search.fromISO args)
                         then Some (interpolate (Search.fromISO args)) else None;
                       rq_api_key := NEWSAPI_KEY w |} ;;
    if negb (resp_ok resp)
    then
      let body := match resp_text resp with inr s => s | inl _ => EmptyString end in
      throw (Error ("NewsAPI error " ++ String_of_number (resp_status resp) ++ ": " ++ body)%string)
    else
      match resp_json resp with
      | inl e => throw e
      | inr data => ret data
      end.

(** The function both routes map over [data.articles || []]. *)
Definition mapArticle (w : World) (feed : Feed.t) (exclude : list string) (a : Article.t)
  : Async Item.t :=
  published_at <-
    (if truthy (Article.publishedAt a)
     then ret (interpolate (Article.publishedAt a))
     else isoNow w) ;;
  let url := Article.url a in
  let classification :=
    classifyDigitalFirst
      {| Fields.title := JString (or_string (Article.title a) "");
         Fields.description := JString (or_string (Article.description a) "");
         Fields.url := url |}
      (Some exclude) in
  ret {| Item.id := stableId url (JString published_at);
         Item.title := or_string (Article.title a) "(untitled)";
         Item.url := url;
         Item.source := Feed.feed_id feed;
         Item.published_at := published_at;
         Item.snippet := or_string (Article.description a) "";
         Item.labels := [];
         Item.classification := classification |}.

Definition articles_of (data : option (list Article.t)) : list Article.t :=
  match data with
  | Some articles => articles
  | None => []
  end.

Definition server_error (e : Exn) : HttpResponse :=
  {| status := 500; body := Message (error_text e) |}.

(** [GET /v1/feeds/:feed_id/items]. *)
Definition feed_items (w : World) (feed_id : string) (query : ItemsQuery.t)
  : Async HttpResponse :=
  try_catch
    (match find (fun f => String.eqb (Feed.feed_id f) feed_id) FEEDS with
     | None => ret {| status := 404; body := Message "Unknown feed_id" |}
     | Some feed =>
         let limit :=
           Z.min (match ItemsQuery.limit query with Some n => n | None => 15 end) 50 in
         let sinceHours := ItemsQuery.since_hours query in
         let digitalFirstOnly :=
           String.eqb
             (match ItemsQuery.digital_first_only query with Some s => s | None => "true" end)
             "true" in
         let excludeCsv :=
           match ItemsQuery.exclude query with Some s => s | None => "linear,streaming" end in
         let exclude :=
           filter (fun s => negb (String.eqb s "")) (map trim (split_commas excludeCsv)) in
         fromISO <-
           (match sinceHours with
            | Some h =>
                if h =? 0 then ret JUndefined
                else
                  now <- Date_now w ;;
                  iso <- Date_toISOString w (now - h * 3600 * 1000) ;;
                  ret (JString iso)
            | None => ret JUndefined
            end) ;;
         data <- newsapiEverything w
                   {| Search.q := Feed.q feed;
                      Search.domains := Feed.domains feed;
                      Search.fromISO := fromISO;
                      Search.pageSize := limit |} ;;
         items <- mapM (mapArticle w feed exclude) (articles_of data) ;;
         let items :=
           if digitalFirstOnly
           then filter (fun i => Classification.digital_first (Item.classification i)) items
           else items in
         ret {| status := 200; body := ItemList items |}
     end)
    server_error.

(** The loop that fetches and maps one selected feed after the other. *)
Fixpoint gather (w : World) (exclude : list string) (fromISO : string)
    (selected : list Feed.t) (all : list Item.t) : Async (list Item.t) :=
  match selected with
  | [] => ret all
  | feed :: rest =>
      data <- newsapiEverything w
                {| Search.q := Feed.q feed;
                   Search.domains := Feed.domains feed;
                   Search.fromISO := JString fromISO;
                   Search.pageSize := 50 |} ;;
      mapped <- mapM (mapArticle w feed exclude) (articles_of data) ;;
      gather w exclude fromISO rest (all ++ mapped)
  end.

(** The [Map] filled by [for (const it of all) byUrl.set(it.url, it)]. *)
Definition byUrl (all : list Item.t) : list (jsval * Item.t) :=
  fold_left (fun m it => Map_set (Item.url it) it m) all [].

(** [items] once deduplicated and, on request, filtered. *)
Definition candidates (digital_first_only : bool) (all : list Item.t) : list Item.t :=
  let items := Map_values (byUrl all) in
  if digital_first_only
  then filter (fun i => Classification.digital_first (Item.classification i)) items
  else items.

Definition score (item : Item.t) (section : string) : Z :=
  let t := toLowerCase (Item.title item ++ " " ++ Item.snippet item)%string in
  if (includes section "launch" && test launch_pattern t)%bool then 4
  else if (includes section "Formats" && test formats_pattern t)%bool then 4
  else if (includes section "Platform" && test platform_pattern t)%bool then 4
  else if (includes section "Examples" && test examples_pattern t)%bool then 4
  else 1.

Definition ranked (items : list Item.t) (section : string) : list Item.t :=
  Array_sort (fun a b => score b section - score a section) items.

Definition render (it : Item.t) : Entry.t :=
  {| Entry.headline := Item.title it;
     Entry.blurb := or_string (JString (Item.snippet it)) "Summary unavailable.";
     Entry.urls := [Item.url it] |}.

Definition section_items (items : list Item.t) (max_items_per_section : Z) (section : string)
  : list Entry.t :=
  map render (slice0 (ranked items section) max_items_per_section).

Definition cite (it : Item.t) : Citation.t :=
  {| Citation.url := Item.url it;
     Citation.title := Item.title it;
     Citation.source := Item.source it |}.

Definition citations (items : list Item.t) : list Citation.t :=
  map cite (slice0 items 200).

Definition selected (sources : list string) : list Feed.t :=
  filter (fun f => array_includes sources (Feed.feed_id f)) FEEDS.

(** [POST /v1/newsletter/digest]. *)
Definition newsletter_digest (w : World) (body : DigestBody.t) : Async HttpResponse :=
  try_catch
    (let sources := match DigestBody.sources body with Some s => s | None => [] end in
     if (length sources =? 0)%nat
     then ret {| status := 422; body := Message "Invalid inputs (empty sources)" |}
     else
       let window_hours :=
         match DigestBody.window_hours body with Some n => n | None => 168 end in
       let max_items_per_section :=
         match DigestBody.max_items_per_section body with Some n => n | None => 6 end in
       let digital_first_only :=
         match DigestBody.digital_first_only body with Some false => false | _ => true end in
       let exclude :=
         match DigestBody.exclude body with Some e => e | None => ["linear"; "streaming"] end in
       now <- Date_now w ;;
       fromISO <- Date_toISOString w (now - window_hours * 3600 * 1000) ;;
       if (length (selected sources) =? 0)%nat
       then ret {| status := 422; body := Message "Invalid inputs (no matching sources)" |}
       else
         all <- gather w exclude fromISO (selected sources) [] ;;
         let items := candidates digital_first_only all in
         let sections :=
           map (fun s => {| DigestSection.name := s;
                            DigestSection.items := section_items items max_items_per_section s |})
               section_names in
         generated_at <- isoNow w ;;
         ret {| status := 200;
                body := DigestJson
                  {| Digest.title := "Digital-First Content Brief";
                     Digest.generated_at := generated_at;
                     Digest.sections := sections;
                     Digest.citations := citations items |} |})
    server_error.

End Pipeline.

End Broker.

(* ------------------------------------------------------------------ *)
(** ** The smaller service, [server.js] *)

Module Server.

Module Feed.
Record t : Type := {
  feed_id : string;
  name : string;
  domains : list string;
  q : string
}.
End Feed.

Definition tubefilter : Feed.t :=
  {| Feed.feed_id := "tubefilter";
     Feed.name := "Tubefilter";
     Feed.domains := ["tubefilter.com"];
     Feed.q := ("(YouTube OR TikTok OR creator OR " ++ quoted "creator economy" ++ ")")%string |}.

Definition ppc_land : Feed.t :=
  {| Feed.feed_id := "ppc_land";
     Feed.name := "PPC Land";
     Feed.domains := ["ppc.land"];
     Feed.q := "(TikTok OR YouTube OR ads OR creator)" |}.

Definition hollywood_reporter : Feed.t :=
  {| Feed.feed_id := "hollywood_reporter";
     Feed.name := "Hollywood Reporter";
     Feed.domains := ["hollywoodreporter.com"];
     Feed.q := ("(YouTube OR TikTok OR creator OR " ++ quoted "digital-first" ++ ")")%string |}.

Definition publishpress : Feed.t :=
  {| Feed.feed_id := "publishpress";
     Feed.name := "PublishPress";
     Feed.domains := ["publishpress.com"];
     Feed.q := "(creator OR newsletter OR YouTube OR TikTok)" |}.

Definition google_news_youtube_series_us_en : Feed.t :=
  {| Feed.feed_id := "google_news_youtube_series_us_en";
     Feed.name := "YouTube Series (proxy)";
     Feed.domains := ["tubefilter.com"; "hollywoodreporter.com"; "variety.com"; "deadline.com"];
     Feed.q := ("(YouTube AND (series OR " ++ quoted "creator series" ++ " OR episodic))")%string |}.

Definition tiktok_creativecenter_trends : Feed.t :=
  {| Feed.feed_id := "tiktok_creativecenter_trends";
     Feed.name := "TikTok Trends (proxy)";
     Feed.domains := ["adweek.com"; "digiday.com"; "socialmediatoday.com"; "sproutsocial.com"];
     Feed.q := "(TikTok AND (trends OR trending OR hashtags OR sounds))" |}.

Definition FEEDS : list Feed.t :=
  [ tubefilter;
    ppc_land;
    hollywood_reporter;
    publishpress;
    google_news_youtube_series_us_en;
    tiktok_creativecenter_trends ].

Module Classification.
Record t : Type := {
  digital_first : bool;
  excluded_reasons : list string
}.
End Classification.

Module Item.
Record t : Type := {
  id : string;
  title : jsval;
  url : jsval;
  source : string;
  published_at : jsval;
  snippet : jsval;
  classification : Classification.t
}.
End Item.

Inductive Json : Type :=
| Message (message : string)
| ItemList (items : list Item.t).

Record HttpResponse : Type := {
  status : Z;
  body : Json
}.

(** The authentication middleware, on the value of [req.header("X-API-Key")]. *)
Definition auth (w : World) (key : jsval) : AuthResult :=
  if negb (strict_eq key (BROKER_KEY w))
  then Unauthorized 401 "Invalid API key"
  else Next.

(** [hash.update(data)] accepts a string (or a buffer) only. *)
Definition invalid_data (received : string) : Exn :=
  {| exn_name := "TypeError";
     exn_message :=
       ("The " ++ quoted "data" ++ " argument must be of type string or an instance of "
        ++ "Buffer, TypedArray, or DataView. Received " ++ received)%string |}.

Definition idFor (url : jsval) : Async string :=
  match url with
  | JString s => ret (Crypto.sha1_hex s)
  | other => throw (invalid_data (interpolate other))
  end.

Definition newsapiFetch (w : World) (feed : Feed.t) (limit : option Z)
  : Async (option (list Article.t)) :=
  let limit := match limit with Some n => n | None => 15 end in
  r <- fetch w {| rq_q := Feed.q feed;
                  rq_sortBy := "publishedAt";
                  rq_pageSize := String_of_number limit;
                  rq_domains := Some (String.concat "," (Feed.domains feed));
                  rq_from := None;
                  rq_api_key := NEWSAPI_KEY w |} ;;
  if negb (resp_ok r)
  then
    match resp_text r with
    | inr text => throw (Error text)
    | inl e => throw e
    end
  else
    match resp_json r with
    | inl e => throw e
    | inr data => ret data
    end.

(** The function the route maps over [data.articles || []]. *)
Definition mapArticle (feed : Feed.t) (a : Article.t) : Async Item.t :=
  id <- idFor (Article.url a) ;;
  ret {| Item.id := id;
         Item.title := Article.title a;
         Item.url := Article.url a;
         Item.source := Feed.feed_id feed;
         Item.published_at := Article.publishedAt a;
         Item.snippet := Article.description a;
         Item.classification :=
           {| Classification.digital_first := true;
              Classification.excluded_reasons := [] |} |}.

(** [String(e)]: [Error.prototype.toString]. *)
Definition Error_toString (e : Exn) : string :=
  if String.eqb (exn_message e) "" then exn_name e
  else if String.eqb (exn_name e) "" then exn_message e
  else (exn_name e ++ ": " ++ exn_message e)%string.

(** [GET /v1/feeds/:feed_id/items]. *)
Definition feed_items (w : World) (feed_id : string) : Async HttpResponse :=
  try_catch
    (match find (fun f => String.eqb (Feed.feed_id f) feed_id) FEEDS with
     | None => ret {| status := 404; body := Message "Unknown feed_id" |}
     | Some feed =>
         data <- newsapiFetch w feed None ;;
         items <- mapM (mapArticle feed)
                    (match data with Some articles => articles | None => [] end) ;;
         ret {| status := 200; body := ItemList items |}
     end)
    (fun e => {| status := 500; body := Message (Error_toString e) |}).

End Server.

(* ------------------------------------------------------------------ *)
(** ** Notions the statements below use *)

(** The distinct keys of a sequence, each at the place of its first
    occurrence. *)
Fixpoint first_occurrences (keys : list jsval) : list jsval :=
  match keys with
  | [] => []
  | k :: rest => k :: filter (fun k' => negb (strict_eq k' k)) (first_occurrences rest)
  end.

(** [it] stands in [all] with no later item of the same url. *)
Definition last_occurrence (it : Broker.Item.t) (all : list Broker.Item.t) : Prop :=
  exists before after,
    all = before ++ it :: after
    /\ forall later, In later after -> Broker.Item.url later <> Broker.Item.url it.

(** The fingerprint a digest function gives an article: the digest of the url
    and the publication time joined by a vertical bar. *)
Definition fingerprint (digest : string -> string) (url published_at : jsval) : string :=
  digest (interpolate url ++ "|" ++ interpolate published_at)%string.

(** The comparator of a sort by descending [key]. *)
Definition by_key_descending {A : Type} (key : A -> Z) (a b : A) : Z := key b - key a.

(** The keyword pattern of each of the four sections, by position. *)
Definition section_patterns : list regex :=
  [ Broker.launch_pattern; Broker.formats_pattern;
    Broker.platform_pattern; Broker.examples_pattern ].

(** The text the section scores search. *)
Definition score_text {rt : StringRuntime} (item : Broker.Item.t) : string :=
  toLowerCase (Broker.Item.title item ++ " " ++ Broker.Item.snippet item)%string.

(** The fields the classifier receives for an article. *)
Definition fields_of (a : Article.t) : Broker.Fields.t :=
  {| Broker.Fields.title := JString (or_string (Article.title a) "");
     Broker.Fields.description := JString (or_string (Article.description a) "");
     Broker.Fields.url := Article.url a |}.

(** The parameters of a digest request once their defaults are applied. *)
Definition requested_sources (body : Broker.DigestBody.t) : list string :=
  match Broker.DigestBody.sources body with Some s => s | None => [] end.

Definition requested_window (body : Broker.DigestBody.t) : Z :=
  match Broker.DigestBody.window_hours body with Some n => n | None => 168 end.

Definition requested_max (body : Broker.DigestBody.t) : Z :=
  match Broker.DigestBody.max_items_per_section body with Some n => n | None => 6 end.

Definition requested_filter (body : Broker.DigestBody.t) : bool :=
  match Broker.DigestBody.digital_first_only body with Some false => false | _ => true end.

Definition requested_exclude (body : Broker.DigestBody.t) : list string :=
  match Broker.DigestBody.exclude body with Some e => e | None => ["linear"; "streaming"] end.

(** The digest a request is answered with once [all] is gathered. *)
Definition composed {rt : StringRuntime} (body : Broker.DigestBody.t)
    (all : list Broker.Item.t) (generated_at : string) : Broker.Digest.t :=
  let items := Broker.candidates (requested_filter body) all in
  {| Broker.Digest.title := "Digital-First Content Brief";
     Broker.Digest.generated_at := generated_at;
     Broker.Digest.sections :=
       map (fun s => {| Broker.DigestSection.name := s;
                        Broker.DigestSection.items :=
                          Broker.section_items items (requested_max body) s |})
           Broker.section_names;
     Broker.Digest.citations := Broker.citations items |}.

(** The request the digest route sends for one feed. *)
Definition digest_search (w : World) (fromISO : string) (feed : Broker.Feed.t) : Request :=
  {| rq_q := Broker.Feed.q feed;
     rq_sortBy := "publishedAt";
     rq_pageSize := "50";
     rq_domains :=
       match Broker.Feed.domains feed with
       | [] => None
       | ds => Some (String.concat "," ds)
       end;
     rq_from := if truthy (JString fromISO) then Some fromISO else None;
     rq_api_key := NEWSAPI_KEY w |}.

(** The same body with another list of sources. *)
Definition with_sources (body : Broker.DigestBody.t) (sources : list string)
  : Broker.DigestBody.t :=
  {| Broker.DigestBody.sources := Some sources;
     Broker.DigestBody.window_hours := Broker.DigestBody.window_hours body;
     Broker.DigestBody.max_items_per_section := Broker.DigestBody.max_items_per_section body;
     Broker.DigestBody.digital_first_only := Broker.DigestBody.digital_first_only body;
     Broker.DigestBody.exclude := Broker.DigestBody.exclude body |}.

(** [source] is the [feed_id] of a feed of the catalog. *)
Definition in_catalog (source : string) : bool :=
  array_includes (map Broker.Feed.feed_id Broker.FEEDS) source.

(** The exclusion test of one tag of the vocabulary. *)
Definition tag_fires (exclude : list string) (text : string) (tag : string) : bool :=
  (array_includes exclude tag
   && test (if String.eqb tag "linear"
            then Broker.linear_pattern else Broker.streaming_pattern) text)%bool.

(** The classification of [it] is decided by the hint pattern on the text
    of the article [a]. *)
Definition classified_by_hint {rt : StringRuntime} (it : Broker.Item.t) (a : Article.t) : Prop :=
  Broker.Classification.digital_first (Broker.Item.classification it) = true
  <-> Broker.Classification.excluded_reasons (Broker.Item.classification it) = []
      /\ test Broker.digitalHints (Broker.classifier_text (fields_of a)) = true.

(** An item that [mapArticle] returned for some article of some feed. *)
Definition mapped_article {rt : StringRuntime} (w : World) (exclude : list string)
    (it : Broker.Item.t) : Prop :=
  exists feed a fx fx', Broker.mapArticle w feed exclude a fx = (Returned it, fx').

(** The credential is configured, every reading of the clock can be
    rendered, and the provider accepts every request that carries the
    credential. *)
Definition healthy (w : World) : Prop :=
  truthy (NEWSAPI_KEY w) = true
  /\ (forall n, exists iso, toISOString w (clock w n) = Some iso)
  /\ (forall n rq, rq_api_key rq = NEWSAPI_KEY w ->
         exists r data,
           provider w n rq = Responded r /\ resp_ok r = true /\ resp_json r = inr data).

(** The start of the window of a digest request that arrives when the
    handler has had the effects [fx]: the reading of the clock minus the
    window, in milliseconds. *)
Definition window_start (w : World) (body : Broker.DigestBody.t) (fx : Effects) : Z :=
  clock w (clock_reads fx) - requested_window body * 3600 * 1000.

(* ------------------------------------------------------------------ *)
(** ** Sample environments, for running the handlers *)

Module Samples.

Definition article (title description url publishedAt : string) : Article.t :=
  {| Article.title := JString title;
     Article.description := JString description;
     Article.url := JString url;
     Article.publishedAt := JString publishedAt |}.

Definition reply (articles : list Article.t) : FetchReply :=
  Responded {| resp_ok := true;
               resp_status := 200;
               resp_text := inr EmptyString;
               resp_json := inr (Some articles) |}.

Definition refusal : FetchReply :=
  Responded {| resp_ok := false;
               resp_status := 401;
               resp_text := inr "apiKeyMissing";
               resp_json := inr None |}.

(** A world whose provider returns [articles] for every request that carries
    a key and refuses the others; the clock starts at a fixed instant and a
    time is rendered by its number of milliseconds (a stand-in for the
    ISO-8601 text). *)
Definition world (newsapi_key broker_key : jsval) (articles : list Article.t) : World :=
  {| NEWSAPI_KEY := newsapi_key;
     BROKER_KEY := broker_key;
     clock := fun n => 1700000000000 + Z.of_nat n;
     toISOString := fun ms => Some (String_of_number ms);
     provider := fun _ rq => if truthy (rq_api_key rq) then reply articles else refusal |}.

Definition cable_story : Article.t :=
  article "Cable bundle prices rise again" "Quarterly earnings of a pay TV operator"
          "https://example.com/cable" "2024-05-01T10:00:00Z".

Definition tiktok_story : Article.t :=
  article "TikTok Shorts launch announced" "A creator series debuts"
          "https://example.com/tiktok" "2024-05-02T10:00:00Z".

Definition youtube_story : Article.t :=
  article "YouTube creator fund update" "New monetization policy for shorts"
          "https://example.com/youtube" "2024-05-03T10:00:00Z".

Definition newsletter_story : Article.t :=
  article "Newsletter playbook" "A case study of a Substack launch"
          "https://example.com/newsletter" "2024-05-04T10:00:00Z".

Definition undated_story : Article.t :=
  {| Article.title := JString "Creator newsletter roundup";
     Article.description := JNull;
     Article.url := JString "https://example.com/undated";
     Article.publishedAt := JUndefined |}.

Definition cable_story_updated : Article.t :=
  article "Cable bundle prices rise again" "Quarterly earnings of a pay TV operator"
          "https://example.com/cable" "2024-06-01T08:30:00Z".

Definition netflix_on_cable : Broker.Fields.t :=
  {| Broker.Fields.title := JString "Netflix comes to cable";
     Broker.Fields.description := JString "A streaming bundle";
     Broker.Fields.url := JString "https://example.com/bundle" |}.

Definition digest_request (sources : list string) (max_items : option Z) : Broker.DigestBody.t :=
  {| Broker.DigestBody.sources := Some sources;
     Broker.DigestBody.window_hours := None;
     Broker.DigestBody.max_items_per_section := max_items;
     Broker.DigestBody.digital_first_only := None;
     Broker.DigestBody.exclude := None |}.

Definition item_at (url source : string) : Broker.Item.t :=
  {| Broker.Item.id := Broker.stableId (JString url) (JString "2024-05-01T10:00:00Z");
     Broker.Item.title := "(untitled)";
     Broker.Item.url := JString url;
     Broker.Item.source := source;
     Broker.Item.published_at := "2024-05-01T10:00:00Z";
     Broker.Item.snippet := EmptyString;
     Broker.Item.labels := [];
     Broker.Item.classification :=
       {| Broker.Classification.digital_first := false;
          Broker.Classification.excluded_reasons := [] |} |}.

Definition plain_item (title snippet : string) : Broker.Item.t :=
  {| Broker.Item.id := EmptyString;
     Broker.Item.title := title;
     Broker.Item.url := JString "https://example.com/item";
     Broker.Item.source := "tubefilter";
     Broker.Item.published_at := "2024-05-01T10:00:00Z";
     Broker.Item.snippet := snippet;
     Broker.Item.labels := [];
     Broker.Item.classification :=
       {| Broker.Classification.digital_first := true;
          Broker.Classification.excluded_reasons := [] |} |}.

End Samples.

(* ------------------------------------------------------------------ *)
(** ** Notions of the routes *)

(** The effects after one more reading of the clock. *)
Definition clock_read (fx : Effects) : Effects :=
  {| clock_reads := S (clock_reads fx); requests := requests fx |}.

(** The request [newsapiEverything] sends for its argument. *)
Definition search_request (w : World) (args : Broker.Search.t) : Request :=
  {| rq_q := Broker.Search.q args;
     rq_sortBy := "publishedAt";
     rq_pageSize := String_of_number (Broker.Search.pageSize args);
     rq_domains :=
       match Broker.Search.domains args with
       | [] => None
       | ds => Some (String.concat "," ds)
       end;
     rq_from :=
       if truthy (Broker.Search.fromISO args)
       then Some (interpolate (Broker.Search.fromISO args)) else None;
     rq_api_key := NEWSAPI_KEY w |}.

(** The error [newsapiEverything] throws on a response that is not ok. *)
Definition provider_error (r : Response) : Exn :=
  Error ("NewsAPI error " ++ String_of_number (resp_status r) ++ ": "
         ++ match resp_text r with inr s => s | inl _ => EmptyString end)%string.

(** The feed the items route finds for [feed_id]. *)
Definition feed_of (feed_id : string) : option Broker.Feed.t :=
  find (fun f => String.eqb (Broker.Feed.feed_id f) feed_id) Broker.FEEDS.

(** The parameters of the items route once their defaults are applied. *)
Definition items_limit (query : Broker.ItemsQuery.t) : Z :=
  Z.min (match Broker.ItemsQuery.limit query with Some n => n | None => 15 end) 50.

Definition items_exclude {rt : StringRuntime} (query : Broker.ItemsQuery.t) : list string :=
  filter (fun s => negb (String.eqb s ""))
    (map trim (split_commas
       (match Broker.ItemsQuery.exclude query with Some s => s | None => "linear,streaming" end))).

Definition items_filter (query : Broker.ItemsQuery.t) : bool :=
  String.eqb
    (match Broker.ItemsQuery.digital_first_only query with Some s => s | None => "true" end)
    "true".

(** The start of the window of an items request that arrives when the
    handler has had the effects [fx]: none without [since_hours] (or with 0),
    else the reading of the clock minus the hours, in milliseconds. *)
Definition items_window_start (w : World) (query : Broker.ItemsQuery.t) (fx : Effects)
  : option Z :=
  match Broker.ItemsQuery.since_hours query with
  | Some h => if h =? 0 then None else Some (clock w (clock_reads fx) - h * 3600 * 1000)
  | None => None
  end.

(** The [fromISO] of the items route: [undefined] without a window, the
    rendering of its start otherwise; [None] when the start cannot be
    rendered. *)
Definition items_from (w : World) (query : Broker.ItemsQuery.t) (fx : Effects)
  : option jsval :=
  match items_window_start w query fx with
  | None => Some JUndefined
  | Some ms => option_map JString (toISOString w ms)
  end.

(** The effects of the items route once [fromISO] is computed. *)
Definition items_started (w : World) (query : Broker.ItemsQuery.t) (fx : Effects) : Effects :=
  match items_window_start w query fx with
  | None => fx
  | Some _ => clock_read fx
  end.

(** The argument the items route calls [newsapiEverything] with. *)
Definition items_search (feed : Broker.Feed.t) (query : Broker.ItemsQuery.t) (fromISO : jsval)
  : Broker.Search.t :=
  {| Broker.Search.q := Broker.Feed.q feed;
     Broker.Search.domains := Broker.Feed.domains feed;
     Broker.Search.fromISO := fromISO;
     Broker.Search.pageSize := items_limit query |}.

(** The item of the article [a] of [feed] published at [published_at]. *)
Definition normalize {rt : StringRuntime} (feed : Broker.Feed.t) (exclude : list string)
    (a : Article.t) (published_at : string) : Broker.Item.t :=
  {| Broker.Item.id := Broker.stableId (Article.url a) (JString published_at);
     Broker.Item.title := or_string (Article.title a) "(untitled)";
     Broker.Item.url := Article.url a;
     Broker.Item.source := Broker.Feed.feed_id feed;
     Broker.Item.published_at := published_at;
     Broker.Item.snippet := or_string (Article.description a) "";
     Broker.Item.labels := [];
     Broker.Item.classification := Broker.classifyDigitalFirst (fields_of a) (Some exclude) |}.

(** [it] is the article [a] of [feed] normalized: published when the provider
    says, or else at a reading of the clock. *)
Definition normalized {rt : StringRuntime} (w : World) (feed : Broker.Feed.t)
    (exclude : list string) (a : Article.t) (it : Broker.Item.t) : Prop :=
  exists published_at,
    it = normalize feed exclude a published_at
    /\ if truthy (Article.publishedAt a)
       then published_at = interpolate (Article.publishedAt a)
       else exists n, toISOString w (clock w n) = Some published_at.

(** The digital-first items of a list. *)
Definition digital_first_items (items : list Broker.Item.t) : list Broker.Item.t :=
  filter (fun i => Broker.Classification.digital_first (Broker.Item.classification i)) items.

(** The provider's replies to the searches of the digest route for [feeds],
    the first of which is the request number [n] of the handler. *)
Fixpoint digest_replies (w : World) (fromISO : string) (n : nat)
    (feeds : list Broker.Feed.t) : list (Broker.Feed.t * FetchReply) :=
  match feeds with
  | [] => []
  | feed :: rest =>
      (feed, provider w n (digest_search w fromISO feed))
      :: digest_replies w fromISO (S n) rest
  end.

(** [batch] holds the articles of an ok reply to the search of a feed, in
    order, normalized. *)
Definition delivered {rt : StringRuntime} (w : World) (exclude : list string)
    (reply : Broker.Feed.t * FetchReply) (batch : list Broker.Item.t) : Prop :=
  exists r data,
    snd reply = Responded r
    /\ resp_ok r = true
    /\ resp_json r = inr data
    /\ Forall2 (normalized w (fst reply) exclude) (Broker.articles_of data) batch.

(* ------------------------------------------------------------------ *)
(** ** More sample requests and environments *)

Module Cases.

(** A query without parameters, and one that sets them all. *)
Definition plain_query : Broker.ItemsQuery.t :=
  {| Broker.ItemsQuery.limit := None;
     Broker.ItemsQuery.since_hours := None;
     Broker.ItemsQuery.digital_first_only := None;
     Broker.ItemsQuery.exclude := None |}.

Definition full_query : Broker.ItemsQuery.t :=
  {| Broker.ItemsQuery.limit := Some 100;
     Broker.ItemsQuery.since_hours := Some 24;
     Broker.ItemsQuery.digital_first_only := Some "false";
     Broker.ItemsQuery.exclude := Some "linear" |}.

(** A world with both secrets whose provider gives every request the same
    [reply]. *)
Definition world (reply : FetchReply) : World :=
  {| NEWSAPI_KEY := JString "newsapi-key";
     BROKER_KEY := JString "broker-key";
     clock := fun n => 1700000000000 + Z.of_nat n;
     toISOString := fun ms => Some (String_of_number ms);
     provider := fun _ _ => reply |}.

(** A provider that is down for maintenance. *)
Definition maintenance : FetchReply :=
  Responded {| resp_ok := false;
               resp_status := 503;
               resp_text := inr "maintenance";
               resp_json := inr None |}.

End Cases.

(* ------------------------------------------------------------------ *)
(** ** Notions of the smaller service *)

(** The feed its items route finds for [feed_id]. *)
Definition server_feed_of (feed_id : string) : option Server.Feed.t :=
  find (fun f => String.eqb (Server.Feed.feed_id f) feed_id) Server.FEEDS.

(** The request its items route sends for a feed: [newsapiFetch(feed)]. *)
Definition server_search (w : World) (feed : Server.Feed.t) : Request :=
  {| rq_q := Server.Feed.q feed;
     rq_sortBy := "publishedAt";
     rq_pageSize := "15";
     rq_domains := Some (String.concat "," (Server.Feed.domains feed));
     rq_from := None;
     rq_api_key := NEWSAPI_KEY w |}.

Definition is_string (v : jsval) : bool :=
  match v with
  | JString _ => true
  | _ => false
  end.

(** The item it makes of an article (whose url is a string). *)
Definition server_item (feed : Server.Feed.t) (a : Article.t) : Server.Item.t :=
  {| Server.Item.id := Crypto.sha1_hex (interpolate (Article.url a));
     Server.Item.title := Article.title a;
     Server.Item.url := Article.url a;
     Server.Item.source := Server.Feed.feed_id feed;
     Server.Item.published_at := Article.publishedAt a;
     Server.Item.snippet := Article.description a;
     Server.Item.classification :=
       {| Server.Classification.digital_first := true;
          Server.Classification.excluded_reasons := [] |} |}.

(* ------------------------------------------------------------------ *)
(** ** The applications: the middleware, then the routes

    Express runs the handlers in the order of their registration: the
    authentication middleware stands before every route, so a route runs only
    once the middleware has called [next()].  A [Call] is a request that
    matches one of the routes the service registers, with the parameters the
    route reads; [key] is the value of its [X-API-Key] header. *)

Module BrokerApp.

(** An entry of the answer of [GET /v1/sources]. *)
Module Source.
Record t : Type := {
  feed_id : string;
  name : string;
  homepage : string;
  content_type : string
}.
End Source.

Inductive Call : Type :=
| GetSources
| GetFeedItems (feed_id : string) (query : Broker.ItemsQuery.t)
| PostDigest (body : Broker.DigestBody.t)
| GetRoot.

(** What the client receives: [res.json({ sources })] and [res.send(text)]
    answer with status 200, the other answers carry their status. *)
Inductive Reply : Type :=
| SourcesJson (sources : list Source.t)
| Json (resp : Broker.HttpResponse)
| Text (text : string).

(** [GET /v1/sources]. *)
Definition sources : list Source.t :=
  map (fun f => {| Source.feed_id := Broker.Feed.feed_id f;
                   Source.name := Broker.Feed.name f;
                   Source.homepage := Broker.Feed.homepage f;
                   Source.content_type := Broker.Feed.content_type f |})
      Broker.FEEDS.

Section App.
Context {rt : StringRuntime}.

Definition route (w : World) (call : Call) : Async Reply :=
  match call with
  | GetSources => ret (SourcesJson sources)
  | GetFeedItems feed_id query =>
      resp <- Broker.feed_items w feed_id query ;;
      ret (Json resp)
  | PostDigest body =>
      resp <- Broker.newsletter_digest w body ;;
      ret (Json resp)
  | GetRoot => ret (Text "OK")
  end.

Definition app (w : World) (key : jsval) (call : Call) : Async Reply :=
  match Broker.auth w key with
  | Unauthorized status message =>
      ret (Json {| Broker.status := status; Broker.body := Broker.Message message |})
  | Next => route w call
  end.

End App.

End BrokerApp.

Module ServerApp.

Module Source.
Record t : Type := {
  feed_id : string;
  name : string
}.
End Source.

Inductive Call : Type :=
| GetSources
| GetFeedItems (feed_id : string).

Inductive Reply : Type :=
| SourcesJson (sources : list Source.t)
| Json (resp : Server.HttpResponse).

(** [GET /v1/sources]. *)
Definition sources : list Source.t :=
  map (fun f => {| Source.feed_id := Server.Feed.feed_id f;
                   Source.name := Server.Feed.name f |})
      Server.FEEDS.

Definition route (w : World) (call : Call) : Async Reply :=
  match call with
  | GetSources => ret (SourcesJson sources)
  | GetFeedItems feed_id =>
      resp <- Server.feed_items w feed_id ;;
      ret (Json resp)
  end.

Definition app (w : World) (key : jsval) (call : Call) : Async Reply :=
  match Server.auth w key with
  | Unauthorized status message =>
      ret (Json {| Server.status := status; Server.body := Server.Message message |})
  | Next => route w call
  end.

End ServerApp.

(* ------------------------------------------------------------------ *)
(** * Properties *)

(** ** JavaScript values *)

Lemma strict_eq_spec (a b : jsval) : reflect (a = b) (strict_eq a b).
Proof.
  destruct a as [| |s], b as [| |t]; simpl; try (constructor; congruence).
  destruct (String.eqb_spec s t); constructor; congruence.
Qed.

Lemma strict_eq_refl (a : jsval) : strict_eq a a = true.
Proof. destruct (strict_eq_spec a a); congruence. Qed.

Lemma or_string_empty (s : string) : or_string (JString s) "" = s.
Proof. simpl. destruct (String.eqb_spec s ""); congruence. Qed.

Lemma array_includes_In (arr : list string) (x : string) :
  array_includes arr x = true <-> In x arr.
Proof.
  unfold array_includes. rewrite existsb_exists. split.
  - intros [y [Hin Heq]]. apply String.eqb_eq in Heq. congruence.
  - intros Hin. exists x. split; [assumption | apply String.eqb_refl].
Qed.

Lemma array_includes_same_elements (arr1 arr2 : list string) (x : string) :
  (forall y, In y arr1 <-> In y arr2) ->
  array_includes arr1 x = array_includes arr2 x.
Proof.
  intros H. apply eq_true_iff_eq. rewrite !array_includes_In. apply H.
Qed.

Lemma existsb_strict_eq_In (k : jsval) (ks : list jsval) :
  existsb (strict_eq k) ks = true <-> In k ks.
Proof.
  rewrite existsb_exists. split.
  - intros [x [Hin Heq]]. destruct (strict_eq_spec k x); congruence.
  - intros Hin. exists k. split; [assumption | apply strict_eq_refl].
Qed.

(** ** The digests agree with the published test vectors *)

Example sha256_abc :
  Crypto.sha256_hex "abc"
  = "ba7816bf8f01cfea414140de5dae2223b00361a396177a9cb410ff61f20015ad".
Proof. vm_compute. reflexivity. Qed.

Example sha256_two_blocks :
  Crypto.sha256_hex "abcdbcdecdefdefgefghfghighijhijkijkljklmklmnlmnomnopnopq"
  = "248d6a61d20638b8e5c026930c3e6039a33ce45964ff2167f6ecedd419db06c1".
Proof. vm_compute. reflexivity. Qed.

Example sha1_abc :
  Crypto.sha1_hex "abc" = "a9993e364706816aba3e25717850c26c9cd0d89d".
Proof. vm_compute. reflexivity. Qed.

Example sha1_two_blocks :
  Crypto.sha1_hex "abcdbcdecdefdefgefghfghighijhijkijkljklmklmnlmnomnopnopq"
  = "84983e441c3bd26ebaae4aa1f95129e5e54670f1".
Proof. vm_compute. reflexivity. Qed.

(** ** The monad *)

Lemma bind_returned {A B : Type} (m : Async A) (k : A -> Async B) fx b fx' :
  bind m k fx = (Returned b, fx') ->
  exists a fx1, m fx = (Returned a, fx1) /\ k a fx1 = (Returned b, fx').
Proof.
  unfold bind. destruct (m fx) as [[a|e] fx1]; [eauto | discriminate].
Qed.

Lemma mapM_returned {A B : Type} (f : A -> Async B) (l : list A) fx bs fx' :
  mapM f l fx = (Returned bs, fx') ->
  Forall2 (fun a b => exists fx1 fx2, f a fx1 = (Returned b, fx2)) l bs.
Proof.
  revert fx bs fx'. induction l as [|a l IH]; simpl; intros fx bs fx' H.
  - inversion H. constructor.
  - apply bind_returned in H. destruct H as (b & fx1 & Hb & H).
    apply bind_returned in H. destruct H as (bs' & fx2 & Hbs & H).
    inversion H; subst. constructor; eauto.
Qed.

Lemma try_catch_returned {A : Type} (m : Async A) (handler : Exn -> A) fx a fx' :
  try_catch m handler fx = (Returned a, fx') ->
  m fx = (Returned a, fx') \/ exists e, m fx = (Thrown e, fx') /\ a = handler e.
Proof.
  unfold try_catch. destruct (m fx) as [[a0|e] fx1]; intros H; inversion H; subst; eauto.
Qed.

(** Splits a hypothesis [bind m k fx = (Returned b, fx')] into the step of
    [m] (dropped) and the one of [k], which keeps the name [H]. *)
Ltac skip_step H :=
  let a := fresh "a" in
  let fx := fresh "fx" in
  apply bind_returned in H; destruct H as (a & fx & _ & H).

(** The same, keeping the step of [m] as [Hm]. *)
Ltac split_step H Hm :=
  let a := fresh "a" in
  let fx := fresh "fx" in
  apply bind_returned in H; destruct H as (a & fx & Hm & H).

(** ** The [Map] of the deduplication *)

Section MapFacts.
Context {V : Type}.
Implicit Types (m : list (jsval * V)) (k : jsval) (v : V).

Lemma Map_set_keys k v m :
  Map_keys (Map_set k v m)
  = if existsb (strict_eq k) (Map_keys m) then Map_keys m else Map_keys m ++ [k].
Proof.
  induction m as [|[k' v'] m IH]; simpl; [reflexivity|].
  destruct (strict_eq_spec k k') as [->|Hne]; simpl; [reflexivity|].
  fold (Map_keys (Map_set k v m)). rewrite IH. fold (Map_keys m).
  destruct (existsb (strict_eq k) (Map_keys m)); reflexivity.
Qed.

Lemma Map_set_In k v m k0 v0 :
  NoDup (Map_keys m) ->
  In (k0, v0) (Map_set k v m)
  <-> (k0 = k /\ v0 = v) \/ (k0 <> k /\ In (k0, v0) m).
Proof.
  induction m as [|[k' v'] m IH]; simpl; intros Hnd.
  - split; [intros [H|[]]; inversion H; auto | intros [[-> ->]|[_ []]]; auto].
  - inversion Hnd as [|? ? Hnotin Hnd']; subst.
    destruct (strict_eq_spec k k') as [->|Hne]; simpl.
    + split.
      * intros [H|H]; [inversion H; auto|].
        right. split; [|auto]. intros ->. apply Hnotin.
        change k' with (fst (k', v0)). apply in_map, H.
      * intros [[-> ->]|[Hk [H|H]]]; auto. inversion H; congruence.
    + rewrite (IH Hnd'). split.
      * intros [H|[H|[Hk H]]]; auto.
        inversion H; subst. right. split; auto.
      * intros [[-> ->]|[Hk [H|H]]]; auto.
Qed.

Lemma Map_set_NoDup k v m : NoDup (Map_keys m) -> NoDup (Map_keys (Map_set k v m)).
Proof.
  intros Hnd. rewrite Map_set_keys.
  destruct (existsb (strict_eq k) (Map_keys m)) eqn:E; [assumption|].
  apply NoDup_app; [assumption | repeat constructor; intros [] | ].
  intros x Hin [<-|[]].
  apply existsb_strict_eq_In in Hin. congruence.
Qed.

End MapFacts.

Lemma first_occurrences_snoc (ks : list jsval) (k : jsval) :
  first_occurrences (ks ++ [k])
  = if existsb (strict_eq k) ks then first_occurrences ks
    else first_occurrences ks ++ [k].
Proof.
  induction ks as [|a ks IH]; simpl; [reflexivity|].
  rewrite IH.
  destruct (strict_eq_spec k a) as [->|Hne]; simpl.
  - destruct (existsb (strict_eq a) ks); [reflexivity|].
    rewrite filter_app. simpl. rewrite strict_eq_refl. simpl.
    rewrite app_nil_r. reflexivity.
  - destruct (existsb (strict_eq k) ks); [reflexivity|].
    rewrite filter_app. simpl.
    destruct (strict_eq_spec k a); [congruence|]. reflexivity.
Qed.

Lemma first_occurrences_In (ks : list jsval) (k : jsval) :
  In k (first_occurrences ks) <-> In k ks.
Proof.
  induction ks as [|a ks IH]; simpl; [tauto|].
  rewrite filter_In, IH.
  destruct (strict_eq_spec k a) as [->|Hne]; simpl; intuition congruence.
Qed.

Lemma last_occurrence_nil (it : Broker.Item.t) : ~ last_occurrence it [].
Proof. intros (before & after & Heq & _). destruct before; discriminate. Qed.

Lemma last_occurrence_snoc (it x : Broker.Item.t) (all : list Broker.Item.t) :
  last_occurrence it (all ++ [x])
  <-> it = x \/ (Broker.Item.url x <> Broker.Item.url it /\ last_occurrence it all).
Proof.
  split.
  - intros (before & after & Heq & Hlater).
    destruct after as [|y after'] using rev_ind.
    + apply app_inj_tail in Heq. left. symmetry. apply Heq.
    + clear IHafter'. rewrite app_comm_cons, app_assoc in Heq.
      apply app_inj_tail in Heq. destruct Heq as [Hall ->].
      right. split.
      * apply Hlater. apply in_or_app. right. left. reflexivity.
      * exists before, after'. split; [assumption|].
        intros later Hin. apply Hlater. apply in_or_app. left. assumption.
  - intros [->|[Hne (before & after & -> & Hlater)]].
    + exists all, []. split; [reflexivity | intros ? []].
    + exists before, (after ++ [x]). split.
      * rewrite <- app_assoc. reflexivity.
      * intros later Hin. apply in_app_or in Hin.
        destruct Hin as [Hin|[<-|[]]]; auto.
Qed.

Section Dedup.
Import Broker.

Lemma byUrl_snoc (all : list Item.t) (x : Item.t) :
  byUrl (all ++ [x]) = Map_set (Item.url x) x (byUrl all).
Proof. unfold byUrl. rewrite fold_left_app. reflexivity. Qed.

(** What the loop over [all] keeps true of the map: its keys are the urls in
    order of first occurrence, without repeats, and each key holds the last
    item seen with that url. *)
Lemma byUrl_invariant (all : list Item.t) :
  Map_keys (byUrl all) = first_occurrences (map Item.url all)
  /\ NoDup (Map_keys (byUrl all))
  /\ (forall k it, In (k, it) (byUrl all) <-> k = Item.url it /\ last_occurrence it all).
Proof.
  induction all as [|x all IH] using rev_ind.
  - split; [reflexivity|]. split; [constructor|].
    intros k it. split; [intros [] | intros [_ H]; destruct (last_occurrence_nil _ H)].
  - destruct IH as (Hkeys & Hnd & Hin).
    rewrite byUrl_snoc. split; [|split].
    + rewrite Map_set_keys, map_app. cbn [map].
      rewrite first_occurrences_snoc, Hkeys.
      assert (E : existsb (strict_eq (Item.url x)) (first_occurrences (map Item.url all))
                  = existsb (strict_eq (Item.url x)) (map Item.url all)).
      { apply eq_true_iff_eq. rewrite !existsb_strict_eq_In.
        apply first_occurrences_In. }
      rewrite E. reflexivity.
    + apply Map_set_NoDup, Hnd.
    + intros k it. rewrite (Map_set_In _ _ _ _ _ Hnd), last_occurrence_snoc, Hin.
      split.
      * intros [[-> ->]|[Hk [-> H]]]; [auto|].
        split; [reflexivity|]. right. split; [congruence | assumption].
      * intros [-> [->|[Hne H]]]; [auto|].
        right. split; [congruence | auto].
Qed.

Lemma byUrl_urls (all : list Item.t) :
  map Item.url (Map_values (byUrl all)) = Map_keys (byUrl all).
Proof.
  destruct (byUrl_invariant all) as (_ & _ & Hin).
  unfold Map_values, Map_keys. rewrite map_map.
  apply map_ext_in. intros [k it] H. apply Hin in H. simpl. symmetry. apply H.
Qed.

End Dedup.

(** C2. For any sequence of Items, the merge output has no two items with
    the same url; an item is in the output exactly when it is the last
    occurrence of its url in the input; and the urls of the output come in the
    order of their first occurrence in the input. *)
Theorem dedupe_last_write_wins (all : list Broker.Item.t) :
  let merged := Map_values (Broker.byUrl all) in
  NoDup (map Broker.Item.url merged)
  /\ (forall it, In it merged <-> last_occurrence it all)
  /\ map Broker.Item.url merged = first_occurrences (map Broker.Item.url all).
Proof.
  intros merged. subst merged.
  destruct (byUrl_invariant all) as (Hkeys & Hnd & Hin).
  rewrite byUrl_urls. repeat split; try assumption.
  - unfold Map_values. intros H. apply in_map_iff in H.
    destruct H as [[k it'] [Heq H]]. simpl in Heq. subst it'.
    apply Hin in H. apply H.
  - intros H. unfold Map_values. apply in_map_iff.
    exists (Broker.Item.url it, it). split; [reflexivity|]. apply Hin. auto.
Qed.

(** Two feeds deliver the same url: the later delivery is kept, at the place
    of the first. *)
Example dedupe_two_feeds :
  let first := Samples.item_at "https://example.com/a" "tubefilter" in
  let other := Samples.item_at "https://example.com/b" "tubefilter" in
  let again := Samples.item_at "https://example.com/a" "ppc_land" in
  Map_values (Broker.byUrl [first; other; again]) = [again; other].
Proof. reflexivity. Qed.

(** ** The classifier *)

Section ClassifierFacts.
Context {rt : StringRuntime}.
Import Broker.

Lemma classify_reasons (f : Fields.t) (exclude : list string) :
  Classification.excluded_reasons (classifyDigitalFirst f (Some exclude))
  = filter (tag_fires exclude (classifier_text f)) ["linear"; "streaming"].
Proof.
  unfold classifyDigitalFirst. cbv zeta.
  cbn [Classification.excluded_reasons].
  change (filter (tag_fires exclude (classifier_text f)) ["linear"; "streaming"])
    with (let rest :=
            if (array_includes exclude "streaming"
                && test streaming_pattern (classifier_text f))%bool
            then ["streaming"] else [] in
          if (array_includes exclude "linear" && test linear_pattern (classifier_text f))%bool
          then "linear" :: rest else rest).
  cbv zeta.
  generalize (test linear_pattern (classifier_text f)) as l.
  generalize (test streaming_pattern (classifier_text f)) as s.
  intros s l.
  destruct (array_includes exclude "linear"), (array_includes exclude "streaming"), s, l;
    reflexivity.
Qed.

Lemma classify_digital_first (f : Fields.t) (exclude : option (list string)) :
  let c := classifyDigitalFirst f exclude in
  Classification.digital_first c = true
  <-> Classification.excluded_reasons c = []
      /\ test digitalHints (classifier_text f) = true.
Proof.
  unfold classifyDigitalFirst. cbv zeta.
  cbn [Classification.digital_first Classification.excluded_reasons].
  set (ex := match exclude with Some tags => tags | None => _ end).
  generalize (test digitalHints (classifier_text f)) as h.
  destruct (array_includes ex "linear" && test linear_pattern (classifier_text f))%bool;
  destruct (array_includes ex "streaming" && test streaming_pattern (classifier_text f))%bool;
  intros h; cbn; intuition (try discriminate; auto).
Qed.

Lemma classify_same_tags (f : Fields.t) (ex1 ex2 : list string) :
  (forall tag, In tag ex1 <-> In tag ex2) ->
  classifyDigitalFirst f (Some ex1) = classifyDigitalFirst f (Some ex2).
Proof.
  intros H. unfold classifyDigitalFirst.
  rewrite !(array_includes_same_elements ex1 ex2) by assumption.
  reflexivity.
Qed.

Lemma mapArticle_returned w feed exclude a fx it fx' :
  mapArticle w feed exclude a fx = (Returned it, fx') ->
  it = {| Item.id := stableId (Article.url a) (JString (Item.published_at it));
          Item.title := or_string (Article.title a) "(untitled)";
          Item.url := Article.url a;
          Item.source := Feed.feed_id feed;
          Item.published_at := Item.published_at it;
          Item.snippet := or_string (Article.description a) "";
          Item.labels := [];
          Item.classification := classifyDigitalFirst (fields_of a) (Some exclude) |}
  /\ (if truthy (Article.publishedAt a)
      then Item.published_at it = interpolate (Article.publishedAt a) /\ fx' = fx
      else isoNow w fx = (Returned (Item.published_at it), fx')).
Proof.
  unfold mapArticle. intros H.
  split_step H Hp.
  unfold ret in H. inversion H; subst. cbn [Item.published_at]. split; [reflexivity|].
  destruct (truthy (Article.publishedAt a)).
  - unfold ret in Hp. inversion Hp; subst. auto.
  - assumption.
Qed.

Lemma mapM_mapped w feed exclude articles fx items fx' :
  mapM (mapArticle w feed exclude) articles fx = (Returned items, fx') ->
  Forall (mapped_article w exclude) items.
Proof.
  intros H. apply mapM_returned in H.
  induction H as [|a it articles items (fx1 & fx2 & Hit) _ IH]; constructor; [|assumption].
  exists feed, a, fx1, fx2. assumption.
Qed.

(** Every item the digest route gathers was returned by [mapArticle]. *)
Lemma gather_mapped w exclude iso feeds all fx all' fx' :
  gather w exclude iso feeds all fx = (Returned all', fx') ->
  Forall (mapped_article w exclude) all ->
  Forall (mapped_article w exclude) all'.
Proof.
  revert all fx. induction feeds as [|feed feeds IH]; intros all fx H Hall.
  - simpl in H. inversion H; subst. assumption.
  - cbn [gather] in H.
    skip_step H. split_step H Hmapped.
    apply (IH _ _ H). apply Forall_app. split; [assumption|].
    eapply mapM_mapped. eassumption.
Qed.

(** Every item the items route answers with was returned by [mapArticle]. *)
Lemma feed_items_mapped w feed_id query fx resp fx' items :
  feed_items w feed_id query fx = (Returned resp, fx') ->
  body resp = ItemList items ->
  exists exclude, Forall (mapped_article w exclude) items.
Proof.
  unfold feed_items. intros H Hbody.
  apply try_catch_returned in H.
  destruct H as [H|(e & _ & ->)]; [|discriminate].
  destruct (find _ FEEDS) as [feed|]; [|inversion H; subst; discriminate].
  skip_step H. skip_step H. split_step H Hmapped.
  inversion H; subst. cbn [body] in Hbody. inversion Hbody; subst.
  eexists. apply mapM_mapped in Hmapped.
  destruct (String.eqb _ "true"); [|eassumption].
  apply Forall_forall. intros it Hin. apply filter_In in Hin.
  eapply Forall_forall in Hmapped; [eassumption | apply Hin].
Qed.

Lemma stableId_fingerprint (url : jsval) (p : string) :
  stableId url (JString p) = fingerprint Crypto.sha256_hex url (JString p).
Proof.
  unfold stableId, fingerprint. rewrite or_string_empty. reflexivity.
Qed.

End ClassifierFacts.

Lemma server_mapArticle_returned feed a fx it fx' :
  Server.mapArticle feed a fx = (Returned it, fx') ->
  exists u,
    Article.url a = JString u
    /\ fx' = fx
    /\ it = {| Server.Item.id := Crypto.sha1_hex u;
               Server.Item.title := Article.title a;
               Server.Item.url := Article.url a;
               Server.Item.source := Server.Feed.feed_id feed;
               Server.Item.published_at := Article.publishedAt a;
               Server.Item.snippet := Article.description a;
               Server.Item.classification :=
                 {| Server.Classification.digital_first := true;
                    Server.Classification.excluded_reasons := [] |} |}.
Proof.
  unfold Server.mapArticle, Server.idFor. intros H.
  split_step H Hi.
  destruct (Article.url a) as [| |u]; try discriminate.
  unfold ret in *. inversion Hi; inversion H; subst. eauto.
Qed.

(** Every item the smaller service answers with carries the constant
    classification. *)
Lemma server_feed_items_classification w feed_id fx resp fx' items :
  Server.feed_items w feed_id fx = (Returned resp, fx') ->
  Server.body resp = Server.ItemList items ->
  Forall (fun it =>
            Server.Item.classification it
            = {| Server.Classification.digital_first := true;
                 Server.Classification.excluded_reasons := [] |}) items.
Proof.
  unfold Server.feed_items. intros H Hbody.
  apply try_catch_returned in H.
  destruct H as [H|(e & _ & ->)]; [|discriminate].
  destruct (find _ Server.FEEDS) as [feed|]; [|inversion H; subst; discriminate].
  skip_step H. split_step H Hmapped.
  inversion H; subst. cbn [Server.body] in Hbody. inversion Hbody; subst.
  apply mapM_returned in Hmapped.
  induction Hmapped as [|art it arts its (fxa & fxb & Hit) _ IH]; constructor.
  - apply server_mapArticle_returned in Hit. destruct Hit as (u & _ & _ & ->). reflexivity.
  - apply IH; reflexivity.
Qed.

(** C1 (amended). In the full broker every Item is returned by [mapArticle]
    (the items route and the digest route both map it over the provider's
    articles), and its digital_first is true if and only if excluded_reasons
    is empty and the digital-first hint pattern matched the lowercased title,
    description and url of the article; the smaller service gives every item
    the classification digital_first = true with no excluded reason, whatever
    its text.  In both, digital_first = true implies that excluded_reasons
    is empty. *)
Theorem classification_follows_hint :
  (forall (rt : StringRuntime) w feed exclude a fx it fx',
      Broker.mapArticle w feed exclude a fx = (Returned it, fx') ->
      classified_by_hint it a
      /\ (Broker.Classification.digital_first (Broker.Item.classification it) = true ->
          Broker.Classification.excluded_reasons (Broker.Item.classification it) = []))
  /\ (forall (rt : StringRuntime) w feed_id query fx resp fx' items,
      Broker.feed_items w feed_id query fx = (Returned resp, fx') ->
      Broker.body resp = Broker.ItemList items ->
      exists exclude, Forall (mapped_article w exclude) items)
  /\ (forall (rt : StringRuntime) w exclude iso feeds fx all fx',
      Broker.gather w exclude iso feeds [] fx = (Returned all, fx') ->
      Forall (mapped_article w exclude) all)
  /\ (forall w feed_id fx resp fx' items,
      Server.feed_items w feed_id fx = (Returned resp, fx') ->
      Server.body resp = Server.ItemList items ->
      Forall (fun it =>
                Server.Item.classification it
                = {| Server.Classification.digital_first := true;
                     Server.Classification.excluded_reasons := [] |}) items).
Proof.
  split; [|split; [|split]].
  - intros rt w feed exclude a fx it fx' H.
    apply mapArticle_returned in H. destruct H as [Hit _].
    assert (Hc : Broker.Item.classification it
                 = Broker.classifyDigitalFirst (fields_of a) (Some exclude))
      by (rewrite Hit; reflexivity).
    unfold classified_by_hint. rewrite Hc.
    pose proof (classify_digital_first (fields_of a) (Some exclude)) as Hiff.
    cbv zeta in Hiff. split; [exact Hiff | intros Hdf; apply Hiff, Hdf].
  - intros rt w feed_id query fx resp fx' items H Hbody.
    eapply feed_items_mapped; eassumption.
  - intros rt w exclude iso feeds fx all fx' H.
    eapply gather_mapped; [eassumption | constructor].
  - intros w feed_id fx resp fx' items H Hbody.
    eapply server_feed_items_classification; eassumption.
Qed.

(** An article about cable television, mapped by the full broker. *)
Lemma classification_follows_hint_witness :
  exists it fx',
    Broker.mapArticle (rt := ascii_runtime)
      (Samples.world (JString "newsapi-key") (JString "broker-key") [])
      Broker.tubefilter ["linear"; "streaming"] Samples.cable_story no_effects
    = (Returned it, fx')
    /\ classified_by_hint (rt := ascii_runtime) it Samples.cable_story
    /\ Broker.Classification.excluded_reasons (Broker.Item.classification it) = ["linear"].
Proof.
  destruct (Broker.mapArticle (rt := ascii_runtime)
              (Samples.world (JString "newsapi-key") (JString "broker-key") [])
              Broker.tubefilter ["linear"; "streaming"] Samples.cable_story no_effects)
    as [[it|e] fx'] eqn:H.
  - exists it, fx'. split; [reflexivity|]. split.
    + exact (proj1 (proj1 classification_follows_hint ascii_runtime _ _ _ _ _ _ _ H)).
    + vm_compute in H. inversion H. reflexivity.
  - vm_compute in H. discriminate.
Defined.

(** The smaller service marks the same article digital-first although no
    hint occurs in its text: C1 as stated fails there. *)
Lemma server_items_always_digital_first :
  exists it fx',
    Server.feed_items
      (Samples.world (JString "newsapi-key") (JString "broker-key") [Samples.cable_story])
      "tubefilter" no_effects
    = (Returned {| Server.status := 200; Server.body := Server.ItemList [it] |}, fx')
    /\ ~ (Server.Classification.digital_first (Server.Item.classification it) = true
          <-> Server.Classification.excluded_reasons (Server.Item.classification it) = []
              /\ test Broker.digitalHints
                   (Broker.classifier_text (rt := ascii_runtime) (fields_of Samples.cable_story))
                 = true).
Proof.
  eexists _, _. split.
  - lazy. reflexivity.
  - cbn [Server.Item.classification Server.Classification.digital_first
         Server.Classification.excluded_reasons].
    intros [H _]. destruct (H eq_refl) as [_ Hhint].
    vm_compute in Hhint. discriminate.
Qed.

(** C7. The classification depends on the set of exclude tags only: two
    orderings of the same tags give the identical Classification, and
    excluded_reasons lists the tags that fired in the order of the vocabulary,
    linear before streaming. *)
Theorem classify_exclude_order_irrelevant
    (rt : StringRuntime) (f : Broker.Fields.t) (ex1 ex2 : list string) :
  Permutation ex1 ex2 ->
  Broker.classifyDigitalFirst f (Some ex1) = Broker.classifyDigitalFirst f (Some ex2)
  /\ Broker.Classification.excluded_reasons (Broker.classifyDigitalFirst f (Some ex1))
     = filter (tag_fires ex1 (Broker.classifier_text f)) ["linear"; "streaming"].
Proof.
  intros Hperm. split; [|apply classify_reasons].
  apply classify_same_tags. intros tag. split; apply Permutation_in;
    [assumption | apply Permutation_sym; assumption].
Qed.

Lemma classify_exclude_order_witness :
  Permutation ["streaming"; "linear"] ["linear"; "streaming"]
  /\ (Broker.classifyDigitalFirst (rt := ascii_runtime) Samples.netflix_on_cable
        (Some ["streaming"; "linear"])
      = Broker.classifyDigitalFirst (rt := ascii_runtime) Samples.netflix_on_cable
          (Some ["linear"; "streaming"])
      /\ Broker.Classification.excluded_reasons
           (Broker.classifyDigitalFirst (rt := ascii_runtime) Samples.netflix_on_cable
              (Some ["streaming"; "linear"]))
         = filter (tag_fires ["streaming"; "linear"]
                     (Broker.classifier_text (rt := ascii_runtime) Samples.netflix_on_cable))
                  ["linear"; "streaming"]).
Proof.
  split; [apply perm_swap|].
  exact (classify_exclude_order_irrelevant ascii_runtime Samples.netflix_on_cable
           ["streaming"; "linear"] ["linear"; "streaming"] (perm_swap _ _ _)).
Defined.

Example reasons_in_vocabulary_order :
  Broker.classifyDigitalFirst (rt := ascii_runtime) Samples.netflix_on_cable
    (Some ["streaming"; "linear"])
  = {| Broker.Classification.digital_first := false;
       Broker.Classification.excluded_reasons := ["linear"; "streaming"] |}.
Proof. vm_compute. reflexivity. Qed.

(** ** The identity of an item *)

(** C3 (amended). In the full broker the id of a normalized Item is the
    SHA-256 digest (in hexadecimal) of the article's url and its resolved
    published_at joined by a vertical bar, where published_at is the
    provider's value when it has one and the reading of the clock otherwise;
    so normalizing an article twice with the same normalization time gives
    the same id, whatever the feed and the exclude tags.  In the smaller
    service the id is the SHA-1 digest of the url alone, which is the same
    for every normalization of the article as well. *)
Theorem item_id_is_fingerprint :
  (forall (rt : StringRuntime) w feed exclude a fx it fx',
      Broker.mapArticle w feed exclude a fx = (Returned it, fx') ->
      Broker.Item.id it
      = fingerprint Crypto.sha256_hex (Article.url a) (JString (Broker.Item.published_at it))
      /\ (if truthy (Article.publishedAt a)
          then Broker.Item.published_at it = interpolate (Article.publishedAt a)
          else fst (Broker.isoNow w fx) = Returned (Broker.Item.published_at it)))
  /\ (forall (rt : StringRuntime) w1 w2 feed1 feed2 exclude1 exclude2 a
             fx1 fx2 it1 it2 fx1' fx2',
      Broker.mapArticle w1 feed1 exclude1 a fx1 = (Returned it1, fx1') ->
      Broker.mapArticle w2 feed2 exclude2 a fx2 = (Returned it2, fx2') ->
      fst (Broker.isoNow w1 fx1) = fst (Broker.isoNow w2 fx2) ->
      Broker.Item.id it1 = Broker.Item.id it2)
  /\ (forall feed a fx it fx',
      Server.mapArticle feed a fx = (Returned it, fx') ->
      exists u, Article.url a = JString u /\ Server.Item.id it = Crypto.sha1_hex u)
  /\ (forall feed1 feed2 a fx1 fx2 it1 it2 fx1' fx2',
      Server.mapArticle feed1 a fx1 = (Returned it1, fx1') ->
      Server.mapArticle feed2 a fx2 = (Returned it2, fx2') ->
      Server.Item.id it1 = Server.Item.id it2).
Proof.
  split; [|split; [|split]].
  - intros rt w feed exclude a fx it fx' H.
    apply mapArticle_returned in H. destruct H as [Hit Hp]. split.
    + rewrite Hit at 1. cbn [Broker.Item.id]. apply stableId_fingerprint.
    + destruct (truthy (Article.publishedAt a)); [apply Hp | rewrite Hp; reflexivity].
  - intros rt w1 w2 feed1 feed2 exclude1 exclude2 a fx1 fx2 it1 it2 fx1' fx2' H1 H2 Hnow.
    apply mapArticle_returned in H1. destruct H1 as [Hit1 Hp1].
    apply mapArticle_returned in H2. destruct H2 as [Hit2 Hp2].
    rewrite Hit1, Hit2. cbn [Broker.Item.id]. do 2 f_equal.
    destruct (truthy (Article.publishedAt a)).
    + destruct Hp1 as [-> _], Hp2 as [-> _]. reflexivity.
    + rewrite Hp1, Hp2 in Hnow. simpl in Hnow. congruence.
  - intros feed a fx it fx' H.
    apply server_mapArticle_returned in H. destruct H as (u & Hu & _ & ->). eauto.
  - intros feed1 feed2 a fx1 fx2 it1 it2 fx1' fx2' H1 H2.
    apply server_mapArticle_returned in H1. destruct H1 as (u1 & Hu1 & _ & ->).
    apply server_mapArticle_returned in H2. destruct H2 as (u2 & Hu2 & _ & ->).
    simpl. congruence.
Qed.

(** An article without publication time, normalized at the first reading of
    the sample clock. *)
Lemma item_id_is_fingerprint_witness :
  exists it fx',
    Broker.mapArticle (rt := ascii_runtime)
      (Samples.world (JString "newsapi-key") (JString "broker-key") [])
      Broker.tubefilter ["linear"; "streaming"] Samples.undated_story no_effects
    = (Returned it, fx')
    /\ Broker.Item.id it
       = fingerprint Crypto.sha256_hex (JString "https://example.com/undated")
           (JString "1700000000000").
Proof.
  destruct (Broker.mapArticle (rt := ascii_runtime)
              (Samples.world (JString "newsapi-key") (JString "broker-key") [])
              Broker.tubefilter ["linear"; "streaming"] Samples.undated_story no_effects)
    as [[it|e] fx'] eqn:H.
  - exists it, fx'. split; [reflexivity|].
    destruct (proj1 item_id_is_fingerprint ascii_runtime _ _ _ _ _ _ _ H) as [Hid _].
    rewrite Hid. vm_compute in H. inversion H. reflexivity.
  - vm_compute in H. discriminate.
Defined.

(** In the smaller service two deliveries of one url with different
    publication times get the same id, which is neither the SHA-256 nor the
    SHA-1 fingerprint of url and publication time: C3 as stated fails there. *)
Lemma server_id_ignores_published_at :
  exists it it' fx fx',
    Server.mapArticle Server.tubefilter Samples.cable_story no_effects = (Returned it, fx)
    /\ Server.mapArticle Server.tubefilter Samples.cable_story_updated no_effects
       = (Returned it', fx')
    /\ Server.Item.id it = Server.Item.id it'
    /\ Server.Item.id it
       <> fingerprint Crypto.sha256_hex (Server.Item.url it) (Server.Item.published_at it)
    /\ Server.Item.id it
       <> fingerprint Crypto.sha1_hex (Server.Item.url it) (Server.Item.published_at it)
    /\ fingerprint Crypto.sha256_hex (Server.Item.url it) (Server.Item.published_at it)
       <> fingerprint Crypto.sha256_hex (Server.Item.url it') (Server.Item.published_at it').
Proof.
  eexists _, _, _, _. split; [lazy; reflexivity|]. split; [lazy; reflexivity|].
  cbn [Server.Item.id Server.Item.url Server.Item.published_at].
  split; [reflexivity|].
  repeat split; intros H; vm_compute in H; discriminate.
Qed.

(** ** Sorting and slicing *)

Section SortFacts.
Context {A : Type} (key : A -> Z).

Lemma sort_insert_permutation (x : A) (l : list A) :
  Permutation (sort_insert (by_key_descending key) x l) (x :: l).
Proof.
  induction l as [|y l IH]; simpl; [reflexivity|].
  destruct (by_key_descending key x y <=? 0); [reflexivity|].
  rewrite IH. apply perm_swap.
Qed.

Lemma sort_permutation (l : list A) : Permutation (Array_sort (by_key_descending key) l) l.
Proof.
  induction l as [|x l IH]; simpl; [reflexivity|].
  rewrite sort_insert_permutation. constructor. assumption.
Qed.

Lemma sort_insert_sorted (x : A) (l : list A) :
  StronglySorted (fun a b => key b <= key a) l ->
  StronglySorted (fun a b => key b <= key a) (sort_insert (by_key_descending key) x l).
Proof.
  induction l as [|y l IH]; simpl; intros Hs.
  - repeat constructor.
  - inversion Hs as [|? ? Hs' Hall]; subst.
    unfold by_key_descending at 1.
    destruct (Z.leb_spec (key y - key x) 0) as [Hle|Hgt].
    + constructor; [assumption|]. constructor; [lia|].
      eapply Forall_impl; [|exact Hall]. simpl. intros; lia.
    + constructor; [apply IH; assumption|].
      eapply Permutation_Forall; [symmetry; apply sort_insert_permutation|].
      constructor; [lia | assumption].
Qed.

Lemma sort_sorted (l : list A) :
  StronglySorted (fun a b => key b <= key a) (Array_sort (by_key_descending key) l).
Proof.
  induction l as [|x l IH]; simpl; [constructor | apply sort_insert_sorted, IH].
Qed.

Lemma sort_insert_stable (v : Z) (x : A) (l : list A) :
  filter (fun a => key a =? v) (sort_insert (by_key_descending key) x l)
  = filter (fun a => key a =? v) (x :: l).
Proof.
  induction l as [|y l IH]; [reflexivity|].
  cbn [sort_insert]. unfold by_key_descending at 1.
  destruct (Z.leb_spec (key y - key x) 0) as [Hle|Hgt]; [reflexivity|].
  cbn [filter] in *. rewrite IH.
  destruct (Z.eqb_spec (key x) v), (Z.eqb_spec (key y) v); try reflexivity. lia.
Qed.

(** Stability: the items of one key keep their relative order. *)
Lemma sort_stable (v : Z) (l : list A) :
  filter (fun a => key a =? v) (Array_sort (by_key_descending key) l)
  = filter (fun a => key a =? v) l.
Proof.
  induction l as [|x l IH]; [reflexivity|].
  cbn [Array_sort fold_right]. fold (Array_sort (by_key_descending key) l).
  rewrite sort_insert_stable. cbn [filter]. rewrite IH. reflexivity.
Qed.

End SortFacts.

Lemma slice0_nonnegative {A : Type} (arr : list A) (e : Z) :
  0 <= e -> slice0 arr e = firstn (Z.to_nat e) arr.
Proof.
  intros He. unfold slice0.
  destruct (Z.ltb_spec e 0) as [|_]; [lia|].
  destruct (Z.le_ge_cases e (Z.of_nat (length arr))) as [Hle|Hge].
  - rewrite Z.min_l by assumption. reflexivity.
  - rewrite Z.min_r by assumption. rewrite Nat2Z.id.
    rewrite firstn_all. symmetry. apply firstn_all2. lia.
Qed.

Lemma slice0_negative {A : Type} (arr : list A) (e : Z) :
  e < 0 -> slice0 arr e = firstn (length arr - Z.to_nat (- e)) arr.
Proof.
  intros He. unfold slice0.
  destruct (Z.ltb_spec e 0) as [_|]; [|lia]. f_equal. lia.
Qed.

Lemma filter_all {A : Type} (l : list A) : filter (fun _ => true) l = l.
Proof. induction l as [|x l IH]; simpl; congruence. Qed.

(** ** The composer *)

Section Composer.
Context {rt : StringRuntime}.
Import Broker.

Lemma score_by_pattern (item : Item.t) :
  map (score item) section_names
  = map (fun re => if test re (score_text item) then 4 else 1) section_patterns.
Proof.
  unfold section_names, section_patterns, score, score_text. cbn [map].
  repeat f_equal.
  all: match goal with |- context [includes ?s _] =>
         repeat match goal with |- context [includes s ?p] =>
           let b := eval vm_compute in (includes s p) in
           change (includes s p) with b end end.
  all: cbn [andb].
  all: reflexivity.
Qed.

Lemma score_never_zero (item : Item.t) (section : string) :
  score item section = 4 \/ score item section = 1.
Proof.
  unfold score.
  repeat match goal with |- context [if ?b then _ else _] => destruct b end; auto.
Qed.

(** [ranked] is the stable sort of the items by descending score. *)
Lemma ranked_stable_descending (items : list Item.t) (section : string) :
  Permutation (ranked items section) items
  /\ StronglySorted (fun a b => score b section <= score a section) (ranked items section)
  /\ forall v, filter (fun it => score it section =? v) (ranked items section)
               = filter (fun it => score it section =? v) items.
Proof.
  unfold ranked.
  change (fun a b => score b section - score a section)
    with (by_key_descending (fun it => score it section)).
  split; [apply sort_permutation|].
  split; [apply (sort_sorted (fun it => score it section)) | intros v; apply sort_stable].
Qed.

(** On a count, that is a [max_items_per_section] that is not negative, a
    section holds the first [max_items_per_section] ranked items. *)
Lemma section_items_top_ranked (items : list Item.t) (max_items_per_section : Z)
    (section : string) :
  0 <= max_items_per_section ->
  section_items items max_items_per_section section
  = map render (firstn (Z.to_nat max_items_per_section) (ranked items section))
  /\ Z.of_nat (length (section_items items max_items_per_section section))
     <= max_items_per_section.
Proof.
  intros Hmax. unfold section_items. rewrite length_map.
  rewrite slice0_nonnegative by assumption. split; [reflexivity|].
  rewrite length_firstn. lia.
Qed.

(** On a negative [max_items_per_section] a section drops that many items
    from the end of the ranking instead. *)
Lemma section_items_negative (items : list Item.t) (max_items_per_section : Z)
    (section : string) :
  max_items_per_section < 0 ->
  length (section_items items max_items_per_section section)
  = (length items - Z.to_nat (- max_items_per_section))%nat.
Proof.
  intros Hmax. unfold section_items. rewrite length_map.
  rewrite slice0_negative by assumption. rewrite length_firstn.
  destruct (ranked_stable_descending items section) as (Hperm & _).
  rewrite (Permutation_length Hperm). lia.
Qed.

Lemma citations_first_200 (items : list Item.t) :
  citations items = map cite (firstn 200 items)
  /\ (length (citations items) <= 200)%nat.
Proof.
  unfold citations. rewrite slice0_nonnegative by lia.
  change (Z.to_nat 200) with 200%nat. split; [reflexivity|].
  rewrite length_map, length_firstn. lia.
Qed.

Lemma candidates_filter (digital_first_only : bool) (all : list Item.t) :
  candidates digital_first_only all
  = filter (fun it => negb digital_first_only
                      || Classification.digital_first (Item.classification it))%bool
           (Map_values (byUrl all)).
Proof.
  unfold candidates. destruct digital_first_only; cbn [negb orb]; [reflexivity|].
  symmetry. apply filter_all.
Qed.

End Composer.

(** C6. For each of the four sections the score of an item is 4 when the
    section's keyword pattern matches the lowercased title and snippet, and 1
    otherwise; no score is 0.  An item titled "TikTok Shorts launch
    announced" scores 4 for the launches and 1 for the platform moves. *)
Theorem score_four_or_one :
  (forall (rt : StringRuntime) (item : Broker.Item.t),
      map (Broker.score item) Broker.section_names
      = map (fun re => if test re (score_text item) then 4 else 1) section_patterns
      /\ forall section, Broker.score item section = 4 \/ Broker.score item section = 1)
  /\ (let item := Samples.plain_item "TikTok Shorts launch announced" "" in
      Broker.score (rt := ascii_runtime) item "New digital-first launches" = 4
      /\ Broker.score (rt := ascii_runtime) item "Platform moves & monetization" = 1).
Proof.
  split.
  - intros rt item. split; [apply score_by_pattern | apply score_never_zero].
  - split; vm_compute; reflexivity.
Qed.

(** ** The digest route *)

Section DigestRoute.
Context {rt : StringRuntime}.
Import Broker.

(** The route always answers. *)
Lemma newsletter_digest_answers w body fx :
  exists resp fx', newsletter_digest w body fx = (Returned resp, fx').
Proof.
  unfold newsletter_digest, try_catch.
  match goal with
  | |- context [match ?m fx with _ => _ end] => destruct (m fx) as [[r|e] fx1]
  end; eauto.
Qed.

(** The three ways the route answers: a refusal of the sources, a failure
    caught on the way, or the digest composed from the gathered items. *)
Lemma newsletter_digest_status w body fx resp fx' :
  newsletter_digest w body fx = (Returned resp, fx') ->
  (status resp = 422
   /\ (requested_sources body = [] \/ selected (requested_sources body) = []))
  \/ status resp = 500
  \/ exists iso all generated_at fx2,
       toISOString w (window_start w body fx) = Some iso
       /\ gather w (requested_exclude body) iso (selected (requested_sources body)) []
            {| clock_reads := S (clock_reads fx); requests := requests fx |}
          = (Returned all, fx2)
       /\ isoNow w fx2 = (Returned generated_at, fx')
       /\ resp = {| status := 200; body := DigestJson (composed body all generated_at) |}.
Proof.
  unfold newsletter_digest, try_catch.
  fold (requested_sources body) (requested_window body) (requested_max body)
       (requested_filter body) (requested_exclude body).
  destruct (requested_sources body) as [|s srcs] eqn:Hsrc.
  - simpl. intros H. inversion H; subst. left. simpl. auto.
  - cbn [length Nat.eqb].
    unfold bind at 1. unfold Date_now at 1. cbn [clock_reads requests].
    unfold bind at 1. unfold Date_toISOString at 1.
    fold (window_start w body fx).
    destruct (toISOString w (window_start w body fx)) as [iso|] eqn:Hiso.
    2:{ unfold throw. intros H. inversion H; subst. right. left. reflexivity. }
    unfold ret at 1.
    destruct (selected (s :: srcs)) as [|f sel] eqn:Hsel.
    + simpl. intros H. inversion H; subst. left. simpl. auto.
    + cbn [length Nat.eqb].
      unfold bind at 1.
      destruct (gather w (requested_exclude body) iso (f :: sel) [] _)
        as [[all|e] fx2] eqn:Hg.
      2:{ intros H. inversion H; subst. right. left. reflexivity. }
      unfold bind at 1.
      destruct (isoNow w fx2) as [[generated_at|e] fx3] eqn:Hnow.
      2:{ intros H. inversion H; subst. right. left. reflexivity. }
      unfold ret. intros H. inversion H; subst. right. right.
      exists iso, all, generated_at, fx2. repeat split; assumption.
Qed.

Lemma isoNow_healthy w fx :
  healthy w ->
  exists iso fx', isoNow w fx = (Returned iso, fx') /\ requests fx' = requests fx.
Proof.
  intros (_ & Hiso & _).
  unfold isoNow, bind, Date_now, Date_toISOString.
  destruct (Hiso (clock_reads fx)) as [iso ->].
  unfold ret. eauto.
Qed.

Lemma mapArticle_healthy w feed exclude a fx :
  healthy w ->
  exists it fx', mapArticle w feed exclude a fx = (Returned it, fx')
                 /\ requests fx' = requests fx.
Proof.
  intros Hw. unfold mapArticle, bind.
  destruct (truthy (Article.publishedAt a)).
  - unfold ret. eauto.
  - destruct (isoNow_healthy w fx Hw) as (iso & fx' & -> & Hreq). unfold ret. eauto.
Qed.

Lemma mapM_mapArticle_healthy w feed exclude articles fx :
  healthy w ->
  exists items fx', mapM (mapArticle w feed exclude) articles fx = (Returned items, fx')
                    /\ requests fx' = requests fx.
Proof.
  intros Hw. revert fx. induction articles as [|a articles IH]; intros fx; simpl.
  - unfold ret. eauto.
  - unfold bind at 1.
    destruct (mapArticle_healthy w feed exclude a fx Hw) as (it & fx1 & -> & Hreq1).
    unfold bind at 1.
    destruct (IH fx1) as (items & fx2 & -> & Hreq2).
    unfold ret. exists (it :: items), fx2. split; [reflexivity | congruence].
Qed.

(** With a healthy provider the loop sends one request per selected feed, in
    the order of the catalog, and returns. *)
Lemma gather_healthy w exclude iso feeds all fx :
  healthy w ->
  exists all' fx', gather w exclude iso feeds all fx = (Returned all', fx')
                   /\ requests fx' = requests fx ++ map (digest_search w iso) feeds.
Proof.
  intros Hw. revert all fx. induction feeds as [|feed feeds IH]; intros all fx.
  - simpl. unfold ret. exists all, fx. rewrite app_nil_r. auto.
  - cbn [gather]. unfold bind at 1. unfold newsapiEverything.
    destruct Hw as (Hkey & Hiso & Hnet). rewrite Hkey. cbn [negb].
    unfold bind at 1. unfold fetch at 1.
    match goal with
    | |- context [provider w ?n ?rq] =>
        destruct (Hnet n rq eq_refl) as (r & data & -> & Hok & Hjson)
    end.
    rewrite Hok, Hjson. cbn [negb]. unfold ret at 1.
    unfold bind at 1.
    match goal with
    | |- context [mapM ?f ?l ?fx0] =>
        destruct (mapM_mapArticle_healthy w feed exclude l fx0
                    (conj Hkey (conj Hiso Hnet)))
          as (items & fx1 & -> & Hreq1)
    end.
    destruct (IH (all ++ items) fx1) as (all' & fx' & -> & Hreq).
    exists all', fx'. split; [reflexivity|].
    rewrite Hreq, Hreq1. cbn [requests map]. rewrite <- app_assoc. reflexivity.
Qed.

Lemma selected_known (sources : list string) :
  selected (filter in_catalog sources) = selected sources.
Proof.
  unfold selected. apply filter_ext_in. intros f Hf.
  apply eq_true_iff_eq. rewrite !array_includes_In, filter_In.
  unfold in_catalog. rewrite array_includes_In.
  split; [tauto|]. intros H. split; [assumption|].
  apply in_map. assumption.
Qed.

Lemma selected_nonempty (sources : list string) (s : string) :
  In s sources -> in_catalog s = true -> selected sources <> [].
Proof.
  intros Hin Hknown. unfold in_catalog in Hknown.
  apply array_includes_In, in_map_iff in Hknown. destruct Hknown as (f & <- & Hf).
  assert (H : In f (selected sources)).
  { unfold selected. apply filter_In. split; [assumption|].
    apply array_includes_In. assumption. }
  intros E. rewrite E in H. destruct H.
Qed.

End DigestRoute.

Lemma sample_world_healthy (broker_key : jsval) (articles : list Article.t) :
  healthy (Samples.world (JString "newsapi-key") broker_key articles).
Proof.
  split; [reflexivity|]. split.
  - intros n. eexists. reflexivity.
  - intros n rq Hkey. cbn [Samples.world provider NEWSAPI_KEY] in *.
    rewrite Hkey. cbn. eexists _, _. repeat split.
Qed.

(** C4 (amended). When the digest route answers 200, the citations are the
    first 200 (fewer if fewer exist) of the candidate items, each mapped to
    url, title and source, where the candidates are the deduplicated items in
    dedup-output order once the optional digital-first filter has been applied:
    all of them when digital_first_only is false, the digital-first ones
    otherwise.  In particular there are at most 200 citations. *)
Theorem citations_first_200_candidates (rt : StringRuntime) w body fx resp fx' :
  Broker.newsletter_digest w body fx = (Returned resp, fx') ->
  Broker.status resp = 200 ->
  exists digest iso all fx1 fx2,
    Broker.body resp = Broker.DigestJson digest
    /\ Broker.gather w (requested_exclude body) iso
         (Broker.selected (requested_sources body)) [] fx1
       = (Returned all, fx2)
    /\ Broker.candidates (requested_filter body) all
       = filter (fun it =>
                   negb (requested_filter body)
                   || Broker.Classification.digital_first (Broker.Item.classification it))%bool
                (Map_values (Broker.byUrl all))
    /\ Broker.Digest.citations digest
       = map Broker.cite (firstn 200 (Broker.candidates (requested_filter body) all))
    /\ (length (Broker.Digest.citations digest) <= 200)%nat
    /\ (requested_filter body = false ->
        Broker.Digest.citations digest
        = map Broker.cite (firstn 200 (Map_values (Broker.byUrl all)))).
Proof.
  intros H Hstatus. apply newsletter_digest_status in H.
  destruct H as [[E _]|[E|(iso & all & generated_at & fx2 & _ & Hg & _ & ->)]];
    [rewrite E in Hstatus; discriminate | rewrite E in Hstatus; discriminate |].
  exists (composed body all generated_at), iso, all,
    {| clock_reads := S (clock_reads fx); requests := requests fx |}, fx2.
  split; [reflexivity|]. split; [exact Hg|]. split; [apply candidates_filter|].
  cbn [composed Broker.Digest.citations].
  destruct (citations_first_200 (Broker.candidates (requested_filter body) all)) as [Hc Hlen].
  split; [exact Hc|]. split; [exact Hlen|].
  intros Hf. rewrite Hc, Hf. reflexivity.
Qed.

(** A default request (digital_first_only left out) over a feed that
    delivers a story about cable television, then one about TikTok. *)
Lemma citations_first_200_candidates_witness :
  exists resp fx',
    Broker.newsletter_digest (rt := ascii_runtime)
      (Samples.world (JString "newsapi-key") (JString "broker-key")
         [Samples.cable_story; Samples.tiktok_story])
      (Samples.digest_request ["tubefilter"] None) no_effects
    = (Returned resp, fx')
    /\ Broker.status resp = 200
    /\ exists digest all,
         Broker.body resp = Broker.DigestJson digest
         /\ Broker.Digest.citations digest
            = map Broker.cite (firstn 200 (Broker.candidates true all))
         /\ (length (Broker.Digest.citations digest) <= 200)%nat.
Proof.
  destruct (Broker.newsletter_digest (rt := ascii_runtime)
              (Samples.world (JString "newsapi-key") (JString "broker-key")
                 [Samples.cable_story; Samples.tiktok_story])
              (Samples.digest_request ["tubefilter"] None) no_effects)
    as [[resp|e] fx'] eqn:H.
  - assert (Hstatus : Broker.status resp = 200)
      by (vm_compute in H; inversion H; reflexivity).
    exists resp, fx'. split; [reflexivity|]. split; [exact Hstatus|].
    destruct (citations_first_200_candidates ascii_runtime _ _ _ _ _ H Hstatus)
      as (digest & iso & all & fx1 & fx2 & Hbody & _ & _ & Hc & Hlen & _).
    exists digest, all. auto.
  - vm_compute in H. discriminate.
Defined.

(** With the default filter the story about cable television is deduplicated
    first and cited nowhere: the citations are not the first items of the
    Deduplicator's output, so C4 as stated fails. *)
Lemma citations_skip_filtered_items :
  exists all digest fx fx',
    Broker.gather (rt := ascii_runtime)
      (Samples.world (JString "newsapi-key") (JString "broker-key")
         [Samples.cable_story; Samples.tiktok_story])
      ["linear"; "streaming"] (String_of_number (1700000000000 - 168 * 3600 * 1000))
      [Broker.tubefilter] [] {| clock_reads := 1; requests := [] |}
    = (Returned all, fx)
    /\ Broker.newsletter_digest (rt := ascii_runtime)
         (Samples.world (JString "newsapi-key") (JString "broker-key")
            [Samples.cable_story; Samples.tiktok_story])
         (Samples.digest_request ["tubefilter"] None) no_effects
       = (Returned {| Broker.status := 200; Broker.body := Broker.DigestJson digest |}, fx')
    /\ map Broker.Citation.url (Broker.Digest.citations digest)
       = [JString "https://example.com/tiktok"]
    /\ map Broker.Citation.url
         (map Broker.cite (firstn 200 (Map_values (Broker.byUrl all))))
       = [JString "https://example.com/cable"; JString "https://example.com/tiktok"]
    /\ Broker.Digest.citations digest
       <> map Broker.cite (firstn 200 (Map_values (Broker.byUrl all))).
Proof.
  eexists _, _, _, _. split; [lazy; reflexivity|]. split; [lazy; reflexivity|].
  split; [vm_compute; reflexivity|]. split; [vm_compute; reflexivity|].
  intros H. apply (f_equal (@length _)) in H. vm_compute in H. discriminate.
Qed.

(** Two feeds deliver the same article in one digest request: it is cited
    once, as delivered by the feed fetched last. *)
Example digest_keeps_last_feed :
  exists digest fx',
    Broker.newsletter_digest (rt := ascii_runtime)
      (Samples.world (JString "newsapi-key") (JString "broker-key") [Samples.tiktok_story])
      (Samples.digest_request ["tubefilter"; "ppc_land"] None) no_effects
    = (Returned {| Broker.status := 200; Broker.body := Broker.DigestJson digest |}, fx')
    /\ Broker.Digest.citations digest
       = [ {| Broker.Citation.url := JString "https://example.com/tiktok";
              Broker.Citation.title := "TikTok Shorts launch announced";
              Broker.Citation.source := "tubefilter" |} ]
    /\ length (requests fx') = 2%nat.
Proof.
  eexists _, _. split; [lazy; reflexivity|]. split; reflexivity.
Qed.

(** X1. The sections on a count.  When the route answers 200 and
    [max_items_per_section] is not negative, the four sections come in their
    fixed order, and each holds the first [max_items_per_section] candidates
    of the ranking by its score, rendered; the ranking is the stable sort of
    the candidates by descending score; so no section is longer than
    [max_items_per_section]. *)
Theorem digest_sections_top_ranked (rt : StringRuntime) w body fx resp fx' :
  Broker.newsletter_digest w body fx = (Returned resp, fx') ->
  Broker.status resp = 200 ->
  0 <= requested_max body ->
  exists digest iso all fx1 fx2,
    Broker.body resp = Broker.DigestJson digest
    /\ Broker.gather w (requested_exclude body) iso
         (Broker.selected (requested_sources body)) [] fx1
       = (Returned all, fx2)
    /\ Broker.Digest.sections digest
       = map (fun s =>
                {| Broker.DigestSection.name := s;
                   Broker.DigestSection.items :=
                     map Broker.render
                       (firstn (Z.to_nat (requested_max body))
                          (Broker.ranked (Broker.candidates (requested_filter body) all) s)) |})
             Broker.section_names
    /\ (forall s,
          let items := Broker.candidates (requested_filter body) all in
          Permutation (Broker.ranked items s) items
          /\ StronglySorted (fun a b => Broker.score b s <= Broker.score a s)
               (Broker.ranked items s)
          /\ forall v, filter (fun it => Broker.score it s =? v) (Broker.ranked items s)
                       = filter (fun it => Broker.score it s =? v) items)
    /\ Forall (fun s => Z.of_nat (length (Broker.DigestSection.items s)) <= requested_max body)
         (Broker.Digest.sections digest).
Proof.
  intros H Hstatus Hmax. apply newsletter_digest_status in H.
  destruct H as [[E _]|[E|(iso & all & generated_at & fx2 & _ & Hg & _ & ->)]];
    [rewrite E in Hstatus; discriminate | rewrite E in Hstatus; discriminate |].
  exists (composed body all generated_at), iso, all,
    {| clock_reads := S (clock_reads fx); requests := requests fx |}, fx2.
  split; [reflexivity|]. split; [exact Hg|].
  cbn [composed Broker.Digest.sections]. split; [|split].
  - apply map_ext. intros s. f_equal.
    apply (section_items_top_ranked _ _ _ Hmax).
  - intros s. apply ranked_stable_descending.
  - apply Forall_map, Forall_forall. intros s _. cbn [Broker.DigestSection.items].
    apply (section_items_top_ranked _ _ _ Hmax).
Qed.

(** A request for two items per section over a feed that delivers three
    digital-first stories. *)
Lemma digest_sections_top_ranked_witness :
  exists resp fx',
    Broker.newsletter_digest (rt := ascii_runtime)
      (Samples.world (JString "newsapi-key") (JString "broker-key")
         [Samples.tiktok_story; Samples.youtube_story; Samples.newsletter_story])
      (Samples.digest_request ["tubefilter"] (Some 2)) no_effects
    = (Returned resp, fx')
    /\ Broker.status resp = 200
    /\ 0 <= requested_max (Samples.digest_request ["tubefilter"] (Some 2))
    /\ exists digest,
         Broker.body resp = Broker.DigestJson digest
         /\ Forall (fun s => Z.of_nat (length (Broker.DigestSection.items s)) <= 2)
              (Broker.Digest.sections digest).
Proof.
  destruct (Broker.newsletter_digest (rt := ascii_runtime)
              (Samples.world (JString "newsapi-key") (JString "broker-key")
                 [Samples.tiktok_story; Samples.youtube_story; Samples.newsletter_story])
              (Samples.digest_request ["tubefilter"] (Some 2)) no_effects)
    as [[resp|e] fx'] eqn:H.
  - assert (Hstatus : Broker.status resp = 200)
      by (vm_compute in H; inversion H; reflexivity).
    assert (Hmax : 0 <= requested_max (Samples.digest_request ["tubefilter"] (Some 2)))
      by (vm_compute; discriminate).
    exists resp, fx'. split; [reflexivity|]. split; [exact Hstatus|]. split; [exact Hmax|].
    destruct (digest_sections_top_ranked ascii_runtime _ _ _ _ _ H Hstatus Hmax)
      as (digest & iso & all & fx1 & fx2 & Hbody & _ & _ & _ & Hlen).
    exists digest. split; [exact Hbody | exact Hlen].
  - vm_compute in H. discriminate.
Defined.

(** One item may stand in several sections: the story about TikTok is the
    first entry of the launches and of the formats. *)
Example item_in_several_sections :
  let items :=
    [ Samples.plain_item "TikTok Shorts launch announced" "A creator series debuts";
      Samples.plain_item "YouTube creator fund update" "New monetization policy" ] in
  map Broker.Entry.headline
    (Broker.section_items (rt := ascii_runtime) items 1 "New digital-first launches")
  = ["TikTok Shorts launch announced"]
  /\ map Broker.Entry.headline
       (Broker.section_items (rt := ascii_runtime) items 1 "Formats & creator series to watch")
     = ["TikTok Shorts launch announced"]
  /\ map Broker.Entry.headline
       (Broker.section_items (rt := ascii_runtime) items 1 "Platform moves & monetization")
     = ["YouTube creator fund update"].
Proof. repeat split; vm_compute; reflexivity. Qed.

(** C5 at a negative size.  A request for [max_items_per_section = -1] over
    a feed that delivers three digital-first stories is answered with two
    entries in each of the four sections: [slice(0, -1)] drops the last ranked
    item and keeps the others, so the sections are longer than the size asked
    for. *)
Theorem negative_max_items_keeps_entries :
  exists digest fx',
    Broker.newsletter_digest (rt := ascii_runtime)
      (Samples.world (JString "newsapi-key") (JString "broker-key")
         [Samples.tiktok_story; Samples.youtube_story; Samples.newsletter_story])
      (Samples.digest_request ["tubefilter"] (Some (-1))) no_effects
    = (Returned {| Broker.status := 200; Broker.body := Broker.DigestJson digest |}, fx')
    /\ map (fun s => length (Broker.DigestSection.items s)) (Broker.Digest.sections digest)
       = [2; 2; 2; 2]%nat
    /\ Forall (fun s => -1 < Z.of_nat (length (Broker.DigestSection.items s)))
         (Broker.Digest.sections digest).
Proof.
  eexists _, _. split; [lazy; reflexivity|].
  split; [vm_compute; reflexivity|].
  repeat constructor.
Qed.

(** C10 (amended). A digest request whose sources name at least one feed of
    the catalog is answered exactly as the same request naming only those
    feeds: the other feed_ids contribute nothing and cause no error; it is
    never refused with 422; and it succeeds with the digest, after one search
    per matching feed, whenever the environment is healthy (credential
    configured, clock readings renderable, provider accepting the requests)
    and the start of the window can be rendered; a failure met on the way is
    answered with 500 instead. *)
Theorem unknown_sources_are_ignored (rt : StringRuntime) w body sources fx :
  Broker.DigestBody.sources body = Some sources ->
  (exists s, In s sources /\ in_catalog s = true) ->
  Broker.newsletter_digest w body fx
  = Broker.newsletter_digest w (with_sources body (filter in_catalog sources)) fx
  /\ (forall resp fx',
       Broker.newsletter_digest w body fx = (Returned resp, fx') ->
       Broker.status resp = 200 \/ Broker.status resp = 500)
  /\ (forall iso,
       healthy w ->
       toISOString w (window_start w body fx) = Some iso ->
       exists digest fx',
         Broker.newsletter_digest w body fx
         = (Returned {| Broker.status := 200; Broker.body := Broker.DigestJson digest |}, fx')
         /\ requests fx'
            = requests fx
              ++ map (digest_search w iso) (Broker.selected (filter in_catalog sources))).
Proof.
  intros Hsrc (s & Hin & Hknown).
  assert (Hsel : Broker.selected sources <> []) by (eapply selected_nonempty; eassumption).
  assert (Hreq : requested_sources body = sources)
    by (unfold requested_sources; rewrite Hsrc; reflexivity).
  split; [|split].
  - unfold Broker.newsletter_digest.
    cbn [with_sources Broker.DigestBody.sources Broker.DigestBody.window_hours
         Broker.DigestBody.max_items_per_section Broker.DigestBody.digital_first_only
         Broker.DigestBody.exclude].
    rewrite Hsrc, selected_known.
    destruct sources as [|s0 sources]; [destruct Hin|].
    destruct (filter in_catalog (s0 :: sources)) as [|k ks] eqn:Hk.
    + exfalso.
      assert (H : In s (filter in_catalog (s0 :: sources))) by (apply filter_In; auto).
      rewrite Hk in H. destruct H.
    + reflexivity.
  - intros resp fx' H. apply newsletter_digest_status in H.
    rewrite Hreq in H.
    destruct H as [[_ [E|E]]|[E|(? & ? & ? & ? & _ & _ & _ & ->)]].
    + rewrite E in Hin. destruct Hin.
    + contradiction.
    + right. exact E.
    + left. reflexivity.
  - intros iso Hw Hiso. rewrite selected_known.
    unfold Broker.newsletter_digest, try_catch.
    fold (requested_sources body) (requested_window body) (requested_max body)
         (requested_filter body) (requested_exclude body).
    rewrite Hreq.
    destruct sources as [|s0 sources]; [destruct Hin|]. cbn [length Nat.eqb].
    unfold bind at 1. unfold Date_now at 1. cbn [clock_reads requests].
    unfold bind at 1. unfold Date_toISOString at 1.
    fold (window_start w body fx). rewrite Hiso.
    unfold ret at 1.
    destruct (Broker.selected (s0 :: sources)) as [|f sel] eqn:Esel; [contradiction|].
    cbn [length Nat.eqb]. unfold bind at 1.
    match goal with
    | |- context [Broker.gather w ?ex iso ?fs ?a ?fx0] =>
        destruct (gather_healthy w ex iso fs a fx0 Hw) as (all & fx2 & -> & Hreq2)
    end.
    unfold bind at 1.
    destruct (isoNow_healthy w fx2 Hw) as (generated_at & fx3 & -> & Hreq3).
    unfold ret. eexists _, fx3. split; [reflexivity|].
    rewrite Hreq3, Hreq2. reflexivity.
Qed.

(** A request naming one feed of the catalog and one unknown feed_id, in a
    healthy environment: it is answered 200 after the single search of the
    matching feed. *)
Lemma unknown_sources_are_ignored_witness :
  Broker.DigestBody.sources (Samples.digest_request ["not_a_feed"; "tubefilter"] None)
  = Some ["not_a_feed"; "tubefilter"]
  /\ (exists s, In s ["not_a_feed"; "tubefilter"] /\ in_catalog s = true)
  /\ healthy (Samples.world (JString "newsapi-key") (JString "broker-key")
                [Samples.tiktok_story])
  /\ exists digest fx',
       Broker.newsletter_digest (rt := ascii_runtime)
         (Samples.world (JString "newsapi-key") (JString "broker-key")
            [Samples.tiktok_story])
         (Samples.digest_request ["not_a_feed"; "tubefilter"] None) no_effects
       = (Returned {| Broker.status := 200; Broker.body := Broker.DigestJson digest |}, fx')
       /\ requests fx'
          = [digest_search
               (Samples.world (JString "newsapi-key") (JString "broker-key")
                  [Samples.tiktok_story])
               (String_of_number (1700000000000 - 168 * 3600 * 1000)) Broker.tubefilter].
Proof.
  assert (Hknown : exists s, In s ["not_a_feed"; "tubefilter"] /\ in_catalog s = true).
  { exists "tubefilter". split; [right; left; reflexivity | vm_compute; reflexivity]. }
  split; [reflexivity|]. split; [exact Hknown|].
  split; [apply sample_world_healthy|].
  destruct (unknown_sources_are_ignored ascii_runtime
              (Samples.world (JString "newsapi-key") (JString "broker-key")
                 [Samples.tiktok_story])
              (Samples.digest_request ["not_a_feed"; "tubefilter"] None)
              ["not_a_feed"; "tubefilter"] no_effects eq_refl Hknown)
    as (_ & _ & Hok).
  destruct (Hok (String_of_number (1700000000000 - 168 * 3600 * 1000))
              (sample_world_healthy _ _) eq_refl)
    as (digest & fx' & Hrun & Htrace).
  exists digest, fx'. split; [exact Hrun|].
  rewrite Htrace. vm_compute. reflexivity.
Defined.

(** Without the provider credential a request that names a feed of the
    catalog is answered 500: C10 as stated (the request succeeds) fails. *)
Lemma digest_fails_without_credential :
  in_catalog "tubefilter" = true
  /\ exists fx',
       Broker.newsletter_digest (rt := ascii_runtime)
         (Samples.world JUndefined (JString "broker-key") [Samples.tiktok_story])
         (Samples.digest_request ["tubefilter"] None) no_effects
       = (Returned {| Broker.status := 500;
                      Broker.body :=
                        Broker.Message "Server misconfigured: NEWSAPI_KEY missing" |}, fx').
Proof.
  split; [vm_compute; reflexivity|]. eexists. vm_compute. reflexivity.
Qed.

(** ** Authentication *)

(** X2. The full broker rejects exactly when the key is absent or empty, or
    differs from the secret (an unset or empty secret equals no key that is
    present). *)
Theorem broker_auth_rejects (w : World) (key : jsval) :
  (Broker.auth w key = Unauthorized 401 "Missing/invalid API key"
   <-> truthy key = false \/ key <> BROKER_KEY w)
  /\ (Broker.auth w key = Next <-> truthy key = true /\ key = BROKER_KEY w).
Proof.
  unfold Broker.auth.
  destruct (strict_eq_spec key (BROKER_KEY w)) as [<-|Hne].
  - destruct (truthy key); simpl; split; split;
      try discriminate; intuition (try discriminate; try congruence).
  - destruct (truthy (BROKER_KEY w)), (truthy key); simpl; split; split;
      try discriminate; intuition (try discriminate; try congruence).
Qed.

(** The smaller service compares the header with the secret and nothing
    else: once a secret is configured it complies; without one it lets the
    request without key through. *)
Lemma server_auth_passes (w : World) (key : jsval) :
  Server.auth w key = Next <-> key = BROKER_KEY w.
Proof.
  unfold Server.auth.
  destruct (strict_eq_spec key (BROKER_KEY w)); simpl; split;
    try discriminate; intuition congruence.
Qed.

(** C8 in the smaller service.  With no BROKER_KEY in the environment, a
    request that carries no X-API-Key header passes its check, while the full
    broker rejects the same request with 401. *)
Theorem server_auth_passes_without_keys :
  Server.auth (Samples.world (JString "newsapi-key") JUndefined []) JUndefined = Next
  /\ Broker.auth (Samples.world (JString "newsapi-key") JUndefined []) JUndefined
     = Unauthorized 401 "Missing/invalid API key".
Proof. split; reflexivity. Qed.

(** ** The search client *)

(** X3. The full broker fails fast: without credential the call throws and
    leaves no effect, so no request was sent. *)
Theorem newsapiEverything_fails_fast (w : World) (args : Broker.Search.t) (fx : Effects) :
  truthy (NEWSAPI_KEY w) = false ->
  Broker.newsapiEverything w args fx
  = (Thrown (Error "Server misconfigured: NEWSAPI_KEY missing"), fx).
Proof.
  intros Hkey. unfold Broker.newsapiEverything. rewrite Hkey. reflexivity.
Qed.

Lemma newsapiEverything_fails_fast_witness :
  truthy (NEWSAPI_KEY (Samples.world (JString "") (JString "broker-key") [])) = false
  /\ Broker.newsapiEverything (Samples.world (JString "") (JString "broker-key") [])
       {| Broker.Search.q := Broker.Feed.q Broker.ppc_land;
          Broker.Search.domains := Broker.Feed.domains Broker.ppc_land;
          Broker.Search.fromISO := JUndefined;
          Broker.Search.pageSize := 50 |}
       no_effects
     = (Thrown (Error "Server misconfigured: NEWSAPI_KEY missing"), no_effects).
Proof.
  split; [reflexivity|].
  apply (newsapiEverything_fails_fast (Samples.world (JString "") (JString "broker-key") [])).
  reflexivity.
Defined.

(** The smaller service sends its request whatever the credential is. *)
Lemma newsapiFetch_always_sends (w : World) (feed : Server.Feed.t) (limit : option Z)
    (fx : Effects) :
  exists rq,
    requests (snd (Server.newsapiFetch w feed limit fx)) = requests fx ++ [rq]
    /\ rq_api_key rq = NEWSAPI_KEY w.
Proof.
  unfold Server.newsapiFetch, bind, fetch. eexists. split.
  - destruct (provider w _ _) as [e|r]; cbn [snd requests]; [reflexivity|].
    destruct (resp_ok r); cbn [negb].
    + destruct (resp_json r); reflexivity.
    + destruct (resp_text r); reflexivity.
  - reflexivity.
Qed.

(** C9 in the smaller service.  With no NEWSAPI_KEY in the environment its
    search call sends the request, with an undefined X-Api-Key header, and
    fails only on the provider's refusal; the full broker's call throws the
    configuration error and sends nothing. *)
Theorem server_fetches_without_credential :
  Server.newsapiFetch (Samples.world JUndefined (JString "broker-key") [])
    Server.tubefilter None no_effects
  = (Thrown (Error "apiKeyMissing"),
     {| clock_reads := 0;
        requests :=
          [ {| rq_q := Server.Feed.q Server.tubefilter;
               rq_sortBy := "publishedAt";
               rq_pageSize := "15";
               rq_domains := Some "tubefilter.com";
               rq_from := None;
               rq_api_key := JUndefined |} ] |})
  /\ Broker.newsapiEverything (Samples.world JUndefined (JString "broker-key") [])
       {| Broker.Search.q := Broker.Feed.q Broker.tubefilter;
          Broker.Search.domains := Broker.Feed.domains Broker.tubefilter;
          Broker.Search.fromISO := JUndefined;
          Broker.Search.pageSize := 15 |}
       no_effects
     = (Thrown (Error "Server misconfigured: NEWSAPI_KEY missing"), no_effects).
Proof. split; vm_compute; reflexivity. Qed.

(* ------------------------------------------------------------------ *)
(** ** The effects of the steps of a route *)

Section StepFacts.
Context {rt : StringRuntime}.
Import Broker.

Lemma isoNow_run w fx :
  isoNow w fx
  = match toISOString w (clock w (clock_reads fx)) with
    | Some iso => (Returned iso, clock_read fx)
    | None => (Thrown {| exn_name := "RangeError"; exn_message := "Invalid time value" |},
               clock_read fx)
    end.
Proof.
  unfold isoNow, bind, Date_now, Date_toISOString, clock_read.
  destruct (toISOString w _); reflexivity.
Qed.

Lemma newsapiEverything_run w args fx :
  newsapiEverything w args fx
  = if truthy (NEWSAPI_KEY w)
    then
      let fx' := {| clock_reads := clock_reads fx;
                    requests := requests fx ++ [search_request w args] |} in
      match provider w (length (requests fx)) (search_request w args) with
      | Rejected e => (Thrown e, fx')
      | Responded r =>
          if resp_ok r
          then match resp_json r with
               | inl e => (Thrown e, fx')
               | inr data => (Returned data, fx')
               end
          else (Thrown (provider_error r), fx')
      end
    else (Thrown (Error "Server misconfigured: NEWSAPI_KEY missing"), fx).
Proof.
  unfold newsapiEverything.
  destruct (truthy (NEWSAPI_KEY w)); cbn [negb]; [|reflexivity].
  unfold bind, fetch. fold (search_request w args). cbv zeta.
  destruct (provider w _ _) as [e|r]; [reflexivity|].
  destruct (resp_ok r); cbn [negb]; [|reflexivity].
  destruct (resp_json r); reflexivity.
Qed.

Lemma mapArticle_run w feed exclude a fx :
  mapArticle w feed exclude a fx
  = if truthy (Article.publishedAt a)
    then (Returned (normalize feed exclude a (interpolate (Article.publishedAt a))), fx)
    else match toISOString w (clock w (clock_reads fx)) with
         | Some iso => (Returned (normalize feed exclude a iso), clock_read fx)
         | None => (Thrown {| exn_name := "RangeError"; exn_message := "Invalid time value" |},
                    clock_read fx)
         end.
Proof.
  unfold mapArticle, bind.
  destruct (truthy (Article.publishedAt a)); [reflexivity|].
  rewrite isoNow_run. destruct (toISOString w _); reflexivity.
Qed.

Lemma mapArticle_effects w feed exclude a fx r fx' :
  mapArticle w feed exclude a fx = (r, fx') ->
  requests fx' = requests fx.
Proof.
  rewrite mapArticle_run.
  destruct (truthy (Article.publishedAt a)); [|destruct (toISOString w _)];
    intros H; inversion H; reflexivity.
Qed.

Lemma mapM_mapArticle_effects w feed exclude articles fx r fx' :
  mapM (mapArticle w feed exclude) articles fx = (r, fx') ->
  requests fx' = requests fx.
Proof.
  revert fx r fx'. induction articles as [|a articles IH]; intros fx r fx'; simpl.
  - unfold ret. intros H. inversion H. reflexivity.
  - unfold bind at 1.
    destruct (mapArticle w feed exclude a fx) as [[it|e] fx1] eqn:Hit;
      apply mapArticle_effects in Hit.
    + unfold bind at 1.
      destruct (mapM (mapArticle w feed exclude) articles fx1) as [[its|e] fx2] eqn:Hits;
        apply IH in Hits; unfold ret; intros H; inversion H; subst; congruence.
    + intros H. inversion H; subst. assumption.
Qed.

Lemma mapM_normalized w feed exclude articles fx items fx' :
  mapM (mapArticle w feed exclude) articles fx = (Returned items, fx') ->
  Forall2 (normalized w feed exclude) articles items.
Proof.
  intros H. apply mapM_returned in H.
  induction H as [|a it articles items (fx1 & fx2 & Hit) _ IH]; constructor; [|assumption].
  rewrite mapArticle_run in Hit. unfold normalized.
  destruct (truthy (Article.publishedAt a)).
  - inversion Hit; subst. eauto.
  - destruct (toISOString w _) as [iso|] eqn:Hiso; inversion Hit; subst.
    exists iso. eauto.
Qed.

(** When every reading of the clock can be rendered, the mapping returns. *)
Lemma mapM_mapArticle_returns w feed exclude articles fx :
  (forall n, exists iso, toISOString w (clock w n) = Some iso) ->
  exists items fx', mapM (mapArticle w feed exclude) articles fx = (Returned items, fx')
                    /\ requests fx' = requests fx.
Proof.
  intros Hiso. revert fx. induction articles as [|a articles IH]; intros fx; simpl.
  - unfold ret. eauto.
  - unfold bind at 1. rewrite mapArticle_run.
    destruct (truthy (Article.publishedAt a)).
    + unfold bind at 1. destruct (IH fx) as (items & fx2 & -> & Hreq).
      unfold ret. eauto.
    + destruct (Hiso (clock_reads fx)) as [iso ->].
      unfold bind at 1. destruct (IH (clock_read fx)) as (items & fx2 & -> & Hreq).
      unfold ret. eauto.
Qed.

End StepFacts.

(** ** The catalog *)

Lemma feed_of_known (feed_id : string) (feed : Broker.Feed.t) :
  feed_of feed_id = Some feed ->
  In feed Broker.FEEDS /\ Broker.Feed.feed_id feed = feed_id.
Proof.
  unfold feed_of. intros H. apply find_some in H. destruct H as [Hin Heq].
  split; [assumption|]. apply String.eqb_eq. assumption.
Qed.

Lemma feed_of_in_catalog (feed_id : string) :
  in_catalog feed_id = true <-> exists feed, feed_of feed_id = Some feed.
Proof.
  unfold in_catalog, feed_of. rewrite array_includes_In, in_map_iff. split.
  - intros (f & Hid & Hin).
    destruct (find _ Broker.FEEDS) as [feed|] eqn:Hfind; [eauto|].
    apply (find_none _ _ Hfind) in Hin. rewrite Hid, String.eqb_refl in Hin. discriminate.
  - intros (feed & H). apply find_some in H. destruct H as [Hin Heq].
    exists feed. split; [apply String.eqb_eq|]; assumption.
Qed.

Lemma feed_of_unknown (feed_id : string) :
  in_catalog feed_id = false <-> feed_of feed_id = None.
Proof.
  pose proof (feed_of_in_catalog feed_id) as H.
  destruct (in_catalog feed_id), (feed_of feed_id) as [feed|].
  - split; discriminate.
  - destruct (proj1 H eq_refl) as (feed & Hf). discriminate.
  - assert (false = true) by (apply H; eauto). discriminate.
  - split; reflexivity.
Qed.

(** ** The items route of the full broker *)

Section ItemsRoute.
Context {rt : StringRuntime}.
Import Broker.

(** The route on a feed of the catalog: the window, then the search, the
    mapping and the filter under the handler of the errors. *)
Lemma feed_items_known w feed_id query fx feed :
  feed_of feed_id = Some feed ->
  feed_items w feed_id query fx
  = match items_from w query fx with
    | None =>
        (Returned (server_error {| exn_name := "RangeError";
                                   exn_message := "Invalid time value" |}),
         clock_read fx)
    | Some fromISO =>
        try_catch
          (data <- newsapiEverything w (items_search feed query fromISO) ;;
           items <- mapM (mapArticle w feed (items_exclude query)) (articles_of data) ;;
           ret {| status := 200;
                  body := ItemList (if items_filter query
                                    then digital_first_items items else items) |})
          server_error (items_started w query fx)
    end.
Proof.
  unfold feed_of. intros Hfind. unfold feed_items. rewrite Hfind.
  unfold items_from, items_started, items_window_start.
  unfold try_catch, bind at 1.
  destruct (ItemsQuery.since_hours query) as [h|]; [destruct (h =? 0)|]; try reflexivity.
  unfold bind at 1. unfold Date_now at 1. cbn [clock_reads requests].
  unfold bind at 1. unfold Date_toISOString at 1.
  destruct (toISOString w _) as [iso|]; reflexivity.
Qed.

Lemma feed_items_unknown w feed_id query fx :
  feed_of feed_id = None ->
  feed_items w feed_id query fx
  = (Returned {| status := 404; body := Message "Unknown feed_id" |}, fx).
Proof.
  unfold feed_of. intros Hfind. unfold feed_items. rewrite Hfind. reflexivity.
Qed.

Lemma items_started_requests w query fx :
  requests (items_started w query fx) = requests fx.
Proof. unfold items_started. destruct (items_window_start w query fx); reflexivity. Qed.

End ItemsRoute.

Section ItemsOutcome.
Context {rt : StringRuntime}.
Import Broker.

Lemma mapM_mapArticle_thrown w feed exclude articles fx e fx' :
  mapM (mapArticle w feed exclude) articles fx = (Thrown e, fx') ->
  e = {| exn_name := "RangeError"; exn_message := "Invalid time value" |}.
Proof.
  revert fx. induction articles as [|a articles IH]; intros fx; simpl.
  - unfold ret. discriminate.
  - unfold bind at 1. rewrite mapArticle_run.
    destruct (truthy (Article.publishedAt a)); [|destruct (toISOString w _)].
    + unfold bind at 1.
      destruct (mapM _ articles fx) as [[its|e'] fx2] eqn:Hits.
      * unfold ret. discriminate.
      * intros H. inversion H; subst. eapply IH. eassumption.
    + unfold bind at 1.
      destruct (mapM _ articles (clock_read fx)) as [[its|e'] fx2] eqn:Hits.
      * unfold ret. discriminate.
      * intros H. inversion H; subst. eapply IH. eassumption.
    + intros H. inversion H. reflexivity.
Qed.

(** Every way the route answers on a feed of the catalog whose window
    starts at a time that can be rendered. *)
Lemma feed_items_outcome w feed_id query fx feed fromISO :
  feed_of feed_id = Some feed ->
  items_from w query fx = Some fromISO ->
  exists resp fx',
    feed_items w feed_id query fx = (Returned resp, fx')
    /\ if truthy (NEWSAPI_KEY w)
       then
         requests fx' = requests fx ++ [search_request w (items_search feed query fromISO)]
         /\ match provider w (length (requests fx))
                    (search_request w (items_search feed query fromISO)) with
            | Rejected e => resp = server_error e
            | Responded r =>
                if resp_ok r
                then match resp_json r with
                     | inl e => resp = server_error e
                     | inr data =>
                         resp = server_error {| exn_name := "RangeError";
                                                exn_message := "Invalid time value" |}
                         \/ exists mapped,
                              Forall2 (normalized w feed (items_exclude query))
                                      (articles_of data) mapped
                              /\ resp = {| status := 200;
                                           body := ItemList
                                             (if items_filter query
                                              then digital_first_items mapped
                                              else mapped) |}
                     end
                else resp = server_error (provider_error r)
            end
       else
         resp = server_error (Error "Server misconfigured: NEWSAPI_KEY missing")
         /\ fx' = items_started w query fx.
Proof.
  intros Hfeed Hfrom. rewrite (feed_items_known _ _ _ _ _ Hfeed), Hfrom.
  unfold try_catch, bind at 1. rewrite newsapiEverything_run.
  rewrite items_started_requests.
  destruct (truthy (NEWSAPI_KEY w)); [|eauto]. cbv zeta.
  destruct (provider w _ _) as [e|r]; [eauto|].
  destruct (resp_ok r); [|eauto].
  destruct (resp_json r) as [e|data]; [eauto|].
  unfold bind at 1.
  match goal with
  | |- context [mapM ?f ?l ?fx0] => destruct (mapM f l fx0) as [[mapped|e] fx2] eqn:Hmap
  end.
  - pose proof (mapM_mapArticle_effects _ _ _ _ _ _ _ Hmap) as Hreq. cbn [requests] in Hreq.
    apply mapM_normalized in Hmap.
    unfold ret. eexists _, _. split; [reflexivity|]. split; [exact Hreq|]. right. eauto.
  - pose proof (mapM_mapArticle_effects _ _ _ _ _ _ _ Hmap) as Hreq. cbn [requests] in Hreq.
    apply mapM_mapArticle_thrown in Hmap. subst e.
    eexists _, _. split; [reflexivity|]. split; [exact Hreq|]. left. reflexivity.
Qed.

End ItemsOutcome.

(** The status of the answer, by the catalog. *)
Lemma feed_items_status (rt : StringRuntime) w feed_id query fx :
  exists resp fx',
    Broker.feed_items w feed_id query fx = (Returned resp, fx')
    /\ match feed_of feed_id with
       | None =>
           resp = {| Broker.status := 404; Broker.body := Broker.Message "Unknown feed_id" |}
           /\ fx' = fx
       | Some _ => Broker.status resp = 200 \/ Broker.status resp = 500
       end.
Proof.
  destruct (feed_of feed_id) as [feed|] eqn:Hfeed.
  - destruct (items_from w query fx) as [fromISO|] eqn:Hfrom.
    + destruct (feed_items_outcome w feed_id query fx feed fromISO Hfeed Hfrom)
        as (resp & fx' & Hrun & Hout).
      exists resp, fx'. split; [exact Hrun|].
      destruct (truthy (NEWSAPI_KEY w)).
      * destruct Hout as [_ Hout].
        destruct (provider w _ _) as [e|r]; [subst; auto|].
        destruct (resp_ok r); [|subst; auto].
        destruct (resp_json r) as [e|data]; [subst; auto|].
        destruct Hout as [->|(mapped & _ & ->)]; auto.
      * destruct Hout as [-> _]. auto.
    + rewrite (feed_items_known _ _ _ _ _ Hfeed), Hfrom.
      eexists _, _. split; [reflexivity | auto].
  - rewrite (feed_items_unknown _ _ _ _ Hfeed).
    eexists _, _. split; [reflexivity | auto].
Qed.

(** X4. [GET /v1/feeds/:feed_id/items] always answers.  For a feed_id that
    is not in the catalog the answer is 404 with the message "Unknown
    feed_id", and the handler has done nothing: it has not read the clock and
    has sent no request.  For a feed_id of the catalog the answer is 200 or
    500, never 404. *)
Theorem items_route_unknown_feed (rt : StringRuntime) w feed_id query fx :
  exists resp fx',
    Broker.feed_items w feed_id query fx = (Returned resp, fx')
    /\ (in_catalog feed_id = false ->
        resp = {| Broker.status := 404; Broker.body := Broker.Message "Unknown feed_id" |}
        /\ fx' = fx)
    /\ (in_catalog feed_id = true -> Broker.status resp = 200 \/ Broker.status resp = 500).
Proof.
  destruct (feed_items_status rt w feed_id query fx) as (resp & fx' & Hrun & Hstatus).
  exists resp, fx'. split; [exact Hrun|].
  destruct (feed_of feed_id) as [feed|] eqn:Hfeed.
  - assert (Hcat : in_catalog feed_id = true) by (apply feed_of_in_catalog; eauto).
    rewrite Hcat. split; [discriminate | auto].
  - assert (Hcat : in_catalog feed_id = false) by (apply feed_of_unknown; assumption).
    rewrite Hcat. split; [auto | discriminate].
Qed.


(** The request of a query that sets every parameter: the page size is
    capped at 50 and the window starts 24 hours before the reading of the
    clock. *)
Example items_search_of_full_query :
  exists resp fx',
    Broker.feed_items (rt := ascii_runtime)
      (Samples.world (JString "newsapi-key") (JString "broker-key") [Samples.tiktok_story])
      "tubefilter" Cases.full_query no_effects
    = (Returned resp, fx')
    /\ map (fun rq => (rq_pageSize rq, rq_domains rq, rq_from rq)) (requests fx')
       = [("50", Some "tubefilter.com", Some "1699913600000")].
Proof. eexists _, _. split; [lazy; reflexivity | vm_compute; reflexivity]. Qed.

(** The three kinds of answers of the route. *)
Lemma feed_items_cases (rt : StringRuntime) w feed_id query fx resp fx' :
  Broker.feed_items w feed_id query fx = (Returned resp, fx') ->
  resp = {| Broker.status := 404; Broker.body := Broker.Message "Unknown feed_id" |}
  \/ (exists e, resp = Broker.server_error e)
  \/ exists feed fromISO r data mapped,
       feed_of feed_id = Some feed
       /\ items_from w query fx = Some fromISO
       /\ provider w (length (requests fx)) (search_request w (items_search feed query fromISO))
          = Responded r
       /\ resp_ok r = true
       /\ resp_json r = inr data
       /\ Forall2 (normalized w feed (items_exclude query)) (Broker.articles_of data) mapped
       /\ resp = {| Broker.status := 200;
                    Broker.body :=
                      Broker.ItemList (if items_filter query
                                       then digital_first_items mapped else mapped) |}.
Proof.
  intros Hrun.
  destruct (feed_of feed_id) as [feed|] eqn:Hfeed.
  2:{ rewrite (feed_items_unknown _ _ _ _ Hfeed) in Hrun. inversion Hrun; subst.
      left. reflexivity. }
  destruct (items_from w query fx) as [fromISO|] eqn:Hfrom.
  2:{ rewrite (feed_items_known _ _ _ _ _ Hfeed), Hfrom in Hrun.
      inversion Hrun; subst. right. left. eexists. reflexivity. }
  destruct (feed_items_outcome w feed_id query fx feed fromISO Hfeed Hfrom)
    as (resp0 & fx0 & Hrun0 & Hout).
  rewrite Hrun in Hrun0. inversion Hrun0; subst resp0 fx0.
  destruct (truthy (NEWSAPI_KEY w)).
  2:{ destruct Hout as [-> _]. right. left. eexists. reflexivity. }
  destruct Hout as [_ Hout].
  destruct (provider w _ _) as [e|r] eqn:Hr; [subst; right; left; eexists; reflexivity|].
  destruct (resp_ok r) eqn:Hok; [|subst; right; left; eexists; reflexivity].
  destruct (resp_json r) as [e|data] eqn:Hjson; [subst; right; left; eexists; reflexivity|].
  destruct Hout as [->|(mapped & Hmapped & ->)]; [right; left; eexists; reflexivity|].
  right. right. exists feed, fromISO, r, data, mapped. auto 10.
Qed.

(** X6. An answer 200 of the items route holds the articles of the
    provider's reply to the single search, in the provider's order, each one
    normalized (title, url, source = feed_id, snippet, no labels, the
    classification under the requested exclude tags, published when the
    provider says or else at a reading of the clock), and then, unless
    digital_first_only is given and is not "true", only those that are
    digital-first. *)
Theorem items_route_answer (rt : StringRuntime) w feed_id query fx resp fx' :
  Broker.feed_items w feed_id query fx = (Returned resp, fx') ->
  Broker.status resp = 200 ->
  exists feed fromISO r data mapped,
    feed_of feed_id = Some feed
    /\ items_from w query fx = Some fromISO
    /\ provider w (length (requests fx)) (search_request w (items_search feed query fromISO))
       = Responded r
    /\ resp_ok r = true
    /\ resp_json r = inr data
    /\ Forall2 (normalized w feed (items_exclude query)) (Broker.articles_of data) mapped
    /\ Broker.body resp
       = Broker.ItemList (if items_filter query then digital_first_items mapped else mapped).
Proof.
  intros Hrun Hstatus. apply feed_items_cases in Hrun.
  destruct Hrun as [->|[(e & ->)|(feed & fromISO & r & data & mapped & H)]];
    [discriminate | discriminate |].
  exists feed, fromISO, r, data, mapped.
  destruct H as (H1 & H2 & H3 & H4 & H5 & H6 & ->). auto 10.
Qed.

Lemma items_route_answer_witness :
  exists resp fx',
    Broker.feed_items (rt := ascii_runtime)
      (Samples.world (JString "newsapi-key") (JString "broker-key")
         [Samples.cable_story; Samples.undated_story])
      "tubefilter" Cases.plain_query no_effects
    = (Returned resp, fx')
    /\ Broker.status resp = 200
    /\ exists mapped,
         Forall2 (normalized (rt := ascii_runtime)
                    (Samples.world (JString "newsapi-key") (JString "broker-key")
                       [Samples.cable_story; Samples.undated_story])
                    Broker.tubefilter ["linear"; "streaming"])
                 [Samples.cable_story; Samples.undated_story] mapped
         /\ Broker.body resp = Broker.ItemList (digital_first_items mapped).
Proof.
  destruct (Broker.feed_items (rt := ascii_runtime)
              (Samples.world (JString "newsapi-key") (JString "broker-key")
                 [Samples.cable_story; Samples.undated_story])
              "tubefilter" Cases.plain_query no_effects)
    as [[resp|e] fx'] eqn:H.
  - assert (Hstatus : Broker.status resp = 200)
      by (vm_compute in H; inversion H; reflexivity).
    exists resp, fx'. split; [reflexivity|]. split; [exact Hstatus|].
    destruct (items_route_answer ascii_runtime _ _ _ _ _ _ H Hstatus)
      as (feed & fromISO & r & data & mapped & Hfeed & Hfrom & Hr & _ & Hjson & Hmapped & Hbody).
    vm_compute in Hfeed. inversion Hfeed; subst feed.
    vm_compute in Hfrom. inversion Hfrom; subst fromISO.
    vm_compute in Hr. inversion Hr; subst r.
    cbn [resp_json] in Hjson. inversion Hjson; subst data.
    exists mapped. split; [exact Hmapped | exact Hbody].
  - vm_compute in H. discriminate.
Defined.

(** X7. The items route answers 200 whenever the feed_id is in the catalog,
    the start of the window can be rendered, the credential is configured,
    the provider answers the search with an ok response that parses, and the
    readings of the clock can be rendered: an article without title,
    description, url or publication time never makes it fail.  Without the
    filter the answer holds one item per article of the reply. *)
Theorem items_route_succeeds (rt : StringRuntime) w feed_id query fx feed fromISO r data :
  feed_of feed_id = Some feed ->
  items_from w query fx = Some fromISO ->
  truthy (NEWSAPI_KEY w) = true ->
  provider w (length (requests fx)) (search_request w (items_search feed query fromISO))
  = Responded r ->
  resp_ok r = true ->
  resp_json r = inr data ->
  (forall n, exists iso, toISOString w (clock w n) = Some iso) ->
  exists items fx',
    Broker.feed_items w feed_id query fx
    = (Returned {| Broker.status := 200; Broker.body := Broker.ItemList items |}, fx')
    /\ (items_filter query = false ->
        map Broker.Item.url items = map Article.url (Broker.articles_of data)).
Proof.
  intros Hfeed Hfrom Hkey Hr Hok Hjson Hclock.
  rewrite (feed_items_known _ _ _ _ _ Hfeed), Hfrom.
  unfold try_catch, bind at 1. rewrite newsapiEverything_run, Hkey.
  rewrite items_started_requests. cbv zeta. rewrite Hr, Hok, Hjson.
  unfold bind at 1.
  match goal with
  | |- context [mapM ?f ?l ?fx0] =>
      destruct (mapM_mapArticle_returns w feed (items_exclude query) l fx0 Hclock)
        as (mapped & fx2 & Hmap & _)
  end.
  rewrite Hmap. unfold ret. eexists _, _. split; [reflexivity|].
  intros Hfilter. rewrite Hfilter.
  apply mapM_normalized in Hmap.
  induction Hmap as [|a it articles items (p & -> & _) _ IH]; [reflexivity|].
  cbn [map normalize Broker.Item.url]. f_equal. exact IH.
Qed.

Lemma items_route_succeeds_witness :
  exists items fx',
    Broker.feed_items (rt := ascii_runtime)
      (Samples.world (JString "newsapi-key") (JString "broker-key")
         [Samples.cable_story; Samples.undated_story])
      "tubefilter" Cases.full_query no_effects
    = (Returned {| Broker.status := 200; Broker.body := Broker.ItemList items |}, fx')
    /\ map Broker.Item.url items
       = [JString "https://example.com/cable"; JString "https://example.com/undated"].
Proof.
  destruct (items_route_succeeds ascii_runtime
              (Samples.world (JString "newsapi-key") (JString "broker-key")
                 [Samples.cable_story; Samples.undated_story])
              "tubefilter" Cases.full_query no_effects Broker.tubefilter
              (JString "1699913600000")
              {| resp_ok := true; resp_status := 200; resp_text := inr EmptyString;
                 resp_json := inr (Some [Samples.cable_story; Samples.undated_story]) |}
              (Some [Samples.cable_story; Samples.undated_story])
              eq_refl eq_refl eq_refl eq_refl eq_refl eq_refl
              (fun n => ex_intro _ _ eq_refl))
    as (items & fx' & Hrun & Hurls).
  exists items, fx'. split; [exact Hrun | exact (Hurls eq_refl)].
Defined.


(** X8. The failures of the provider, as the client of the items route sees
    them.  On a feed of the catalog, with the credential configured and a
    window that can be rendered, the route sends its one search and then:
    a fetch that rejects is answered 500 with the message of the rejection;
    a response that is not ok is answered 500 with "NewsAPI error <status>:
    <body>" (an empty body when the body cannot be read); an ok response whose
    JSON cannot be read is answered 500 with the message of that error. *)
Theorem items_route_provider_failures (rt : StringRuntime) w feed_id query fx feed fromISO :
  feed_of feed_id = Some feed ->
  items_from w query fx = Some fromISO ->
  truthy (NEWSAPI_KEY w) = true ->
  exists resp fx',
    Broker.feed_items w feed_id query fx = (Returned resp, fx')
    /\ requests fx' = requests fx ++ [search_request w (items_search feed query fromISO)]
    /\ (forall e,
          provider w (length (requests fx)) (search_request w (items_search feed query fromISO))
          = Rejected e ->
          resp = {| Broker.status := 500; Broker.body := Broker.Message (error_text e) |})
    /\ (forall r,
          provider w (length (requests fx)) (search_request w (items_search feed query fromISO))
          = Responded r ->
          resp_ok r = false ->
          resp = {| Broker.status := 500;
                    Broker.body :=
                      Broker.Message
                        ("NewsAPI error " ++ String_of_number (resp_status r) ++ ": "
                         ++ match resp_text r with inr s => s | inl _ => EmptyString end)%string |})
    /\ (forall r e,
          provider w (length (requests fx)) (search_request w (items_search feed query fromISO))
          = Responded r ->
          resp_ok r = true ->
          resp_json r = inl e ->
          resp = {| Broker.status := 500; Broker.body := Broker.Message (error_text e) |}).
Proof.
  intros Hfeed Hfrom Hkey.
  destruct (feed_items_outcome w feed_id query fx feed fromISO Hfeed Hfrom)
    as (resp & fx' & Hrun & Hout).
  rewrite Hkey in Hout. destruct Hout as [Hreq Hout].
  exists resp, fx'. split; [exact Hrun|]. split; [exact Hreq|].
  split; [|split].
  - intros e He. rewrite He in Hout. exact Hout.
  - intros r Hr Hok. rewrite Hr, Hok in Hout. exact Hout.
  - intros r e Hr Hok Hjson. rewrite Hr, Hok, Hjson in Hout. exact Hout.
Qed.

Lemma items_route_provider_failures_witness :
  exists fx',
    Broker.feed_items (rt := ascii_runtime) (Cases.world Cases.maintenance)
      "tubefilter" Cases.plain_query no_effects
    = (Returned {| Broker.status := 500;
                   Broker.body := Broker.Message "NewsAPI error 503: maintenance" |}, fx')
    /\ length (requests fx') = 1%nat.
Proof.
  destruct (items_route_provider_failures ascii_runtime (Cases.world Cases.maintenance)
              "tubefilter" Cases.plain_query no_effects Broker.tubefilter JUndefined
              eq_refl eq_refl eq_refl)
    as (resp & fx' & Hrun & Hreq & _ & Hrefused & _).
  exists fx'. rewrite Hrun, Hreq. split; [|reflexivity].
  rewrite (Hrefused _ eq_refl eq_refl). reflexivity.
Defined.

(** ** The digest route, step by step *)

Section DigestSteps.
Context {rt : StringRuntime}.
Import Broker.

Lemma digest_search_request w iso feed :
  search_request w {| Search.q := Feed.q feed;
                      Search.domains := Feed.domains feed;
                      Search.fromISO := JString iso;
                      Search.pageSize := 50 |}
  = digest_search w iso feed.
Proof. reflexivity. Qed.

(** The requests of the loop are the searches of the selected feeds, in
    their order, up to the feed at which it stopped. *)
Lemma gather_searches w exclude iso feeds all fx r fx' :
  gather w exclude iso feeds all fx = (r, fx') ->
  exists n,
    requests fx' = requests fx ++ firstn n (map (digest_search w iso) feeds)
    /\ match r with
       | Returned _ => n = length feeds
       | Thrown _ => (truthy (NEWSAPI_KEY w) = false -> n = 0%nat)
       end.
Proof.
  revert all fx. induction feeds as [|feed feeds IH]; intros all fx.
  - simpl. unfold ret. intros H. inversion H; subst. exists 0%nat.
    rewrite app_nil_r. auto.
  - cbn [gather]. unfold bind at 1. rewrite newsapiEverything_run, digest_search_request.
    destruct (truthy (NEWSAPI_KEY w)) eqn:Hkey.
    2:{ intros H. inversion H; subst. exists 0%nat. rewrite app_nil_r. auto. }
    cbv zeta.
    assert (Hstop : forall e fx0,
               requests fx0 = requests fx ++ [digest_search w iso feed] ->
               (Thrown e, fx0) = (r, fx') ->
               exists n,
                 requests fx' = requests fx
                                ++ firstn n (map (digest_search w iso) (feed :: feeds))
                 /\ match r with
                    | Returned _ => n = length (feed :: feeds)
                    | Thrown _ => true = false -> n = 0%nat
                    end).
    { intros e fx0 Hreq H. inversion H; subst. exists 1%nat. split; [exact Hreq|].
      discriminate. }
    destruct (provider w _ _) as [e|resp]; [apply Hstop; reflexivity|].
    destruct (resp_ok resp); [|apply Hstop; reflexivity].
    destruct (resp_json resp) as [e|data]; [apply Hstop; reflexivity|].
    unfold bind at 1.
    match goal with
    | |- context [mapM ?f ?l ?fx0] => destruct (mapM f l fx0) as [[mapped|e] fx2] eqn:Hmap
    end; pose proof (mapM_mapArticle_effects _ _ _ _ _ _ _ Hmap) as Hreq;
      cbn [requests] in Hreq.
    + intros H. apply IH in H. destruct H as (n & Hn & Hr).
      exists (S n). cbn [map firstn]. split.
      * rewrite Hn, Hreq, <- app_assoc. reflexivity.
      * destruct r; [cbn [length]; congruence|].
        intros Habs. discriminate.
    + apply Hstop. exact Hreq.
Qed.

(** Every item the loop adds is an article of a selected feed, normalized. *)
Lemma gather_normalized w exclude iso feeds all fx all' fx' :
  gather w exclude iso feeds all fx = (Returned all', fx') ->
  exists added,
    all' = all ++ added
    /\ Forall (fun it => exists feed a, In feed feeds /\ normalized w feed exclude a it) added.
Proof.
  revert all fx. induction feeds as [|feed feeds IH]; intros all fx H.
  - simpl in H. inversion H; subst. exists []. rewrite app_nil_r. auto.
  - cbn [gather] in H. skip_step H. split_step H Hmapped.
    apply IH in H. destruct H as (added & -> & Hadded).
    apply mapM_normalized in Hmapped.
    eexists. split; [rewrite <- app_assoc; reflexivity|].
    apply Forall_app. split.
    + clear - Hmapped.
      induction Hmapped as [|art it arts its Hit _ IHm]; constructor; [|exact IHm].
      exists feed, art. split; [left; reflexivity | exact Hit].
    + eapply Forall_impl; [|exact Hadded].
      intros it (f & art & Hin & Hit). exists f, art. split; [right; exact Hin | exact Hit].
Qed.

Lemma newsletter_digest_empty w body fx :
  requested_sources body = [] ->
  newsletter_digest w body fx
  = (Returned {| status := 422; body := Message "Invalid inputs (empty sources)" |}, fx).
Proof.
  unfold newsletter_digest, try_catch. fold (requested_sources body).
  intros ->. reflexivity.
Qed.

Lemma newsletter_digest_invalid_window w body fx :
  requested_sources body <> [] ->
  toISOString w (window_start w body fx) = None ->
  newsletter_digest w body fx
  = (Returned (server_error {| exn_name := "RangeError"; exn_message := "Invalid time value" |}),
     clock_read fx).
Proof.
  unfold newsletter_digest, try_catch.
  fold (requested_sources body) (requested_window body).
  destruct (requested_sources body) as [|s srcs]; [contradiction|]. intros _ Hiso.
  cbn [length Nat.eqb].
  unfold bind at 1. unfold Date_now at 1. cbn [clock_reads requests].
  unfold bind at 1. unfold Date_toISOString at 1.
  fold (window_start w body fx). rewrite Hiso. reflexivity.
Qed.

Lemma newsletter_digest_no_match w body fx iso :
  requested_sources body <> [] ->
  toISOString w (window_start w body fx) = Some iso ->
  selected (requested_sources body) = [] ->
  newsletter_digest w body fx
  = (Returned {| status := 422; body := Message "Invalid inputs (no matching sources)" |},
     clock_read fx).
Proof.
  unfold newsletter_digest, try_catch.
  fold (requested_sources body) (requested_window body).
  destruct (requested_sources body) as [|s srcs]; [contradiction|]. intros _ Hiso Hsel.
  cbn [length Nat.eqb].
  unfold bind at 1. unfold Date_now at 1. cbn [clock_reads requests].
  unfold bind at 1. unfold Date_toISOString at 1.
  fold (window_start w body fx). rewrite Hiso. unfold ret at 1.
  rewrite Hsel. reflexivity.
Qed.

(** The route on sources that match: the loop, then the composition, under
    the handler of the errors. *)
Lemma newsletter_digest_known w body fx iso :
  toISOString w (window_start w body fx) = Some iso ->
  selected (requested_sources body) <> [] ->
  newsletter_digest w body fx
  = try_catch
      (all <- gather w (requested_exclude body) iso (selected (requested_sources body)) [] ;;
       generated_at <- isoNow w ;;
       ret {| status := 200; body := DigestJson (composed body all generated_at) |})
      server_error (clock_read fx).
Proof.
  unfold newsletter_digest, try_catch.
  fold (requested_sources body) (requested_window body) (requested_max body)
       (requested_filter body) (requested_exclude body).
  intros Hiso Hsel.
  destruct (requested_sources body) as [|s srcs]; [contradiction Hsel; reflexivity|].
  cbn [length Nat.eqb].
  unfold bind at 1. unfold Date_now at 1. cbn [clock_reads requests].
  unfold bind at 1. unfold Date_toISOString at 1.
  fold (window_start w body fx). rewrite Hiso. unfold ret at 1.
  destruct (selected (s :: srcs)) as [|f sel]; [contradiction Hsel; reflexivity|].
  reflexivity.
Qed.

Lemma selected_empty (sources : list string) :
  selected sources = [] <-> Forall (fun s => in_catalog s = false) sources.
Proof.
  unfold selected. split.
  - intros H. apply Forall_forall. intros s Hs.
    destruct (in_catalog s) eqn:Hcat; [|reflexivity].
    unfold in_catalog in Hcat. apply array_includes_In, in_map_iff in Hcat.
    destruct Hcat as (f & <- & Hf).
    assert (Hin : In f (filter (fun f => array_includes sources (Feed.feed_id f)) FEEDS)).
    { apply filter_In. split; [assumption | apply array_includes_In; assumption]. }
    rewrite H in Hin. destruct Hin.
  - intros H. rewrite Forall_forall in H.
    destruct (filter _ FEEDS) as [|f sel] eqn:Hsel; [reflexivity|].
    assert (Hin : In f (filter (fun f => array_includes sources (Feed.feed_id f)) FEEDS))
      by (rewrite Hsel; left; reflexivity).
    apply filter_In in Hin. destruct Hin as [Hf Hs]. apply array_includes_In in Hs.
    apply H in Hs. unfold in_catalog in Hs.
    assert (Hc : array_includes (map Feed.feed_id FEEDS) (Feed.feed_id f) = true)
      by (apply array_includes_In, in_map; assumption).
    congruence.
Qed.

End DigestSteps.

(** X9. Without the provider credential both routes report the
    misconfiguration themselves: a request for the items of a feed of the
    catalog, and a digest request that names a feed of the catalog, are
    answered 500 with the message "Server misconfigured: NEWSAPI_KEY missing"
    (once the start of the window has been rendered), and no request has been
    sent to the provider. *)
Theorem routes_report_missing_credential (rt : StringRuntime) w :
  truthy (NEWSAPI_KEY w) = false ->
  (forall feed_id query fx,
      in_catalog feed_id = true ->
      items_from w query fx <> None ->
      exists fx',
        Broker.feed_items w feed_id query fx
        = (Returned {| Broker.status := 500;
                       Broker.body :=
                         Broker.Message "Server misconfigured: NEWSAPI_KEY missing" |}, fx')
        /\ requests fx' = requests fx)
  /\ (forall body fx,
      (exists s, In s (requested_sources body) /\ in_catalog s = true) ->
      toISOString w (window_start w body fx) <> None ->
      exists fx',
        Broker.newsletter_digest w body fx
        = (Returned {| Broker.status := 500;
                       Broker.body :=
                         Broker.Message "Server misconfigured: NEWSAPI_KEY missing" |}, fx')
        /\ requests fx' = requests fx).
Proof.
  intros Hkey. split.
  - intros feed_id query fx Hcat Hfrom.
    apply feed_of_in_catalog in Hcat. destruct Hcat as (feed & Hfeed).
    destruct (items_from w query fx) as [fromISO|] eqn:Efrom; [|contradiction].
    destruct (feed_items_outcome w feed_id query fx feed fromISO Hfeed Efrom)
      as (resp & fx' & Hrun & Hout).
    rewrite Hkey in Hout. destruct Hout as [-> ->].
    eexists. split; [exact Hrun | apply items_started_requests].
  - intros body fx (s & Hin & Hcat) Hiso.
    destruct (toISOString w (window_start w body fx)) as [iso|] eqn:Eiso; [|contradiction].
    assert (Hsel : Broker.selected (requested_sources body) <> [])
      by (eapply selected_nonempty; eassumption).
    rewrite (newsletter_digest_known w body fx iso Eiso Hsel).
    unfold try_catch, bind at 1.
    destruct (Broker.selected (requested_sources body)) as [|f sel]; [contradiction|].
    cbn [Broker.gather]. unfold bind at 1.
    rewrite newsapiEverything_run, Hkey.
    eexists. split; reflexivity.
Qed.

Lemma routes_report_missing_credential_witness :
  exists fx1 fx2,
    Broker.feed_items (rt := ascii_runtime)
      (Samples.world JUndefined (JString "broker-key") [Samples.tiktok_story])
      "tubefilter" Cases.full_query no_effects
    = (Returned {| Broker.status := 500;
                   Broker.body :=
                     Broker.Message "Server misconfigured: NEWSAPI_KEY missing" |}, fx1)
    /\ requests fx1 = []
    /\ Broker.newsletter_digest (rt := ascii_runtime)
         (Samples.world JUndefined (JString "broker-key") [Samples.tiktok_story])
         (Samples.digest_request ["ppc_land"; "tubefilter"] None) no_effects
       = (Returned {| Broker.status := 500;
                      Broker.body :=
                        Broker.Message "Server misconfigured: NEWSAPI_KEY missing" |}, fx2)
    /\ requests fx2 = [].
Proof.
  destruct (routes_report_missing_credential ascii_runtime
              (Samples.world JUndefined (JString "broker-key") [Samples.tiktok_story])
              eq_refl)
    as [Hitems Hdigest].
  destruct (Hitems "tubefilter" Cases.full_query no_effects eq_refl)
    as (fx1 & Hrun1 & Hreq1); [discriminate|].
  destruct (Hdigest (Samples.digest_request ["ppc_land"; "tubefilter"] None) no_effects)
    as (fx2 & Hrun2 & Hreq2).
  - exists "tubefilter". split; [right; left; reflexivity | reflexivity].
  - discriminate.
  - exists fx1, fx2. auto.
Defined.

(** X10. The refusals of the digest route.  It always answers.  A request
    without sources (none, not an array, or empty) is answered 422 "Invalid
    inputs (empty sources)" before anything is done.  Otherwise the handler
    reads the clock once and renders the start of the window first: when that
    fails the answer is 500 "Invalid time value", even if no source matches;
    when it succeeds and no source is a feed_id of the catalog, the answer is
    422 "Invalid inputs (no matching sources)".  So the answer is 422 exactly
    in these two cases, and a refused request has sent nothing to the
    provider. *)
Theorem digest_route_refusals (rt : StringRuntime) w body fx :
  exists resp fx',
    Broker.newsletter_digest w body fx = (Returned resp, fx')
    /\ (requested_sources body = [] ->
        resp = {| Broker.status := 422;
                  Broker.body := Broker.Message "Invalid inputs (empty sources)" |}
        /\ fx' = fx)
    /\ (requested_sources body <> [] ->
        toISOString w (window_start w body fx) = None ->
        resp = {| Broker.status := 500; Broker.body := Broker.Message "Invalid time value" |}
        /\ fx' = clock_read fx)
    /\ (requested_sources body <> [] ->
        toISOString w (window_start w body fx) <> None ->
        Forall (fun s => in_catalog s = false) (requested_sources body) ->
        resp = {| Broker.status := 422;
                  Broker.body := Broker.Message "Invalid inputs (no matching sources)" |}
        /\ fx' = clock_read fx)
    /\ (Broker.status resp = 422 <->
        requested_sources body = []
        \/ (toISOString w (window_start w body fx) <> None
            /\ Forall (fun s => in_catalog s = false) (requested_sources body)))
    /\ (Broker.status resp = 422 -> requests fx' = requests fx).
Proof.
  destruct (requested_sources body) as [|s srcs] eqn:Hsrc.
  - rewrite (newsletter_digest_empty w body fx Hsrc).
    eexists _, _. split; [reflexivity|].
    split; [auto|]. split; [intros H; contradiction H; reflexivity|].
    split; [intros H; contradiction H; reflexivity|].
    split; [split; auto | reflexivity].
  - assert (Hne : requested_sources body <> []) by (rewrite Hsrc; discriminate).
    destruct (toISOString w (window_start w body fx)) as [iso|] eqn:Hiso.
    + destruct (Broker.selected (s :: srcs)) as [|f sel] eqn:Hsel.
      * assert (Hnone : Forall (fun s => in_catalog s = false) (s :: srcs))
          by (apply selected_empty; assumption).
        rewrite <- Hsrc in Hsel.
        rewrite (newsletter_digest_no_match w body fx iso Hne Hiso Hsel).
        eexists _, _. split; [reflexivity|].
        split; [discriminate|]. split; [discriminate|]. split; [auto|].
        split; [|reflexivity].
        split; [intros _; right; split; [discriminate | exact Hnone] | reflexivity].
      * assert (Hsome : ~ Forall (fun s => in_catalog s = false) (s :: srcs)).
        { intros H. apply selected_empty in H. congruence. }
        destruct (newsletter_digest_answers w body fx) as (resp & fx' & Hrun).
        exists resp, fx'. split; [exact Hrun|].
        split; [discriminate|]. split; [discriminate|].
        split; [intros _ _ H; contradiction|].
        apply newsletter_digest_status in Hrun. rewrite Hsrc, Hsel in Hrun.
        assert (Hstatus : Broker.status resp <> 422).
        { destruct Hrun as [[_ [E|E]]|[E|(? & ? & ? & ? & _ & _ & _ & ->)]];
            try discriminate; rewrite E; discriminate. }
        split; [|intros E; contradiction].
        split; [intros E; contradiction|].
        intros [E|[_ E]]; [discriminate | contradiction].
    + rewrite (newsletter_digest_invalid_window w body fx Hne Hiso).
      eexists _, _. split; [reflexivity|].
      split; [discriminate|]. split; [auto|]. split; [intros _ H; contradiction H; reflexivity|].
      split; [|discriminate].
      split; [discriminate|].
      intros [E|[E _]]; [discriminate | contradiction E; reflexivity].
Qed.

(** A window of 10^12 hours on a clock that cannot render its start: the
    request is answered 500 although none of its sources matches. *)
Example digest_invalid_window_before_sources :
  Broker.newsletter_digest (rt := ascii_runtime)
    {| NEWSAPI_KEY := JString "newsapi-key";
       BROKER_KEY := JString "broker-key";
       clock := fun n => 1700000000000 + Z.of_nat n;
       toISOString :=
         fun ms => if (Z.abs ms <=? 8640000000000000) then Some (String_of_number ms) else None;
       provider := fun _ _ => Samples.refusal |}
    {| Broker.DigestBody.sources := Some ["not_a_feed"];
       Broker.DigestBody.window_hours := Some 1000000000000;
       Broker.DigestBody.max_items_per_section := None;
       Broker.DigestBody.digital_first_only := None;
       Broker.DigestBody.exclude := None |}
    no_effects
  = (Returned {| Broker.status := 500; Broker.body := Broker.Message "Invalid time value" |},
     clock_read no_effects).
Proof. vm_compute. reflexivity. Qed.

(** A request whose only source is no feed of the catalog. *)
Lemma digest_route_refusals_witness :
  exists fx',
    Broker.newsletter_digest (rt := ascii_runtime)
      (Samples.world (JString "newsapi-key") (JString "broker-key") [Samples.tiktok_story])
      (Samples.digest_request ["not_a_feed"] None) no_effects
    = (Returned {| Broker.status := 422;
                   Broker.body := Broker.Message "Invalid inputs (no matching sources)" |}, fx')
    /\ fx' = clock_read no_effects.
Proof.
  destruct (digest_route_refusals ascii_runtime
              (Samples.world (JString "newsapi-key") (JString "broker-key")
                 [Samples.tiktok_story])
              (Samples.digest_request ["not_a_feed"] None) no_effects)
    as (resp & fx' & Hrun & _ & _ & Hnone & _).
  destruct Hnone as [-> ->].
  - discriminate.
  - discriminate.
  - repeat constructor.
  - exists (clock_read no_effects). split; [exact Hrun | reflexivity].
Defined.

Lemma firstn_map_all {A B : Type} (g : A -> B) (l : list A) :
  firstn (length l) (map g l) = map g l.
Proof. rewrite <- (length_map g l). apply firstn_all. Qed.

(** X11. The searches of the digest route.  The requests it sends are the
    searches of the selected feeds (the feeds of the catalog named in sources,
    in the order of the catalog, whatever the order of sources), each with
    page size 50 and from the start of the window, one after the other up to
    the feed at which a failure stopped the loop.  An answer 200 has sent the
    search of every selected feed; an answer 422 has sent none; without the
    credential none is sent. *)
Theorem digest_route_searches (rt : StringRuntime) w body fx :
  exists resp fx' sent,
    Broker.newsletter_digest w body fx = (Returned resp, fx')
    /\ requests fx' = requests fx ++ sent
    /\ (sent = []
        \/ exists iso n,
             toISOString w (window_start w body fx) = Some iso
             /\ sent = firstn n (map (digest_search w iso)
                                     (Broker.selected (requested_sources body))))
    /\ (Broker.status resp = 200 ->
        exists iso,
          toISOString w (window_start w body fx) = Some iso
          /\ sent = map (digest_search w iso) (Broker.selected (requested_sources body)))
    /\ (Broker.status resp = 422 -> sent = [])
    /\ (truthy (NEWSAPI_KEY w) = false -> sent = []).
Proof.
  assert (Hquiet : forall resp fx',
             Broker.newsletter_digest w body fx = (Returned resp, fx') ->
             Broker.status resp <> 200 ->
             requests fx' = requests fx ->
             exists resp fx' sent,
               Broker.newsletter_digest w body fx = (Returned resp, fx')
               /\ requests fx' = requests fx ++ sent
               /\ (sent = []
                   \/ exists iso n,
                        toISOString w (window_start w body fx) = Some iso
                        /\ sent = firstn n (map (digest_search w iso)
                                                (Broker.selected (requested_sources body))))
               /\ (Broker.status resp = 200 ->
                   exists iso,
                     toISOString w (window_start w body fx) = Some iso
                     /\ sent = map (digest_search w iso)
                                   (Broker.selected (requested_sources body)))
               /\ (Broker.status resp = 422 -> sent = [])
               /\ (truthy (NEWSAPI_KEY w) = false -> sent = [])).
  { intros resp fx' Hrun Hstatus Hreq. exists resp, fx', [].
    rewrite app_nil_r. split; [exact Hrun|]. split; [exact Hreq|].
    split; [auto|]. split; [intros E; contradiction | auto]. }
  destruct (requested_sources body) as [|s srcs] eqn:Hsrc.
  { eapply Hquiet; [apply newsletter_digest_empty; assumption | discriminate | reflexivity]. }
  assert (Hne : requested_sources body <> []) by (rewrite Hsrc; discriminate).
  destruct (toISOString w (window_start w body fx)) as [iso|] eqn:Hiso.
  2:{ eapply Hquiet;
        [apply newsletter_digest_invalid_window; assumption | discriminate | reflexivity]. }
  rewrite <- Hsrc in *.
  destruct (Broker.selected (requested_sources body)) as [|f sel] eqn:Hsel.
  { eapply Hquiet;
      [eapply newsletter_digest_no_match; eassumption | discriminate | reflexivity]. }
  clear Hquiet.
  assert (Hsome : Broker.selected (requested_sources body) <> [])
    by (rewrite Hsel; discriminate).
  rewrite (newsletter_digest_known w body fx iso Hiso Hsome), Hsel.
  unfold try_catch, bind at 1.
  destruct (Broker.gather w (requested_exclude body) iso (f :: sel) [] (clock_read fx))
    as [[all|e] fx2] eqn:Hg;
    destruct (gather_searches _ _ _ _ _ _ _ _ Hg) as (n & Hreq & Hn);
    cbn [clock_read requests] in Hreq.
  - subst n. rewrite firstn_map_all in Hreq.
    unfold bind at 1. rewrite isoNow_run.
    destruct (toISOString w (clock w (clock_reads fx2)));
      eexists _, _, (map (digest_search w iso) (f :: sel));
      (split; [reflexivity|]); (split; [exact Hreq|]);
      (split; [right; exists iso, (length (f :: sel)); rewrite firstn_map_all; auto|]).
    + split; [eauto|]. split; [discriminate|].
      intros Hkey. exfalso.
      cbn [Broker.gather] in Hg. unfold bind at 1 in Hg.
      rewrite newsapiEverything_run, Hkey in Hg. discriminate.
    + split; [discriminate|]. split; [discriminate|].
      intros Hkey. exfalso.
      cbn [Broker.gather] in Hg. unfold bind at 1 in Hg.
      rewrite newsapiEverything_run, Hkey in Hg. discriminate.
  - eexists _, _, (firstn n (map (digest_search w iso) (f :: sel))).
    split; [reflexivity|]. split; [exact Hreq|].
    split; [right; eauto|]. split; [discriminate|]. split; [discriminate|].
    intros Hkey. rewrite (Hn Hkey). reflexivity.
Qed.

(** The sources in another order than the catalog: the searches follow the
    catalog. *)
Example digest_searches_in_catalog_order :
  exists resp fx',
    Broker.newsletter_digest (rt := ascii_runtime)
      (Samples.world (JString "newsapi-key") (JString "broker-key") [Samples.tiktok_story])
      (Samples.digest_request ["tubefilter"; "nowhere"; "ppc_land"] None) no_effects
    = (Returned resp, fx')
    /\ Broker.status resp = 200
    /\ map rq_q (requests fx') = [Broker.Feed.q Broker.ppc_land; Broker.Feed.q Broker.tubefilter]
    /\ map rq_pageSize (requests fx') = ["50"; "50"].
Proof.
  eexists _, _. split; [lazy; reflexivity|]. repeat split; vm_compute; reflexivity.
Qed.

(** ** The shape of a digest *)

Lemma or_string_nonempty (v : jsval) (d : string) : d <> "" -> or_string v d <> "".
Proof.
  intros Hd. destruct v as [| |s]; simpl; try assumption.
  destruct (String.eqb_spec s ""); assumption.
Qed.

(** Filtering keeps the keys distinct. *)
Lemma filter_keys_distinct {V K : Type} (key : V -> K) (keep : V -> bool) (vs : list V) :
  NoDup (map key vs) -> NoDup (map key (filter keep vs)).
Proof.
  induction vs as [|v vs IH]; simpl; intros H; [constructor|].
  inversion H as [|? ? Hnotin Hnd]; subst.
  destruct (keep v); [|auto]. simpl. constructor; [|auto].
  intros Hin. apply Hnotin. apply in_map_iff in Hin. destruct Hin as (x & Hx & Hin).
  apply filter_In in Hin. rewrite <- Hx. apply in_map, Hin.
Qed.

Lemma NoDup_firstn {A : Type} (n : nat) (l : list A) : NoDup l -> NoDup (firstn n l).
Proof.
  revert n. induction l as [|a l IH]; intros n H; destruct n; simpl; try constructor.
  - inversion H as [|? ? Hnotin Hnd]; subst. intros Hin. apply Hnotin.
    rewrite <- (firstn_skipn n l). apply in_or_app. left. assumption.
  - inversion H; subst. auto.
Qed.

Lemma NoDup_map_singleton {A : Type} (l : list A) :
  NoDup l -> NoDup (map (fun u => [u]) l).
Proof.
  induction 1 as [|a l Hnotin _ IH]; simpl; constructor; [|assumption].
  intros Hin. apply in_map_iff in Hin. destruct Hin as (x & Hx & Hin).
  inversion Hx; subst. contradiction.
Qed.

Lemma slice0_firstn {A : Type} (arr : list A) (e : Z) :
  exists n, slice0 arr e = firstn n arr.
Proof. unfold slice0. eexists. reflexivity. Qed.

Section DigestShape.
Context {rt : StringRuntime}.
Import Broker.

Lemma byUrl_values_In (all : list Item.t) (it : Item.t) :
  In it (Map_values (byUrl all)) -> In it all.
Proof.
  unfold Map_values. intros H. apply in_map_iff in H.
  destruct H as ([k it'] & Heq & H). simpl in Heq. subst it'.
  apply byUrl_invariant in H. destruct H as (_ & before & after & -> & _).
  apply in_or_app. right. left. reflexivity.
Qed.

Lemma candidates_In (digital_first_only : bool) (all : list Item.t) (it : Item.t) :
  In it (candidates digital_first_only all) -> In it all.
Proof.
  rewrite candidates_filter. intros H. apply filter_In in H.
  apply byUrl_values_In, H.
Qed.

Lemma candidates_NoDup (digital_first_only : bool) (all : list Item.t) :
  NoDup (map Item.url (candidates digital_first_only all)).
Proof.
  rewrite candidates_filter. apply filter_keys_distinct.
  rewrite byUrl_urls. apply byUrl_invariant.
Qed.

Lemma ranked_In (items : list Item.t) (section : string) (it : Item.t) :
  In it (ranked items section) -> In it items.
Proof.
  apply Permutation_in. apply ranked_stable_descending.
Qed.

Lemma ranked_NoDup (items : list Item.t) (section : string) :
  NoDup (map Item.url items) -> NoDup (map Item.url (ranked items section)).
Proof.
  apply Permutation_NoDup. apply Permutation_map, Permutation_sym.
  apply ranked_stable_descending.
Qed.

Lemma normalized_fields w feed exclude a it :
  normalized w feed exclude a it ->
  Item.title it <> "" /\ Item.source it = Feed.feed_id feed /\ Item.labels it = []
  /\ Item.url it = Article.url a
  /\ Item.classification it = classifyDigitalFirst (fields_of a) (Some exclude).
Proof.
  intros (p & -> & _). cbn [normalize Item.title Item.source Item.labels Item.url
                            Item.classification].
  split; [apply or_string_nonempty; discriminate | auto].
Qed.

End DigestShape.

(** X12. The shape of a digest.  When the digest route answers 200, the
    digest carries the fixed title and the four sections under their fixed
    names, in their order; no url is cited twice and no url stands twice in a
    section; every citation has a title that is not empty and a source that
    is a feed_id of the catalog named in the request; every entry has a
    headline and a blurb that are not empty and exactly one url; and as long
    as fewer than 200 items are cited, every entry of every section is among
    the citations (same url and title). *)
Theorem digest_wellformed (rt : StringRuntime) w body fx resp fx' :
  Broker.newsletter_digest w body fx = (Returned resp, fx') ->
  Broker.status resp = 200 ->
  exists digest,
    Broker.body resp = Broker.DigestJson digest
    /\ Broker.Digest.title digest = "Digital-First Content Brief"
    /\ map Broker.DigestSection.name (Broker.Digest.sections digest) = Broker.section_names
    /\ NoDup (map Broker.Citation.url (Broker.Digest.citations digest))
    /\ Forall (fun c =>
                 Broker.Citation.title c <> ""
                 /\ In (Broker.Citation.source c) (requested_sources body)
                 /\ in_catalog (Broker.Citation.source c) = true)
              (Broker.Digest.citations digest)
    /\ Forall (fun s =>
                 NoDup (map Broker.Entry.urls (Broker.DigestSection.items s))
                 /\ Forall (fun e =>
                              Broker.Entry.headline e <> ""
                              /\ Broker.Entry.blurb e <> ""
                              /\ exists u, Broker.Entry.urls e = [u])
                           (Broker.DigestSection.items s))
              (Broker.Digest.sections digest)
    /\ ((length (Broker.Digest.citations digest) < 200)%nat ->
        Forall (fun s =>
                  Forall (fun e =>
                            exists c,
                              In c (Broker.Digest.citations digest)
                              /\ Broker.Entry.urls e = [Broker.Citation.url c]
                              /\ Broker.Entry.headline e = Broker.Citation.title c)
                         (Broker.DigestSection.items s))
               (Broker.Digest.sections digest)).
Proof.
  intros H Hstatus. apply newsletter_digest_status in H.
  destruct H as [[E _]|[E|(iso & all & generated_at & fx2 & _ & Hg & _ & ->)]];
    [rewrite E in Hstatus; discriminate | rewrite E in Hstatus; discriminate |].
  exists (composed body all generated_at). split; [reflexivity|].
  cbn [composed Broker.Digest.title Broker.Digest.sections Broker.Digest.citations].
  set (items := Broker.candidates (requested_filter body) all).
  assert (Hnd : NoDup (map Broker.Item.url items)) by apply candidates_NoDup.
  assert (Hitems : Forall (fun it =>
                             Broker.Item.title it <> ""
                             /\ In (Broker.Item.source it) (requested_sources body)
                             /\ in_catalog (Broker.Item.source it) = true) items).
  { apply gather_normalized in Hg. destruct Hg as (added & -> & Hadded).
    apply Forall_forall. intros it Hin. apply candidates_In in Hin.
    cbn [app] in Hin. rewrite Forall_forall in Hadded.
    destruct (Hadded it Hin) as (feed & a & Hfeed & Hnorm).
    apply normalized_fields in Hnorm. destruct Hnorm as (Ht & Hs & _).
    split; [exact Ht|]. rewrite Hs.
    unfold Broker.selected in Hfeed. apply filter_In in Hfeed. destruct Hfeed as [Hf Hsrc].
    split; [apply array_includes_In; exact Hsrc|].
    unfold in_catalog. apply array_includes_In, in_map, Hf. }
  split; [reflexivity|].
  split; [rewrite map_map; cbn [Broker.DigestSection.name]; apply map_id|].
  split.
  { destruct (citations_first_200 items) as [-> _].
    rewrite map_map. cbn [Broker.cite Broker.Citation.url].
    rewrite <- firstn_map. apply NoDup_firstn, Hnd. }
  split.
  { destruct (citations_first_200 items) as [-> _].
    apply Forall_map, Forall_forall. intros it Hin.
    cbn [Broker.cite Broker.Citation.title Broker.Citation.source].
    rewrite Forall_forall in Hitems. apply Hitems.
    rewrite <- (firstn_skipn 200 items). apply in_or_app. left. exact Hin. }
  split.
  { apply Forall_map, Forall_forall. intros s _. cbn [Broker.DigestSection.items].
    unfold Broker.section_items.
    destruct (slice0_firstn (Broker.ranked items s) (requested_max body)) as [n ->].
    split.
    - rewrite map_map. cbn [Broker.render Broker.Entry.urls].
      rewrite <- (map_map Broker.Item.url (fun u => [u])).
      apply NoDup_map_singleton.
      rewrite <- firstn_map. apply NoDup_firstn, ranked_NoDup, Hnd.
    - apply Forall_map, Forall_forall. intros it Hin.
      cbn [Broker.render Broker.Entry.headline Broker.Entry.blurb Broker.Entry.urls].
      assert (Hit : In it items).
      { apply (ranked_In items s). rewrite <- (firstn_skipn n (Broker.ranked items s)).
        apply in_or_app. left. exact Hin. }
      rewrite Forall_forall in Hitems.
      split; [apply Hitems, Hit|].
      split; [apply or_string_nonempty; discriminate | eauto]. }
  intros Hfew.
  destruct (citations_first_200 items) as [Hcit _]. rewrite Hcit in *.
  rewrite length_map, length_firstn in Hfew.
  assert (Hall : firstn 200 items = items) by (apply firstn_all2; lia).
  rewrite Hall.
  apply Forall_map, Forall_forall. intros s _. cbn [Broker.DigestSection.items].
  unfold Broker.section_items.
  destruct (slice0_firstn (Broker.ranked items s) (requested_max body)) as [n ->].
  apply Forall_map, Forall_forall. intros it Hin.
  exists (Broker.cite it). split; [|split; reflexivity].
  apply in_map. apply (ranked_In items s).
  rewrite <- (firstn_skipn n (Broker.ranked items s)). apply in_or_app. left. exact Hin.
Qed.

Lemma digest_wellformed_witness :
  exists resp fx' digest,
    Broker.newsletter_digest (rt := ascii_runtime)
      (Samples.world (JString "newsapi-key") (JString "broker-key")
         [Samples.tiktok_story; Samples.undated_story; Samples.tiktok_story])
      (Samples.digest_request ["tubefilter"; "ppc_land"] None) no_effects
    = (Returned resp, fx')
    /\ Broker.status resp = 200
    /\ Broker.body resp = Broker.DigestJson digest
    /\ NoDup (map Broker.Citation.url (Broker.Digest.citations digest))
    /\ length (Broker.Digest.citations digest) = 2%nat.
Proof.
  destruct (Broker.newsletter_digest (rt := ascii_runtime)
              (Samples.world (JString "newsapi-key") (JString "broker-key")
                 [Samples.tiktok_story; Samples.undated_story; Samples.tiktok_story])
              (Samples.digest_request ["tubefilter"; "ppc_land"] None) no_effects)
    as [[resp|e] fx'] eqn:H.
  - assert (Hstatus : Broker.status resp = 200)
      by (vm_compute in H; inversion H; reflexivity).
    destruct (digest_wellformed ascii_runtime _ _ _ _ _ H Hstatus)
      as (digest & Hbody & _ & _ & Hnd & _).
    exists resp, fx', digest. split; [reflexivity|]. split; [exact Hstatus|].
    split; [exact Hbody|]. split; [exact Hnd|].
    vm_compute in H. inversion H; subst resp. cbn [Broker.body] in Hbody.
    inversion Hbody. reflexivity.
  - vm_compute in H. discriminate.
Defined.

(** ** The ranking in closed form *)

Lemma sorted_two_values {A : Type} (key : A -> Z) (hi lo : Z) (l : list A) :
  lo < hi ->
  (forall x, key x = hi \/ key x = lo) ->
  StronglySorted (fun a b => key b <= key a) l ->
  l = filter (fun x => key x =? hi) l ++ filter (fun x => key x =? lo) l.
Proof.
  intros Hlt Hkeys Hsorted.
  induction Hsorted as [|a l _ IH Hall]; [reflexivity|]. cbn [filter].
  destruct (Hkeys a) as [Ha|Ha]; rewrite Ha.
  - rewrite Z.eqb_refl. replace (hi =? lo) with false by (symmetry; apply Z.eqb_neq; lia).
    cbn [app]. f_equal. exact IH.
  - rewrite Z.eqb_refl. replace (lo =? hi) with false by (symmetry; apply Z.eqb_neq; lia).
    assert (Hlow : forall x, In x l -> key x = lo).
    { intros x Hx. rewrite Forall_forall in Hall. specialize (Hall x Hx).
      destruct (Hkeys x); lia. }
    assert (Hnone : filter (fun x => key x =? hi) l = []).
    { clear - Hlow Hlt. induction l as [|x l IHl]; [reflexivity|]. cbn [filter].
      rewrite (Hlow x) by (left; reflexivity).
      replace (lo =? hi) with false by (symmetry; apply Z.eqb_neq; lia).
      apply IHl. intros y Hy. apply Hlow. right. exact Hy. }
    assert (Hevery : filter (fun x => key x =? lo) l = l).
    { clear - Hlow. induction l as [|x l IHl]; [reflexivity|]. cbn [filter].
      rewrite (Hlow x) by (left; reflexivity). rewrite Z.eqb_refl. f_equal.
      apply IHl. intros y Hy. apply Hlow. right. exact Hy. }
    rewrite Hnone, Hevery. reflexivity.
Qed.

(** X13. The ranking of a section in closed form: first the items that
    score 4 for the section, in the order of the candidates, then the items
    that score 1, in the order of the candidates.  So, for a
    max_items_per_section that is not negative, a section lists the first
    candidates that match its keywords and, only if these are fewer than
    max_items_per_section, the first of the others. *)
Theorem ranked_matches_first (rt : StringRuntime) (items : list Broker.Item.t)
    (section : string) :
  Broker.ranked items section
  = filter (fun it => Broker.score it section =? 4) items
    ++ filter (fun it => Broker.score it section =? 1) items
  /\ forall max_items_per_section,
       0 <= max_items_per_section ->
       Broker.section_items items max_items_per_section section
       = map Broker.render
           (firstn (Z.to_nat max_items_per_section)
              (filter (fun it => Broker.score it section =? 4) items
               ++ filter (fun it => Broker.score it section =? 1) items)).
Proof.
  assert (Hranked : Broker.ranked items section
                    = filter (fun it => Broker.score it section =? 4) items
                      ++ filter (fun it => Broker.score it section =? 1) items).
  { destruct (ranked_stable_descending items section) as (_ & Hsorted & Hstable).
    rewrite <- (Hstable 4), <- (Hstable 1).
    apply (sorted_two_values (fun it => Broker.score it section) 4 1);
      [lia | | exact Hsorted].
    intros it. apply score_never_zero. }
  split; [exact Hranked|].
  intros max_items_per_section Hmax.
  destruct (section_items_top_ranked items max_items_per_section section Hmax) as [-> _].
  rewrite Hranked. reflexivity.
Qed.

(** Three candidates of which the second and the third match the keywords of
    the platform section. *)
Example platform_section_matches_first :
  map Broker.Item.title
    (Broker.ranked (rt := ascii_runtime)
       [ Samples.plain_item "TikTok Shorts launch announced" "A creator series debuts";
         Samples.plain_item "YouTube creator fund update" "New monetization policy";
         Samples.plain_item "Ads revenue report" "" ]
       "Platform moves & monetization")
  = ["YouTube creator fund update"; "Ads revenue report"; "TikTok Shorts launch announced"].
Proof. vm_compute. reflexivity. Qed.

(** ** The deduplication as an operation *)

Section DedupFacts.
Import Broker.

Lemma Map_set_fresh {V : Type} (k : jsval) (v : V) (m : list (jsval * V)) :
  existsb (strict_eq k) (Map_keys m) = false -> Map_set k v m = m ++ [(k, v)].
Proof.
  induction m as [|[k' v'] m IH]; simpl; [reflexivity|].
  destruct (strict_eq k k'); simpl; [discriminate|].
  intros H. rewrite (IH H). reflexivity.
Qed.

Lemma byUrl_distinct (all : list Item.t) :
  NoDup (map Item.url all) -> byUrl all = map (fun it => (Item.url it, it)) all.
Proof.
  induction all as [|x all IH] using rev_ind; [reflexivity|].
  rewrite map_app. cbn [map]. intros Hnd.
  assert (Hnd' : NoDup (Item.url x :: map Item.url all)).
  { eapply Permutation_NoDup; [|exact Hnd]. apply Permutation_sym, Permutation_cons_append. }
  inversion Hnd' as [|? ? Hnotin Hall]; subst.
  rewrite byUrl_snoc, (IH Hall), map_app. cbn [map].
  apply Map_set_fresh.
  destruct (existsb (strict_eq (Item.url x)) _) eqn:E; [|reflexivity].
  apply existsb_strict_eq_In in E. unfold Map_keys in E. rewrite map_map in E.
  contradiction.
Qed.

Lemma Map_set_length {V : Type} (k : jsval) (v : V) (m : list (jsval * V)) :
  (length (Map_set k v m) <= S (length m))%nat.
Proof.
  induction m as [|[k' v'] m IH]; simpl; [lia|].
  destruct (strict_eq k k'); simpl; lia.
Qed.

Lemma byUrl_length (all : list Item.t) : (length (byUrl all) <= length all)%nat.
Proof.
  induction all as [|x all IH] using rev_ind; [simpl; lia|].
  rewrite byUrl_snoc, length_app. cbn [length].
  pose proof (Map_set_length (Item.url x) x (byUrl all)). lia.
Qed.

End DedupFacts.

(** X14. The deduplication as an operation on lists of items: it leaves a
    list without repeated urls as it is, in its order; applied to its own
    output it changes nothing; and its output is never longer than its
    input. *)
Theorem dedupe_idempotent (all : list Broker.Item.t) :
  let merged := Map_values (Broker.byUrl all) in
  (NoDup (map Broker.Item.url all) -> merged = all)
  /\ Map_values (Broker.byUrl merged) = merged
  /\ (length merged <= length all)%nat.
Proof.
  assert (Hfix : forall l, NoDup (map Broker.Item.url l) -> Map_values (Broker.byUrl l) = l).
  { intros l Hnd. rewrite (byUrl_distinct l Hnd). unfold Map_values.
    rewrite map_map. apply map_id. }
  cbv zeta. split; [apply Hfix|]. split.
  - apply Hfix. rewrite byUrl_urls. apply byUrl_invariant.
  - unfold Map_values. rewrite length_map. apply byUrl_length.
Qed.

(** Two feeds deliver the same url: the merge keeps two of the three items,
    and merging again changes nothing. *)
Lemma dedupe_idempotent_witness :
  let all := [ Samples.item_at "https://example.com/a" "tubefilter";
               Samples.item_at "https://example.com/b" "tubefilter";
               Samples.item_at "https://example.com/a" "ppc_land" ] in
  Map_values (Broker.byUrl (Map_values (Broker.byUrl all))) = Map_values (Broker.byUrl all)
  /\ length (Map_values (Broker.byUrl all)) = 2%nat.
Proof.
  split; [|reflexivity].
  exact (proj1 (proj2 (dedupe_idempotent
                         [ Samples.item_at "https://example.com/a" "tubefilter";
                           Samples.item_at "https://example.com/b" "tubefilter";
                           Samples.item_at "https://example.com/a" "ppc_land" ]))).
Defined.

(** ** The classifier and its exclude tags *)

Section ExcludeFacts.
Context {rt : StringRuntime}.
Import Broker.

Lemma reasons_fire (f : Fields.t) (exclude : list string) (tag : string) :
  In tag (Classification.excluded_reasons (classifyDigitalFirst f (Some exclude)))
  <-> (tag = "linear" \/ tag = "streaming")
      /\ In tag exclude
      /\ test (if String.eqb tag "linear" then linear_pattern else streaming_pattern)
              (classifier_text f) = true.
Proof.
  rewrite classify_reasons, filter_In. unfold tag_fires.
  rewrite andb_true_iff, array_includes_In. cbn [In].
  intuition (subst; auto).
Qed.

End ExcludeFacts.

(** X15. The classifier reads the exclude tags as a set of switches.  A tag
    is an excluded reason exactly when it is "linear" or "streaming", it is
    among the exclude tags, and its pattern occurs in the text: other tags
    are ignored.  More exclude tags can only add reasons and can only turn
    digital_first from true to false.  Without exclude tags nothing is
    excluded and digital_first is the test of the digital-first hints. *)
Theorem classifier_exclude_monotone (rt : StringRuntime) (f : Broker.Fields.t)
    (ex1 ex2 : list string) :
  (forall tag, In tag ex1 -> In tag ex2) ->
  (forall tag,
      In tag (Broker.Classification.excluded_reasons (Broker.classifyDigitalFirst f (Some ex1)))
      <-> (tag = "linear" \/ tag = "streaming")
          /\ In tag ex1
          /\ test (if String.eqb tag "linear"
                   then Broker.linear_pattern else Broker.streaming_pattern)
                  (Broker.classifier_text f) = true)
  /\ (forall tag,
        In tag (Broker.Classification.excluded_reasons
                  (Broker.classifyDigitalFirst f (Some ex1))) ->
        In tag (Broker.Classification.excluded_reasons
                  (Broker.classifyDigitalFirst f (Some ex2))))
  /\ (Broker.Classification.digital_first (Broker.classifyDigitalFirst f (Some ex2)) = true ->
      Broker.Classification.digital_first (Broker.classifyDigitalFirst f (Some ex1)) = true)
  /\ Broker.classifyDigitalFirst f (Some [])
     = {| Broker.Classification.digital_first :=
            test Broker.digitalHints (Broker.classifier_text f);
          Broker.Classification.excluded_reasons := [] |}.
Proof.
  intros Hincl.
  assert (Hmono : forall tag,
             In tag (Broker.Classification.excluded_reasons
                       (Broker.classifyDigitalFirst f (Some ex1))) ->
             In tag (Broker.Classification.excluded_reasons
                       (Broker.classifyDigitalFirst f (Some ex2)))).
  { intros tag H. apply reasons_fire in H. apply reasons_fire.
    destruct H as (Hv & Hin & Ht). auto. }
  split; [intros tag; apply reasons_fire|]. split; [exact Hmono|]. split.
  - intros H2.
    pose proof (classify_digital_first f (Some ex1)) as H1. cbv zeta in H1.
    pose proof (classify_digital_first f (Some ex2)) as H2'. cbv zeta in H2'.
    apply H2' in H2. destruct H2 as [Hnone Hhint].
    apply H1. split; [|exact Hhint].
    destruct (Broker.Classification.excluded_reasons
                (Broker.classifyDigitalFirst f (Some ex1))) as [|tag tags] eqn:E;
      [reflexivity|].
    exfalso. specialize (Hmono tag (or_introl eq_refl)). rewrite Hnone in Hmono.
    destruct Hmono.
  - reflexivity.
Qed.

(** A story about Netflix on cable: the tag "podcast" is ignored, "linear"
    alone gives one reason, and both tags give both. *)
Lemma classifier_exclude_monotone_witness :
  (forall tag, In tag ["podcast"; "linear"] -> In tag ["streaming"; "linear"; "podcast"])
  /\ Broker.Classification.excluded_reasons
       (Broker.classifyDigitalFirst (rt := ascii_runtime) Samples.netflix_on_cable
          (Some ["podcast"; "linear"]))
     = ["linear"]
  /\ forall tag,
       In tag (Broker.Classification.excluded_reasons
                 (Broker.classifyDigitalFirst (rt := ascii_runtime) Samples.netflix_on_cable
                    (Some ["podcast"; "linear"]))) ->
       In tag (Broker.Classification.excluded_reasons
                 (Broker.classifyDigitalFirst (rt := ascii_runtime) Samples.netflix_on_cable
                    (Some ["streaming"; "linear"; "podcast"]))).
Proof.
  assert (Hincl : forall tag,
             In tag ["podcast"; "linear"] -> In tag ["streaming"; "linear"; "podcast"]).
  { intros tag [<-|[<-|[]]]; simpl; auto. }
  split; [exact Hincl|]. split; [vm_compute; reflexivity|].
  exact (proj1 (proj2 (classifier_exclude_monotone ascii_runtime Samples.netflix_on_cable
                         ["podcast"; "linear"] ["streaming"; "linear"; "podcast"] Hincl))).
Defined.

(** ** Items whose ids collide *)

Lemma string_append_cancel (u s : string) : (u ++ s)%string = u -> s = EmptyString.
Proof.
  induction u as [|c u IH]; simpl; [auto|].
  intros H. inversion H. auto.
Qed.

Lemma string_length_append (a b : string) :
  String.length (a ++ b) = (String.length a + String.length b)%nat.
Proof. induction a as [|x a IH]; simpl; [reflexivity | rewrite IH; reflexivity]. Qed.

Lemma string_append_assoc (a b c : string) : ((a ++ b) ++ c)%string = (a ++ b ++ c)%string.
Proof. induction a as [|x a IH]; simpl; [reflexivity | rewrite IH; reflexivity]. Qed.

(** X16. The id does not separate the url from the publication time: the
    two are joined by a vertical bar that neither is checked for.  Two
    articles with different urls and different publication times, where the
    bar moves from the url of the one into the publication time of the other,
    are normalized to two items with different urls and the same id. *)
Theorem item_ids_collide (rt : StringRuntime) w feed exclude title description
    (u p q : string) fx :
  q <> "" ->
  exists it1 it2,
    Broker.mapArticle w feed exclude
      {| Article.title := title; Article.description := description;
         Article.url := JString (u ++ "|" ++ p); Article.publishedAt := JString q |} fx
    = (Returned it1, fx)
    /\ Broker.mapArticle w feed exclude
         {| Article.title := title; Article.description := description;
            Article.url := JString u; Article.publishedAt := JString (p ++ "|" ++ q) |} fx
       = (Returned it2, fx)
    /\ Broker.Item.url it1 <> Broker.Item.url it2
    /\ Broker.Item.published_at it1 <> Broker.Item.published_at it2
    /\ Broker.Item.id it1 = Broker.Item.id it2.
Proof.
  intros Hq. rewrite !mapArticle_run. cbn [Article.publishedAt truthy interpolate].
  destruct (String.eqb_spec q "") as [|_]; [contradiction|].
  assert (Hp : String.eqb (p ++ "|" ++ q) "" = false)
    by (destruct p; reflexivity).
  rewrite Hp. cbn [negb].
  eexists _, _. split; [reflexivity|]. split; [reflexivity|].
  cbn [normalize Broker.Item.url Broker.Item.published_at Broker.Item.id Article.url].
  split; [|split].
  - intros H. inversion H as [H']. apply string_append_cancel in H'. discriminate.
  - intros H. apply (f_equal String.length) in H.
    rewrite !string_length_append in H. simpl in H. lia.
  - unfold Broker.stableId. cbn [interpolate or_string].
    rewrite Hp. destruct (String.eqb_spec q "") as [|_]; [contradiction|].
    rewrite !string_append_assoc. reflexivity.
Qed.

Lemma item_ids_collide_witness :
  exists it1 it2,
    Broker.mapArticle (rt := ascii_runtime)
      (Samples.world (JString "newsapi-key") (JString "broker-key") [])
      Broker.tubefilter []
      {| Article.title := JNull; Article.description := JNull;
         Article.url := JString "https://example.com/a|2024";
         Article.publishedAt := JString "05" |} no_effects
    = (Returned it1, no_effects)
    /\ Broker.mapArticle (rt := ascii_runtime)
         (Samples.world (JString "newsapi-key") (JString "broker-key") [])
         Broker.tubefilter []
         {| Article.title := JNull; Article.description := JNull;
            Article.url := JString "https://example.com/a";
            Article.publishedAt := JString "2024|05" |} no_effects
       = (Returned it2, no_effects)
    /\ Broker.Item.url it1 <> Broker.Item.url it2
    /\ Broker.Item.id it1 = Broker.Item.id it2.
Proof.
  assert (Hq : "05" <> "") by discriminate.
  destruct (item_ids_collide ascii_runtime
              (Samples.world (JString "newsapi-key") (JString "broker-key") [])
              Broker.tubefilter [] JNull JNull "https://example.com/a" "2024" "05"
              no_effects Hq)
    as (it1 & it2 & H1 & H2 & Hurl & _ & Hid).
  exists it1, it2. auto.
Defined.

(** X17. What a client can rely on for every item of an answer of the items
    route: its source is the feed_id asked for, its title is not empty, it
    has no labels, its excluded reasons are among the tags of the exclude
    parameter (split at the commas, trimmed, the default being linear and
    streaming) and among "linear" and "streaming"; and unless
    digital_first_only is given and is not "true", every item is
    digital-first and has no excluded reason. *)
Theorem items_route_items (rt : StringRuntime) w feed_id query fx resp fx' items :
  Broker.feed_items w feed_id query fx = (Returned resp, fx') ->
  Broker.body resp = Broker.ItemList items ->
  Forall (fun it =>
            Broker.Item.source it = feed_id
            /\ Broker.Item.title it <> ""
            /\ Broker.Item.labels it = []
            /\ (forall tag,
                  In tag (Broker.Classification.excluded_reasons
                            (Broker.Item.classification it)) ->
                  (tag = "linear" \/ tag = "streaming") /\ In tag (items_exclude query))
            /\ (items_filter query = true ->
                Broker.Classification.digital_first (Broker.Item.classification it) = true
                /\ Broker.Classification.excluded_reasons (Broker.Item.classification it)
                   = []))
         items.
Proof.
  intros Hrun Hbody. apply feed_items_cases in Hrun.
  destruct Hrun as [->|[(e & ->)|(feed & fromISO & r & data & mapped & H)]];
    [discriminate | discriminate |].
  destruct H as (Hfeed & _ & _ & _ & _ & Hmapped & ->).
  cbn [Broker.body] in Hbody. inversion Hbody; subst items. clear Hbody.
  apply feed_of_known in Hfeed. destruct Hfeed as [_ Hid].
  assert (Hall : Forall (fun it =>
                           Broker.Item.source it = feed_id
                           /\ Broker.Item.title it <> ""
                           /\ Broker.Item.labels it = []
                           /\ (forall tag,
                                 In tag (Broker.Classification.excluded_reasons
                                           (Broker.Item.classification it)) ->
                                 (tag = "linear" \/ tag = "streaming")
                                 /\ In tag (items_exclude query))
                           /\ (Broker.Classification.digital_first
                                 (Broker.Item.classification it) = true ->
                               Broker.Classification.excluded_reasons
                                 (Broker.Item.classification it) = [])) mapped).
  { induction Hmapped as [|a it articles its Hit _ IH]; constructor; [|exact IH].
    apply normalized_fields in Hit. destruct Hit as (Ht & Hs & Hl & _ & Hc).
    rewrite Hc, Hs. split; [exact Hid|]. split; [exact Ht|]. split; [exact Hl|]. split.
    - intros tag Htag. apply reasons_fire in Htag. tauto.
    - intros Hdf. pose proof (classify_digital_first (fields_of a)
                                (Some (items_exclude query))) as Hiff.
      cbv zeta in Hiff. apply Hiff in Hdf. apply Hdf. }
  rewrite Forall_forall in Hall. apply Forall_forall. intros it Hin.
  destruct (items_filter query).
  - unfold digital_first_items in Hin. apply filter_In in Hin. destruct Hin as [Hin Hdf].
    destruct (Hall it Hin) as (H1 & H2 & H3 & H4 & H5). auto 10.
  - destruct (Hall it Hin) as (H1 & H2 & H3 & H4 & H5).
    repeat (split; [assumption|]). discriminate.
Qed.

Lemma items_route_items_witness :
  exists resp fx' it,
    Broker.feed_items (rt := ascii_runtime)
      (Samples.world (JString "newsapi-key") (JString "broker-key")
         [Samples.cable_story; Samples.undated_story])
      "tubefilter" Cases.plain_query no_effects
    = (Returned resp, fx')
    /\ Broker.body resp = Broker.ItemList [it]
    /\ Broker.Item.source it = "tubefilter"
    /\ Broker.Item.title it = "Creator newsletter roundup"
    /\ Broker.Classification.digital_first (Broker.Item.classification it) = true.
Proof.
  destruct (Broker.feed_items (rt := ascii_runtime)
              (Samples.world (JString "newsapi-key") (JString "broker-key")
                 [Samples.cable_story; Samples.undated_story])
              "tubefilter" Cases.plain_query no_effects)
    as [[resp|e] fx'] eqn:H.
  - pose proof H as Hrun. vm_compute in Hrun. inversion Hrun; subst resp fx'. clear Hrun.
    eexists _, _, _. split; [reflexivity|]. split; [reflexivity|].
    pose proof (items_route_items ascii_runtime _ _ _ _ _ _ _ H eq_refl) as Hall.
    inversion Hall as [|? ? (Hsource & _ & _ & _ & Hdf) _]; subst.
    split; [exact Hsource|]. split; [reflexivity|]. apply Hdf. reflexivity.
  - vm_compute in H. discriminate.
Defined.

(** ** The items route of the smaller service *)

Lemma server_newsapiFetch_run w feed fx :
  Server.newsapiFetch w feed None fx
  = let fx' := {| clock_reads := clock_reads fx;
                  requests := requests fx ++ [server_search w feed] |} in
    match provider w (length (requests fx)) (server_search w feed) with
    | Rejected e => (Thrown e, fx')
    | Responded r =>
        if resp_ok r
        then match resp_json r with
             | inl e => (Thrown e, fx')
             | inr data => (Returned data, fx')
             end
        else match resp_text r with
             | inr text => (Thrown (Error text), fx')
             | inl e => (Thrown e, fx')
             end
    end.
Proof.
  unfold Server.newsapiFetch, bind, fetch. fold (server_search w feed). cbv zeta.
  destruct (provider w _ _) as [e|r]; [reflexivity|].
  destruct (resp_ok r); cbn [negb].
  - destruct (resp_json r); reflexivity.
  - destruct (resp_text r); reflexivity.
Qed.

(** The mapping returns the items of all the articles, or throws at the
    first article whose url is no string; it has no effect. *)
Lemma server_mapM_run feed articles fx :
  mapM (Server.mapArticle feed) articles fx
  = match find (fun a => negb (is_string (Article.url a))) articles with
    | None => (Returned (map (server_item feed) articles), fx)
    | Some a => (Thrown (Server.invalid_data (interpolate (Article.url a))), fx)
    end.
Proof.
  revert fx. induction articles as [|a articles IH]; intros fx; [reflexivity|].
  cbn [mapM find map]. unfold bind at 1. unfold Server.mapArticle at 1. unfold bind at 1.
  unfold Server.idFor, server_item at 1.
  destruct (Article.url a) as [| |u] eqn:Hu; cbn [is_string negb];
    unfold throw, ret; rewrite ?Hu; try reflexivity.
  unfold bind at 1. rewrite IH.
  destruct (find _ articles); reflexivity.
Qed.

Lemma server_feed_items_known w feed_id fx feed :
  server_feed_of feed_id = Some feed ->
  Server.feed_items w feed_id fx
  = try_catch
      (data <- Server.newsapiFetch w feed None ;;
       items <- mapM (Server.mapArticle feed) (Broker.articles_of data) ;;
       ret {| Server.status := 200; Server.body := Server.ItemList items |})
      (fun e => {| Server.status := 500; Server.body := Server.Message (Server.Error_toString e) |})
      fx.
Proof.
  unfold server_feed_of, Server.feed_items. intros ->. reflexivity.
Qed.

(** The status of its answer, by the catalog. *)
Lemma server_feed_items_status w feed_id fx :
  exists resp fx',
    Server.feed_items w feed_id fx = (Returned resp, fx')
    /\ match server_feed_of feed_id with
       | None =>
           resp = {| Server.status := 404; Server.body := Server.Message "Unknown feed_id" |}
           /\ fx' = fx
       | Some _ => Server.status resp = 200 \/ Server.status resp = 500
       end.
Proof.
  destruct (server_feed_of feed_id) as [feed|] eqn:Hfeed.
  - rewrite (server_feed_items_known _ _ _ _ Hfeed).
    unfold try_catch, bind at 1.
    destruct (Server.newsapiFetch w feed None fx) as [[data|e] fx1]; [|eauto].
    unfold bind at 1. rewrite server_mapM_run.
    destruct (find _ (Broker.articles_of data)); unfold ret; eauto.
  - unfold server_feed_of in Hfeed. unfold Server.feed_items, try_catch. rewrite Hfeed.
    eexists _, _. split; [reflexivity | auto].
Qed.

(** X18. The items route of the smaller service.  It always answers, and
    never reads the clock.  For a feed_id that is not in its catalog the
    answer is 404 "Unknown feed_id" and nothing is sent.  For a feed of the
    catalog it sends exactly one request, whatever the credential: the query
    and the joined domains of the feed, sorted by publication time, always
    with page size 15 and without a start; the answer is then 200 or 500, and
    a response of the provider that is not ok is answered 500 with
    "Error: <body>" ("Error" when the body is empty). *)
Theorem server_items_route w feed_id fx :
  exists resp fx',
    Server.feed_items w feed_id fx = (Returned resp, fx')
    /\ clock_reads fx' = clock_reads fx
    /\ match server_feed_of feed_id with
       | None =>
           resp = {| Server.status := 404; Server.body := Server.Message "Unknown feed_id" |}
           /\ fx' = fx
       | Some feed =>
           requests fx'
           = requests fx
             ++ [ {| rq_q := Server.Feed.q feed;
                     rq_sortBy := "publishedAt";
                     rq_pageSize := "15";
                     rq_domains := Some (String.concat "," (Server.Feed.domains feed));
                     rq_from := None;
                     rq_api_key := NEWSAPI_KEY w |} ]
           /\ (Server.status resp = 200 \/ Server.status resp = 500)
           /\ (forall r text,
                 provider w (length (requests fx)) (server_search w feed) = Responded r ->
                 resp_ok r = false ->
                 resp_text r = inr text ->
                 resp = {| Server.status := 500;
                           Server.body :=
                             Server.Message (if String.eqb text "" then "Error"
                                             else "Error: " ++ text)%string |})
       end.
Proof.
  destruct (server_feed_of feed_id) as [feed|] eqn:Hfeed.
  - rewrite (server_feed_items_known _ _ _ _ Hfeed).
    unfold try_catch, bind at 1. rewrite server_newsapiFetch_run. cbv zeta.
    fold (server_search w feed).
    destruct (provider w _ _) as [e|r].
    { eexists _, _. split; [reflexivity|]. split; [reflexivity|].
      split; [reflexivity|]. split; [auto | discriminate]. }
    destruct (resp_ok r) eqn:Hok.
    + destruct (resp_json r) as [e|data].
      { eexists _, _. split; [reflexivity|]. split; [reflexivity|].
        split; [reflexivity|]. split; [auto | intros; congruence]. }
      unfold bind at 1. rewrite server_mapM_run.
      destruct (find _ (Broker.articles_of data));
        eexists _, _; (split; [reflexivity|]); (split; [reflexivity|]);
        (split; [reflexivity|]); (split; [auto | intros; congruence]).
    + destruct (resp_text r) as [e|text] eqn:Htext;
        eexists _, _; (split; [reflexivity|]); (split; [reflexivity|]);
        (split; [reflexivity|]); (split; [auto|]).
      * intros r0 text H. inversion H; subst r0. congruence.
      * intros r0 text0 H _ Ht. inversion H; subst r0.
        rewrite Htext in Ht. inversion Ht; subst text0.
        unfold Server.Error_toString, Error. cbn [exn_message exn_name].
        destruct (String.eqb text ""); reflexivity.
  - unfold server_feed_of in Hfeed. unfold Server.feed_items, try_catch. rewrite Hfeed.
    eexists _, _. split; [reflexivity|]. auto.
Qed.

(** The smaller service on a known feed and on an unknown one, without
    credential: the search is sent all the same. *)
Example server_items_route_runs :
  (exists resp fx',
      Server.feed_items (Samples.world JUndefined (JString "broker-key") [])
        "tubefilter" no_effects
      = (Returned resp, fx')
      /\ resp = {| Server.status := 500;
                   Server.body := Server.Message "Error: apiKeyMissing" |}
      /\ length (requests fx') = 1%nat)
  /\ Server.feed_items (Samples.world JUndefined (JString "broker-key") [])
       "not_a_feed" no_effects
     = (Returned {| Server.status := 404; Server.body := Server.Message "Unknown feed_id" |},
        no_effects).
Proof.
  split; [eexists _, _; split; [lazy; reflexivity|]; split; reflexivity | reflexivity].
Qed.

(** X19. All or nothing in the smaller service.  When the provider answers
    the search of a feed of the catalog with an ok response that parses, the
    answer is 200 exactly when the url of every article is a string: one
    article without url (or with a null url) makes the whole request fail
    with 500.  An answer 200 holds one item per article, in order, with the
    title, the snippet and the publication time as the provider gave them
    (absent values stay absent), the SHA-1 of the url as id, and the constant
    classification. *)
Theorem server_items_all_or_nothing w feed_id fx feed r data :
  server_feed_of feed_id = Some feed ->
  provider w (length (requests fx)) (server_search w feed) = Responded r ->
  resp_ok r = true ->
  resp_json r = inr data ->
  exists resp fx',
    Server.feed_items w feed_id fx = (Returned resp, fx')
    /\ (Server.status resp = 200
        <-> Forall (fun a => is_string (Article.url a) = true) (Broker.articles_of data))
    /\ (Server.status resp = 200 ->
        resp = {| Server.status := 200;
                  Server.body :=
                    Server.ItemList (map (server_item feed) (Broker.articles_of data)) |})
    /\ (Server.status resp = 200 \/ Server.status resp = 500).
Proof.
  intros Hfeed Hr Hok Hjson.
  rewrite (server_feed_items_known _ _ _ _ Hfeed).
  unfold try_catch, bind at 1. rewrite server_newsapiFetch_run. cbv zeta.
  rewrite Hr, Hok, Hjson. unfold bind at 1. rewrite server_mapM_run.
  destruct (find _ (Broker.articles_of data)) as [a|] eqn:Hfind.
  - eexists _, _. split; [reflexivity|]. cbn [Server.status].
    split; [|split; [discriminate | auto]].
    split; [discriminate|]. intros Hall. exfalso.
    apply find_some in Hfind. destruct Hfind as [Hin Hbad].
    rewrite Forall_forall in Hall. rewrite (Hall a Hin) in Hbad. discriminate.
  - unfold ret. eexists _, _. split; [reflexivity|]. cbn [Server.status].
    split; [|split; [reflexivity | auto]].
    split; [|reflexivity]. intros _. apply Forall_forall. intros a Hin.
    apply (find_none _ _ Hfind) in Hin. destruct (is_string (Article.url a)); [reflexivity|].
    discriminate.
Qed.

(** Two stories of which one has no url: the broker answers with both, the
    smaller service with none. *)
Lemma server_items_all_or_nothing_witness :
  exists resp fx',
    Server.feed_items
      (Samples.world (JString "newsapi-key") (JString "broker-key")
         [ Samples.tiktok_story;
           {| Article.title := JString "Creator fund"; Article.description := JNull;
              Article.url := JUndefined; Article.publishedAt := JUndefined |} ])
      "tubefilter" no_effects
    = (Returned resp, fx')
    /\ Server.status resp = 500.
Proof.
  destruct (server_items_all_or_nothing
              (Samples.world (JString "newsapi-key") (JString "broker-key")
                 [ Samples.tiktok_story;
                   {| Article.title := JString "Creator fund"; Article.description := JNull;
                      Article.url := JUndefined; Article.publishedAt := JUndefined |} ])
              "tubefilter" no_effects Server.tubefilter _ _ eq_refl eq_refl eq_refl eq_refl)
    as (resp & fx' & Hrun & Hiff & _ & [H200|H500]).
  - exfalso. apply Hiff in H200. inversion H200 as [|? ? _ Hrest]; subst.
    inversion Hrest as [|? ? Hbad _]; subst. discriminate.
  - exists resp, fx'. split; [exact Hrun | exact H500].
Defined.

(** ** The applications *)





Section Listing.
Import Broker.

Lemma catalog_ids_distinct : NoDup (map Feed.feed_id FEEDS).
Proof.
  repeat constructor; cbn [In map FEEDS]; intros H;
    repeat (destruct H as [H|H]; [discriminate H|]); exact H.
Qed.

Lemma feed_of_listed (feed : Feed.t) :
  In feed FEEDS -> feed_of (Feed.feed_id feed) = Some feed.
Proof.
  intros Hin. unfold feed_of.
  repeat (destruct Hin as [<-|Hin]; [reflexivity|]). destruct Hin.
Qed.

End Listing.

(** X22. The listing of the sources of the full broker.  [GET /v1/sources]
    answers, without reading the clock or the provider, the feeds of the
    catalog in its order, each with its feed_id, name, homepage and content
    type (the queries and the domains are not disclosed); the feed_ids listed
    are pairwise distinct; and they are exactly the feed_ids the items route
    accepts: it answers 404 for a feed_id if and only if the feed_id is not
    listed, and a listed feed_id denotes the feed of that entry. *)
Theorem broker_sources_listing (rt : StringRuntime) w fx :
  BrokerApp.route w BrokerApp.GetSources fx
  = (Returned (BrokerApp.SourcesJson BrokerApp.sources), fx)
  /\ map BrokerApp.Source.feed_id BrokerApp.sources = map Broker.Feed.feed_id Broker.FEEDS
  /\ NoDup (map BrokerApp.Source.feed_id BrokerApp.sources)
  /\ (forall src,
        In src BrokerApp.sources ->
        exists feed,
          feed_of (BrokerApp.Source.feed_id src) = Some feed
          /\ BrokerApp.Source.name src = Broker.Feed.name feed
          /\ BrokerApp.Source.homepage src = Broker.Feed.homepage feed
          /\ BrokerApp.Source.content_type src = Broker.Feed.content_type feed)
  /\ (forall feed_id query fx1 resp fx2,
        Broker.feed_items w feed_id query fx1 = (Returned resp, fx2) ->
        (Broker.status resp = 404
         <-> ~ In feed_id (map BrokerApp.Source.feed_id BrokerApp.sources))).
Proof.
  assert (Hids : map BrokerApp.Source.feed_id BrokerApp.sources
                 = map Broker.Feed.feed_id Broker.FEEDS).
  { unfold BrokerApp.sources. rewrite map_map. reflexivity. }
  split; [reflexivity|]. split; [exact Hids|].
  split; [rewrite Hids; apply catalog_ids_distinct|]. split.
  - intros src Hsrc. unfold BrokerApp.sources in Hsrc. apply in_map_iff in Hsrc.
    destruct Hsrc as (feed & <- & Hin). exists feed.
    cbn [BrokerApp.Source.feed_id BrokerApp.Source.name BrokerApp.Source.homepage
         BrokerApp.Source.content_type].
    split; [apply feed_of_listed; exact Hin | auto].
  - intros feed_id query fx1 resp fx2 Hrun. rewrite Hids.
    destruct (feed_items_status rt w feed_id query fx1) as (resp0 & fx0 & Hrun0 & Hstatus).
    rewrite Hrun in Hrun0. inversion Hrun0; subst resp0 fx0.
    assert (Hin : In feed_id (map Broker.Feed.feed_id Broker.FEEDS)
                  <-> in_catalog feed_id = true)
      by (unfold in_catalog; symmetry; apply array_includes_In).
    destruct (feed_of feed_id) as [feed|] eqn:Hfeed.
    + assert (Hcat : in_catalog feed_id = true) by (apply feed_of_in_catalog; eauto).
      split.
      * intros E. destruct Hstatus as [E'|E']; rewrite E' in E; discriminate.
      * intros Hno. contradiction Hno. apply Hin. exact Hcat.
    + apply feed_of_unknown in Hfeed. destruct Hstatus as [-> _].
      split; [|reflexivity]. intros _ Hyes. apply Hin in Hyes. congruence.
Qed.

(** X23. The listing of the sources of the smaller service:
    [GET /v1/sources] answers the feeds of its catalog in its order, each
    with feed_id and name, without any effect; its items route answers 404
    for a feed_id if and only if the feed_id is not listed; and the two
    services list the same feed_ids, in another order. *)
Theorem server_sources_listing w fx :
  ServerApp.route w ServerApp.GetSources fx
  = (Returned (ServerApp.SourcesJson ServerApp.sources), fx)
  /\ map ServerApp.Source.feed_id ServerApp.sources = map Server.Feed.feed_id Server.FEEDS
  /\ map ServerApp.Source.name ServerApp.sources = map Server.Feed.name Server.FEEDS
  /\ (forall feed_id fx1 resp fx2,
        Server.feed_items w feed_id fx1 = (Returned resp, fx2) ->
        (Server.status resp = 404
         <-> ~ In feed_id (map ServerApp.Source.feed_id ServerApp.sources)))
  /\ Permutation (map ServerApp.Source.feed_id ServerApp.sources)
                 (map BrokerApp.Source.feed_id BrokerApp.sources).
Proof.
  assert (Hids : map ServerApp.Source.feed_id ServerApp.sources
                 = map Server.Feed.feed_id Server.FEEDS).
  { unfold ServerApp.sources. rewrite map_map. reflexivity. }
  split; [reflexivity|]. split; [exact Hids|].
  split; [unfold ServerApp.sources; rewrite map_map; reflexivity|]. split.
  - intros feed_id fx1 resp fx2 Hrun. rewrite Hids.
    destruct (server_feed_items_status w feed_id fx1) as (resp0 & fx0 & Hrun0 & Hcase).
    rewrite Hrun in Hrun0. inversion Hrun0; subst resp0 fx0.
    unfold server_feed_of in Hcase.
    destruct (find _ Server.FEEDS) as [feed|] eqn:Hfind.
    + apply find_some in Hfind. destruct Hfind as [Hin Heq]. apply String.eqb_eq in Heq.
      split.
      * intros E. destruct Hcase as [E'|E']; rewrite E' in E; discriminate.
      * intros Hno. contradiction Hno. rewrite <- Heq. apply in_map, Hin.
    + destruct Hcase as [-> _]. split; [|reflexivity].
      intros _ Hyes. apply in_map_iff in Hyes. destruct Hyes as (f & Hid & Hin).
      apply (find_none _ _ Hfind) in Hin. rewrite Hid, String.eqb_refl in Hin. discriminate.
  - cbn.
    apply (perm_trans (l' := ["ppc_land"; "tubefilter"; "hollywood_reporter"; "publishpress";
                              "google_news_youtube_series_us_en";
                              "tiktok_creativecenter_trends"]));
      [apply perm_swap|].
    do 2 apply perm_skip. apply perm_swap.
Qed.

(** ** The digest as a function of the provider's replies *)

Section DigestAnswer.
Context {rt : StringRuntime}.
Import Broker.

Lemma gather_batches w exclude iso feeds all fx all' fx' :
  gather w exclude iso feeds all fx = (Returned all', fx') ->
  exists batches,
    Forall2 (delivered w exclude) (digest_replies w iso (length (requests fx)) feeds) batches
    /\ all' = all ++ concat batches.
Proof.
  revert all fx. induction feeds as [|feed feeds IH]; intros all fx.
  - simpl. unfold ret. intros H. inversion H; subst. exists [].
    split; [constructor | cbn; rewrite app_nil_r; reflexivity].
  - cbn [gather digest_replies]. unfold bind at 1.
    rewrite newsapiEverything_run, digest_search_request.
    destruct (truthy (NEWSAPI_KEY w)); [|discriminate]. cbv zeta.
    destruct (provider w _ _) as [e|r] eqn:Hr; [discriminate|].
    destruct (resp_ok r) eqn:Hok; [|discriminate].
    destruct (resp_json r) as [e|data] eqn:Hjson; [discriminate|].
    unfold bind at 1.
    match goal with
    | |- context [mapM ?f ?l ?fx0] => destruct (mapM f l fx0) as [[mapped|e] fx2] eqn:Hmap
    end; [|discriminate].
    pose proof (mapM_mapArticle_effects _ _ _ _ _ _ _ Hmap) as Hreq. cbn [requests] in Hreq.
    apply mapM_normalized in Hmap.
    intros H. apply IH in H. destruct H as (batches & Hbatches & ->).
    rewrite Hreq, length_app, Nat.add_1_r in Hbatches.
    exists (mapped :: batches). split.
    + constructor; [|exact Hbatches]. exists r, data. auto.
    + cbn [concat]. rewrite app_assoc. reflexivity.
Qed.

Lemma slice0_length {A : Type} (arr : list A) (e : Z) :
  length (slice0 arr e)
  = Z.to_nat (if e <? 0 then Z.max (Z.of_nat (length arr) + e) 0
              else Z.min e (Z.of_nat (length arr))).
Proof.
  unfold slice0. cbv zeta. rewrite length_firstn.
  destruct (e <? 0) eqn:He; [apply Z.ltb_lt in He | apply Z.ltb_ge in He]; lia.
Qed.

Lemma ranked_length (items : list Item.t) (section : string) :
  length (ranked items section) = length items.
Proof. apply Permutation_length, ranked_stable_descending. Qed.

End DigestAnswer.

(** X24. The digest as a function of the provider's replies.  When the
    digest route answers 200, the start of the window was rendered, the
    provider answered the search of every selected feed (in the order of the
    catalog, as consecutive requests) with an ok response that parses, and the
    digest is the one composed from the articles of these replies, feed after
    feed and in the provider's order, each one normalized; generated_at is
    the rendering of a reading of the clock. *)
Theorem digest_route_answer (rt : StringRuntime) w body fx resp fx' :
  Broker.newsletter_digest w body fx = (Returned resp, fx') ->
  Broker.status resp = 200 ->
  exists iso batches generated_at,
    toISOString w (window_start w body fx) = Some iso
    /\ Forall2 (delivered w (requested_exclude body))
               (digest_replies w iso (length (requests fx))
                  (Broker.selected (requested_sources body)))
               batches
    /\ (exists n, toISOString w (clock w n) = Some generated_at)
    /\ Broker.body resp = Broker.DigestJson (composed body (concat batches) generated_at).
Proof.
  intros H Hstatus. apply newsletter_digest_status in H.
  destruct H as [[E _]|[E|(iso & all & generated_at & fx2 & Hiso & Hg & Hnow & ->)]];
    [rewrite E in Hstatus; discriminate | rewrite E in Hstatus; discriminate |].
  apply gather_batches in Hg. destruct Hg as (batches & Hbatches & ->).
  cbn [requests app] in Hbatches.
  exists iso, batches, generated_at. split; [exact Hiso|]. split; [exact Hbatches|].
  split; [|reflexivity].
  rewrite isoNow_run in Hnow. exists (clock_reads fx2).
  destruct (toISOString w (clock w (clock_reads fx2))) as [s|]; inversion Hnow. reflexivity.
Qed.

Lemma digest_route_answer_witness :
  exists resp fx' batch1 batch2 generated_at,
    Broker.newsletter_digest (rt := ascii_runtime)
      (Samples.world (JString "newsapi-key") (JString "broker-key")
         [Samples.tiktok_story; Samples.undated_story])
      (Samples.digest_request ["tubefilter"; "ppc_land"] None) no_effects
    = (Returned resp, fx')
    /\ Broker.status resp = 200
    /\ Forall2 (normalized (rt := ascii_runtime)
                  (Samples.world (JString "newsapi-key") (JString "broker-key")
                     [Samples.tiktok_story; Samples.undated_story])
                  Broker.ppc_land ["linear"; "streaming"])
               [Samples.tiktok_story; Samples.undated_story] batch1
    /\ Forall2 (normalized (rt := ascii_runtime)
                  (Samples.world (JString "newsapi-key") (JString "broker-key")
                     [Samples.tiktok_story; Samples.undated_story])
                  Broker.tubefilter ["linear"; "streaming"])
               [Samples.tiktok_story; Samples.undated_story] batch2
    /\ Broker.body resp
       = Broker.DigestJson
           (composed (rt := ascii_runtime)
              (Samples.digest_request ["tubefilter"; "ppc_land"] None)
              (batch1 ++ batch2) generated_at).
Proof.
  destruct (Broker.newsletter_digest (rt := ascii_runtime)
              (Samples.world (JString "newsapi-key") (JString "broker-key")
                 [Samples.tiktok_story; Samples.undated_story])
              (Samples.digest_request ["tubefilter"; "ppc_land"] None) no_effects)
    as [[resp|e] fx'] eqn:H.
  - assert (Hstatus : Broker.status resp = 200)
      by (vm_compute in H; inversion H; reflexivity).
    destruct (digest_route_answer ascii_runtime _ _ _ _ _ H Hstatus)
      as (iso & batches & generated_at & _ & Hbatches & _ & Hbody).
    change (Broker.selected
              (requested_sources (Samples.digest_request ["tubefilter"; "ppc_land"] None)))
      with [Broker.ppc_land; Broker.tubefilter] in Hbatches.
    cbn [digest_replies] in Hbatches.
    inversion Hbatches as [|? batch1 ? rest (r1 & d1 & Hr1 & _ & Hj1 & Hn1) Hrest]; subst.
    inversion Hrest as [|? batch2 ? rest' (r2 & d2 & Hr2 & _ & Hj2 & Hn2) Hnil]; subst.
    inversion Hnil; subst.
    cbn [snd fst] in *.
    vm_compute in Hr1. inversion Hr1; subst r1. cbn [resp_json] in Hj1. inversion Hj1; subst d1.
    vm_compute in Hr2. inversion Hr2; subst r2. cbn [resp_json] in Hj2. inversion Hj2; subst d2.
    exists resp, fx', batch1, batch2, generated_at.
    split; [reflexivity|]. split; [exact Hstatus|]. split; [exact Hn1|]. split; [exact Hn2|].
    rewrite Hbody. cbn [concat]. rewrite app_nil_r. reflexivity.
  - vm_compute in H. discriminate.
Defined.

(** X25. The four sections of a digest always have the same number of
    entries: each one ranks all the candidates, so the sections do not divide
    the candidates among themselves.  As long as fewer than 200 items are
    cited and max_items_per_section is not negative, that number is the
    smaller of max_items_per_section and the number of citations. *)
Theorem digest_sections_same_length (rt : StringRuntime) w body fx resp fx' :
  Broker.newsletter_digest w body fx = (Returned resp, fx') ->
  Broker.status resp = 200 ->
  exists digest n,
    Broker.body resp = Broker.DigestJson digest
    /\ map (fun s => length (Broker.DigestSection.items s)) (Broker.Digest.sections digest)
       = [n; n; n; n]
    /\ ((length (Broker.Digest.citations digest) < 200)%nat ->
        0 <= requested_max body ->
        n = Nat.min (Z.to_nat (requested_max body))
                    (length (Broker.Digest.citations digest))).
Proof.
  intros H Hstatus. apply newsletter_digest_status in H.
  destruct H as [[E _]|[E|(iso & all & generated_at & fx2 & _ & _ & _ & ->)]];
    [rewrite E in Hstatus; discriminate | rewrite E in Hstatus; discriminate |].
  exists (composed body all generated_at).
  cbn [composed Broker.Digest.sections Broker.Digest.citations].
  set (items := Broker.candidates (requested_filter body) all).
  exists (length (slice0 items (requested_max body))).
  split; [reflexivity|]. split.
  - cbn [map Broker.section_names Broker.DigestSection.items].
    unfold Broker.section_items. rewrite !length_map, !slice0_length, !ranked_length.
    reflexivity.
  - intros Hfew Hmax.
    destruct (citations_first_200 items) as [Hcit _]. rewrite Hcit in *.
    rewrite length_map, length_firstn in *.
    rewrite slice0_length.
    replace (requested_max body <? 0) with false by (symmetry; apply Z.ltb_ge; lia).
    lia.
Qed.

(** Three candidates and two entries asked for: every section has two. *)
Lemma digest_sections_same_length_witness :
  exists resp fx' digest,
    Broker.newsletter_digest (rt := ascii_runtime)
      (Samples.world (JString "newsapi-key") (JString "broker-key")
         [Samples.tiktok_story; Samples.youtube_story; Samples.newsletter_story])
      (Samples.digest_request ["tubefilter"] (Some 2)) no_effects
    = (Returned resp, fx')
    /\ Broker.status resp = 200
    /\ Broker.body resp = Broker.DigestJson digest
    /\ map (fun s => length (Broker.DigestSection.items s)) (Broker.Digest.sections digest)
       = [2; 2; 2; 2]%nat.
Proof.
  destruct (Broker.newsletter_digest (rt := ascii_runtime)
              (Samples.world (JString "newsapi-key") (JString "broker-key")
                 [Samples.tiktok_story; Samples.youtube_story; Samples.newsletter_story])
              (Samples.digest_request ["tubefilter"] (Some 2)) no_effects)
    as [[resp|e] fx'] eqn:H.
  - assert (Hstatus : Broker.status resp = 200)
      by (vm_compute in H; inversion H; reflexivity).
    destruct (digest_sections_same_length ascii_runtime _ _ _ _ _ H Hstatus)
      as (digest & n & Hbody & Hlen & Hn).
    exists resp, fx', digest. split; [reflexivity|]. split; [exact Hstatus|].
    split; [exact Hbody|].
    assert (Hcit : length (Broker.Digest.citations digest) = 3%nat).
    { vm_compute in H. inversion H; subst resp. cbn [Broker.body] in Hbody.
      inversion Hbody. reflexivity. }
    rewrite Hcit in Hn. rewrite Hlen, Hn; [reflexivity | lia | vm_compute; discriminate].
  - vm_compute in H. discriminate.
Defined.
